(** * claude-mail: the deterministic priority-scoring pipeline

    A shallow embedding of the components of [src/core/features]:

    - [PriorityScorer.calculatePriority]  (PriorityScorer.ts)
    - [RelationshipScorer.calculateRelationshipScore]  (same file, further down)
    - [ContentAnalyzer.detectUrgency], [classifyIntent], [isMeetingRelated]
      and [isFinancialRelated]  (the ContentAnalyzer class)
    - [CalendarGate.detect] and [checkCalendarService]  (PriorityScorer.ts)
    - [NewsletterGate.detect] with its five checks  (the NewsletterGate class)
    - [OTPGate.detect], [determineOTPType] and [calculateUrgency]  (OTPGate.ts)

    Numbers.  A JavaScript [number] that the code treats as a count, a flag or
    an epoch is a [Z]; one that carries a fraction (scores, probabilities,
    confidences) is an exact rational [Q].  IEEE rounding is outside the
    model, and so are NaN and the infinities, except where [OTPGate] can
    produce them ([JSNumber]).  [Math.round] is [floor (x + 1/2)],
    [Math.floor] is [Qfloor] (or [Z.div] on integers), [Math.min]/[Math.max]
    are [Qmin]/[Qmax].

    Truthiness.  [if (x)] on a number is "x is not 0", on a nullable number
    "x is neither null nor 0"; the code mixes both with explicit [!== null]
    tests and the embedding keeps them apart.

    Time.  [Date.now()] is the explicit argument [dateNow] (milliseconds). *)

From Stdlib Require Import ZArith QArith Qround Qminmax Qabs Lqa Lia Ascii String.
From stdpp Require Import base gmap strings pretty sorting.

Local Open Scope Z_scope.

(** ** JavaScript helpers *)

Module JS.

(** [if (n)] for [n : number]. *)
Definition truthy (n : Z) : bool := negb (n =? 0).

(** [if (n)] for [n : number | null]. *)
Definition truthy_opt (n : option Z) : bool :=
  match n with
  | Some v => truthy v
  | None => false
  end.

Definition Qlt_bool (x y : Q) : bool := negb (Qle_bool y x).

(** [Math.round]: nearest integer, ties towards plus infinity. *)
Definition Math_round (x : Q) : Z := Qfloor (x + (1 # 2))%Q.

(** Left-pad a digit string with zeros up to length [n]. *)
Fixpoint zeros (n : nat) : string :=
  match n with
  | O => EmptyString
  | S k => "0" +:+ zeros k
  end.

Definition pad_left (n : nat) (s : string) : string :=
  zeros (n - String.length s) +:+ s.

Fixpoint take (n : nat) (s : string) : string :=
  match n, s with
  | S k, String c r => String c (take k r)
  | _, _ => EmptyString
  end.

Fixpoint drop (n : nat) (s : string) : string :=
  match n, s with
  | S k, String _ r => drop k r
  | _, _ => s
  end.

(** [Number.prototype.toFixed(f)] (for magnitudes below 1e21): the integer
    [n] nearest to [x * 10^f], the larger one on a tie, printed with the
    decimal point [f] places from the right. *)
Definition toFixed (f : nat) (x : Q) : string :=
  let sign := if Qlt_bool x 0 then "-" else "" in
  let n := Qfloor (Qabs x * inject_Z (10 ^ Z.of_nat f) + (1 # 2))%Q in
  let m := pretty (Z.to_N n) in
  match f with
  | O => sign +:+ m
  | _ =>
      let m := pad_left (S f) m in
      let k := String.length m in
      sign +:+ take (k - f) m +:+ "." +:+ drop (k - f) m
  end.

End JS.

(** ** MessageFeatures and PriorityScore *)

Inductive Intent := request | inform | schedule | confirm.

(** Modelled from the spec: the [MessageFeatures] interface is declared in
    [FeatureExtractor.ts], which is not among the sources.  The fields are
    those of the specification's data model, under the names and with the
    types of the [message_features] table in [database.ts] and of
    [createBaselineFeatures] in the scorer's test-suite: INTEGER columns are
    [Z], REAL columns are [Q], nullable columns are options. *)
Record MessageFeatures := {
  email_id : string;
  (* Deterministic gates *)
  is_newsletter : Z;
  is_auto_generated : Z;
  has_list_unsubscribe : Z;
  has_list_id : Z;
  has_auto_submitted : Z;
  has_calendar : Z;
  calendar_start_epoch : option Z;
  otp_detected : Z;
  otp_age_minutes : option Z;
  (* Relationship features *)
  relationship_score : Q;
  is_vip_sender : Z;
  reply_count_from_user : Z;
  reply_count_to_user : Z;
  last_interaction_epoch : option Z;
  (* Thread context *)
  thread_you_owe : Z;
  thread_recency_minutes : option Z;
  thread_length : Z;
  (* Content intent *)
  explicit_ask : Z;
  deadline_epoch : option Z;
  time_to_deadline_min : option Z;
  content_intent : option Intent;
  (* Reply prediction *)
  reply_need_prob : Q;
  reply_latency_bucket : Z
}.

Inductive Category := urgent | important | normal | low | spam.

Record PriorityScore := {
  ps_email_id : string;
  score : Z;
  category : Category;
  confidence : Q;
  reasoning : list string;
  feature_weights : gmap string Q
}.

(** The test-suite's neutral record: every flag 0, every optional field null,
    no relationship, a thread of one message. *)
Definition createBaselineFeatures (emailId : string) : MessageFeatures := {|
  email_id := emailId;
  is_newsletter := 0;
  is_auto_generated := 0;
  has_list_unsubscribe := 0;
  has_list_id := 0;
  has_auto_submitted := 0;
  has_calendar := 0;
  calendar_start_epoch := None;
  otp_detected := 0;
  otp_age_minutes := None;
  relationship_score := 0%Q;
  is_vip_sender := 0;
  reply_count_from_user := 0;
  reply_count_to_user := 0;
  last_interaction_epoch := None;
  thread_you_owe := 0;
  thread_recency_minutes := None;
  thread_length := 1;
  explicit_ask := 0;
  deadline_epoch := None;
  time_to_deadline_min := None;
  content_intent := None;
  reply_need_prob := 0%Q;
  reply_latency_bucket := 3
|}.

(** ** PriorityScorer.calculatePriority *)

Module PriorityScorer.
Import JS.

Module WEIGHTS.
(* Negative signals *)
Definition NEWSLETTER_PENALTY : Q := -30.
Definition AUTO_GENERATED_PENALTY : Q := -20.
Definition OTP_PENALTY : Q := -35.
(* Positive signals *)
Definition RELATIONSHIP_MAX : Q := 30.
Definition EXPLICIT_ASK : Q := 20.
Definition DEADLINE_BONUS : Q := 15.
Definition URGENT_DEADLINE_BONUS : Q := 25.
Definition URGENCY_MULTIPLIER : Q := 5.
Definition VIP_SENDER : Q := 15.
Definition THREAD_YOU_OWE : Q := 20.
Definition REPLY_NEED_MAX : Q := 25.
(* Intent modifiers *)
Definition INTENT_CONFIRM : Q := 10.
Definition INTENT_REQUEST : Q := 5.
Definition INTENT_SCHEDULE : Q := 0.
Definition INTENT_INFORM : Q := -5.
End WEIGHTS.

Module CATEGORIES.
Definition URGENT : Q := 90.
Definition IMPORTANT : Q := 70.
Definition NORMAL : Q := 50.
Definition LOW : Q := 30.
End CATEGORIES.

(** The four locals the method body mutates. *)
Record Locals := {
  l_score : Q;
  l_confidence : Q;
  l_reasoning : list string;
  l_featureWeights : gmap string Q
}.

Definition initial : Locals :=
  {| l_score := 50%Q; l_confidence := 0.8%Q; l_reasoning := []; l_featureWeights := ∅ |}.

(** [score = g(score)] *)
Definition upd_score (g : Q → Q) (st : Locals) : Locals :=
  {| l_score := g (l_score st); l_confidence := l_confidence st;
     l_reasoning := l_reasoning st; l_featureWeights := l_featureWeights st |}.

(** [confidence = g(confidence)] *)
Definition upd_confidence (g : Q → Q) (st : Locals) : Locals :=
  {| l_score := l_score st; l_confidence := g (l_confidence st);
     l_reasoning := l_reasoning st; l_featureWeights := l_featureWeights st |}.

(** [reasoning.push(r)] *)
Definition push (r : string) (st : Locals) : Locals :=
  {| l_score := l_score st; l_confidence := l_confidence st;
     l_reasoning := l_reasoning st ++ [r]; l_featureWeights := l_featureWeights st |}.

(** [featureWeights[k] = v] *)
Definition weigh (k : string) (v : Q) (st : Locals) : Locals :=
  {| l_score := l_score st; l_confidence := l_confidence st;
     l_reasoning := l_reasoning st; l_featureWeights := <[k := v]> (l_featureWeights st) |}.

(** [score += w; reasoning.push(r); featureWeights[k] = w] *)
Definition signal (w : Q) (r k : string) (st : Locals) : Locals :=
  weigh k w (push r (upd_score (λ s, s + w)%Q st)).

(** PHASE 1: negative signals. *)
Definition phase1 (features : MessageFeatures) (st : Locals) : Locals :=
  let st :=
    if truthy (is_newsletter features)
    then signal WEIGHTS.NEWSLETTER_PENALTY
           "Newsletter detected (RFC 2369/2919)" "is_newsletter" st
    else st in
  let st :=
    if truthy (is_auto_generated features) && negb (truthy (has_calendar features))
    then signal WEIGHTS.AUTO_GENERATED_PENALTY
           "Auto-generated email (RFC 3834)" "is_auto_generated" st
    else st in
  let st :=
    if truthy (otp_detected features)
    then upd_confidence (λ c, Qmin c 0.6)
           (signal WEIGHTS.OTP_PENALTY
              "OTP/2FA code detected (low interaction priority)" "otp_detected" st)
    else st in
  st.

(** The deadline block of phase 2. *)
Definition deadline_block (features : MessageFeatures) (st : Locals) : Locals :=
  if truthy_opt (deadline_epoch features) then
    let st := signal WEIGHTS.DEADLINE_BONUS "Email has deadline" "deadline_epoch" st in
    match time_to_deadline_min features with
    | Some ttd =>
        if ttd <? 1440 then
          let hours := ttd / 60 in
          upd_confidence (λ c, Qmin (c + 0.1) 1)
            (signal WEIGHTS.URGENT_DEADLINE_BONUS
               ("Deadline in " +:+ pretty hours +:+ "h (urgent)")
               "time_to_deadline_urgent" st)
        else st
    | None => st
    end
  else st.

(** PHASE 2: positive signals. *)
Definition phase2 (features : MessageFeatures) (st : Locals) : Locals :=
  let st :=
    if Qlt_bool 0 (relationship_score features) then
      let relationshipPoints :=
        (relationship_score features * WEIGHTS.RELATIONSHIP_MAX)%Q in
      let st := upd_score (λ s, s + relationshipPoints)%Q st in
      let st :=
        if Qlt_bool 0.7 (relationship_score features) then
          push ("Strong relationship with sender (score: "
                +:+ toFixed 2 (relationship_score features) +:+ ")") st
        else if Qlt_bool 0.4 (relationship_score features) then
          push ("Moderate relationship with sender (score: "
                +:+ toFixed 2 (relationship_score features) +:+ ")") st
        else st in
      weigh "relationship_score" relationshipPoints st
    else st in
  let st :=
    if truthy (is_vip_sender features)
    then signal WEIGHTS.VIP_SENDER "VIP sender (manually flagged)" "is_vip_sender" st
    else st in
  let st :=
    if truthy (explicit_ask features)
    then signal WEIGHTS.EXPLICIT_ASK
           "Contains explicit question or request" "explicit_ask" st
    else st in
  let st := deadline_block features st in
  let st :=
    if truthy (thread_you_owe features)
    then signal WEIGHTS.THREAD_YOU_OWE
           "Conversation continuation (you owe a reply)" "thread_you_owe" st
    else st in
  let st :=
    if Qlt_bool 0.5 (reply_need_prob features) then
      let replyPoints := (reply_need_prob features * WEIGHTS.REPLY_NEED_MAX)%Q in
      signal replyPoints
        ("High reply probability ("
         +:+ toFixed 0 (reply_need_prob features * 100)%Q +:+ "%)")
        "reply_need_prob" st
    else st in
  st.

(** PHASE 3: intent modifiers ([schedule] and [null] add nothing). *)
Definition phase3 (features : MessageFeatures) (st : Locals) : Locals :=
  match content_intent features with
  | Some confirm =>
      signal WEIGHTS.INTENT_CONFIRM "Requires confirmation" "intent_confirm" st
  | Some request =>
      signal WEIGHTS.INTENT_REQUEST "Action request" "intent_request" st
  | Some inform =>
      signal WEIGHTS.INTENT_INFORM "Informational (lower priority)" "intent_inform" st
  | _ => st
  end.

(** The calendar override of phase 4; [now] is in seconds. *)
Definition calendar_block (dateNow : Z) (features : MessageFeatures) (st : Locals)
  : Locals :=
  match calendar_start_epoch features with
  | Some start =>
      if truthy (has_calendar features) && truthy start then
        let now := dateNow / 1000 in
        let timeToEvent := start - now in
        let hoursToEvent := (inject_Z timeToEvent / 3600)%Q in
        if Qlt_bool 0 hoursToEvent && Qlt_bool hoursToEvent 24 then
          upd_confidence (λ c, Qmin (c + 0.15) 1)
            (push ("Calendar invite: event in " +:+ pretty (Qfloor hoursToEvent) +:+ "h")
               (upd_score (λ s, Qmax s CATEGORIES.IMPORTANT) st))
        else st
      else st
  | None => st
  end.

(** The "security alert" override of phase 4. *)
Definition security_block (features : MessageFeatures) (st : Locals) : Locals :=
  match time_to_deadline_min features with
  | Some ttd =>
      if truthy_opt (deadline_epoch features) && (ttd <? 360)
         && truthy (explicit_ask features)
      then
        upd_confidence (λ _, 0.7%Q)
          (push "Potential security alert (urgent + short deadline)"
             (upd_score (λ s, Qmax s (CATEGORIES.URGENT - 5)) st))
      else st
  | None => st
  end.

(** PHASE 4: special cases and overrides. *)
Definition phase4 (dateNow : Z) (features : MessageFeatures) (st : Locals) : Locals :=
  security_block features (calendar_block dateNow features st).

Definition categorize (score : Q) : Category :=
  if Qle_bool CATEGORIES.URGENT score then urgent
  else if Qle_bool CATEGORIES.IMPORTANT score then important
  else if Qle_bool CATEGORIES.NORMAL score then normal
  else if Qle_bool CATEGORIES.LOW score then low
  else spam.

(** PHASE 5: clamp, categorize, clamp the confidence, round. *)
Definition phase5 (features : MessageFeatures) (st : Locals) : PriorityScore :=
  let score := Qmax 0 (Qmin 100 (l_score st)) in
  let category := categorize score in
  let confidence := Qmax 0 (Qmin 1 (l_confidence st)) in
  {| ps_email_id := email_id features;
     score := Math_round score;
     category := category;
     confidence := confidence;
     reasoning := l_reasoning st;
     feature_weights := l_featureWeights st |}.

(** The locals after the additive phases 1-3. *)
Definition accumulate (features : MessageFeatures) : Locals :=
  phase3 features (phase2 features (phase1 features initial)).

Definition calculatePriority (dateNow : Z) (features : MessageFeatures) : PriorityScore :=
  phase5 features (phase4 dateNow features (accumulate features)).

End PriorityScorer.

(** ** The weight table read as a linear model

    What each rule contributes, as a function of the feature record alone;
    [accumulate_score] and [confidence_trace] below show that the method body
    computes exactly this. *)

Module LinearModel.
Import JS PriorityScorer.

Definition deadline_urgent (f : MessageFeatures) : bool :=
  truthy_opt (deadline_epoch f)
  && match time_to_deadline_min f with
     | Some ttd => ttd <? 1440
     | None => false
     end.

Definition calendar_soon (dateNow : Z) (f : MessageFeatures) : bool :=
  truthy (has_calendar f)
  && match calendar_start_epoch f with
     | Some start =>
         truthy start && (0 <? start - dateNow / 1000)
         && (start - dateNow / 1000 <? 24 * 3600)
     | None => false
     end.

Definition security_alert (f : MessageFeatures) : bool :=
  truthy_opt (deadline_epoch f)
  && match time_to_deadline_min f with
     | Some ttd => ttd <? 360
     | None => false
     end
  && truthy (explicit_ask f).

Definition phase1_points (f : MessageFeatures) : Q :=
  (if truthy (is_newsletter f) then -30 else 0)
  + (if truthy (is_auto_generated f) && negb (truthy (has_calendar f)) then -20 else 0)
  + (if truthy (otp_detected f) then -35 else 0).

Definition deadline_points (f : MessageFeatures) : Q :=
  if truthy_opt (deadline_epoch f)
  then 15 + (if deadline_urgent f then 25 else 0)
  else 0.

(** Phase 2 without the deadline block. *)
Definition phase2_points (f : MessageFeatures) : Q :=
  (if Qlt_bool 0 (relationship_score f) then relationship_score f * 30 else 0)
  + (if truthy (is_vip_sender f) then 15 else 0)
  + (if truthy (explicit_ask f) then 20 else 0)
  + (if truthy (thread_you_owe f) then 20 else 0)
  + (if Qlt_bool 0.5 (reply_need_prob f) then reply_need_prob f * 25 else 0).

Definition phase3_points (f : MessageFeatures) : Q :=
  match content_intent f with
  | Some confirm => 10
  | Some request => 5
  | Some inform => -5
  | Some schedule | None => 0
  end.

Definition additive_total (f : MessageFeatures) : Q :=
  50 + phase1_points f + phase2_points f + deadline_points f + phase3_points f.

End LinearModel.

(** ** RelationshipScorer.calculateRelationshipScore

    The two SQL statements of [analyzeEmailHistory] and [Math.exp] are the
    scorer's collaborators: they are the section's variables.  An
    [EmailRecord] is kept as its id and its parsed date,
    [new Date(r.date).getTime()], in milliseconds. *)

Record EmailRecord := {
  er_id : string;
  date : Z
}.

Record EmailHistoryStats := {
  emails_received : Z;
  emails_sent_to : Z;
  user_replies_count : Z;
  sender_replies_count : Z;
  two_way_exchanges : Z;
  first_contact_epoch : option Z;
  last_contact_epoch : option Z;
  avg_reply_latency_minutes : option Q;
  total_interaction_days : Z
}.

Record RelationshipComponents := {
  reply_frequency : Q;
  c_two_way_exchanges : Q;
  recency : Q;
  email_volume : Q;
  manual_vip : Q
}.

Record RelationshipScore := {
  sender_email : string;
  rs_score : Q;
  is_vip : Z;
  components : RelationshipComponents;
  stats : EmailHistoryStats
}.

Module RelationshipScorer.
Import JS.

Module WEIGHTS.
Definition REPLY_FREQUENCY : Q := 0.35.
Definition TWO_WAY_EXCHANGES : Q := 0.25.
Definition RECENCY : Q := 0.20.
Definition EMAIL_VOLUME : Q := 0.10.
Definition MANUAL_VIP : Q := 0.10.
End WEIGHTS.

Definition SIX_MONTHS_MS : Z := 6 * 30 * 24 * 60 * 60 * 1000.
Definition IDEAL_REPLY_RATIO : Q := 0.5.
Definition SPAM_THRESHOLD : Q := 100.
Definition RECENCY_DECAY_DAYS : Q := 90.
Definition SEVEN_DAYS_MS : Z := 7 * 24 * 60 * 60 * 1000.

(** [xs.sort(cmp)] where [cmp(a, b) <= 0] is [leb a b]; stable. *)
Fixpoint insert_sorted {A} (leb : A → A → bool) (x : A) (xs : list A) : list A :=
  match xs with
  | [] => [x]
  | y :: ys => if leb y x then y :: insert_sorted leb x ys else x :: xs
  end.

Definition sort {A} (leb : A → A → bool) (xs : list A) : list A :=
  fold_left (λ acc x, insert_sorted leb x acc) xs [].

(** Emails the user sent within seven days after some received one. *)
Definition countUserReplies (receivedEmails sentEmails : list EmailRecord) : Z :=
  fold_left
    (λ count sentEmail,
       let sentTime := date sentEmail in
       let hasRecentReceived :=
         existsb (λ received,
                    let timeDiff := sentTime - date received in
                    (0 <? timeDiff) && (timeDiff <? SEVEN_DAYS_MS))
                 receivedEmails in
       if hasRecentReceived then count + 1 else count)
    sentEmails 0.

(** Emails received within seven days after some sent one. *)
Definition countSenderReplies (sentEmails receivedEmails : list EmailRecord) : Z :=
  fold_left
    (λ count receivedEmail,
       let receivedTime := date receivedEmail in
       let hasRecentSent :=
         existsb (λ sent,
                    let timeDiff := receivedTime - date sent in
                    (0 <? timeDiff) && (timeDiff <? SEVEN_DAYS_MS))
                 sentEmails in
       if hasRecentSent then count + 1 else count)
    receivedEmails 0.

Definition calculateAverageReplyLatency (receivedEmails sentEmails : list EmailRecord)
  : option Q :=
  let latencies :=
    fold_left
      (λ latencies sentEmail,
         let sentTime := date sentEmail in
         let earlier := filter (λ r, date r < sentTime) receivedEmails in
         match sort (λ a b, date b <=? date a) earlier with
         | recentReceived :: _ =>
             let latencyMs := sentTime - date recentReceived in
             let latencyMinutes := (inject_Z latencyMs / inject_Z (1000 * 60))%Q in
             if Qlt_bool latencyMinutes (inject_Z (7 * 24 * 60))
             then latencies ++ [latencyMinutes]
             else latencies
         | [] => latencies
         end)
      sentEmails [] in
  match latencies with
  | [] => None
  | _ =>
      let sum := fold_left Qplus latencies 0%Q in
      Some (sum / inject_Z (Z.of_nat (length latencies)))%Q
  end.

Definition scoreReplyFrequency (stats : EmailHistoryStats) : Q :=
  if emails_received stats =? 0 then 0.5%Q
  else
    let replyRatio :=
      (inject_Z (user_replies_count stats) / inject_Z (emails_received stats))%Q in
    let deviation := Qabs (replyRatio - IDEAL_REPLY_RATIO) in
    Qmax 0 (1 - deviation * 2).

Definition scoreTwoWayExchanges (stats : EmailHistoryStats) : Q :=
  let totalEmails := emails_received stats + emails_sent_to stats in
  if totalEmails =? 0 then 0%Q
  else
    let exchangeRatio :=
      (inject_Z (two_way_exchanges stats) / inject_Z totalEmails)%Q in
    Qmin 1 (exchangeRatio * 2).

Definition scoreEmailVolume (stats : EmailHistoryStats) : Q :=
  if emails_received stats <? 5 then (inject_Z (emails_received stats) / 5)%Q
  else if emails_received stats <=? 50 then 1%Q
  else
    let penalty := ((inject_Z (emails_received stats) - 50) / SPAM_THRESHOLD)%Q in
    Qmax 0 (1 - penalty).

Section Collaborators.

(** [Math.exp]. *)
Variable Math_exp : Q → Q.

(** [SELECT * FROM emails WHERE sender_email = ? AND date >= ? ORDER BY date ASC] *)
Variable selectReceived : string → Z → list EmailRecord.

(** [... WHERE sender_email = ? AND recipient_emails LIKE ? AND date >= ? ...] *)
Variable selectSent : string → string → Z → list EmailRecord.

Definition scoreRecency (dateNow : Z) (stats : EmailHistoryStats) : Q :=
  match last_contact_epoch stats with
  | Some last =>
      if truthy last then
        let now := dateNow / 1000 in
        let daysSinceContact := (inject_Z (now - last) / inject_Z (24 * 60 * 60))%Q in
        let decayFactor := (daysSinceContact / RECENCY_DECAY_DAYS)%Q in
        let score := Math_exp (- decayFactor) in
        Qmax 0 (Qmin 1 score)
      else 0%Q
  | None => 0%Q
  end.

Definition analyzeEmailHistory (dateNow : Z) (senderEmail userEmail : string)
  : EmailHistoryStats :=
  let sixMonthsAgo := dateNow - SIX_MONTHS_MS in
  let receivedEmails := selectReceived senderEmail sixMonthsAgo in
  let sentEmails := selectSent userEmail senderEmail sixMonthsAgo in
  let userRepliesCount := countUserReplies receivedEmails sentEmails in
  let senderRepliesCount := countSenderReplies sentEmails receivedEmails in
  let twoWayExchanges := Z.min userRepliesCount senderRepliesCount in
  let avgReplyLatency := calculateAverageReplyLatency receivedEmails sentEmails in
  let allEmails := sort (λ a b, date a <=? date b) (receivedEmails ++ sentEmails) in
  let firstContact := (λ e, date e / 1000) <$> head allEmails in
  let lastContact := (λ e, date e / 1000) <$> last allEmails in
  let totalInteractionDays :=
    match firstContact, lastContact with
    | Some first, Some lst =>
        if truthy first && truthy lst
        then Qceiling (inject_Z (lst - first) / inject_Z (24 * 60 * 60))
        else 0
    | _, _ => 0
    end in
  {| emails_received := Z.of_nat (length receivedEmails);
     emails_sent_to := Z.of_nat (length sentEmails);
     user_replies_count := userRepliesCount;
     sender_replies_count := senderRepliesCount;
     two_way_exchanges := twoWayExchanges;
     first_contact_epoch := firstContact;
     last_contact_epoch := lastContact;
     avg_reply_latency_minutes := avgReplyLatency;
     total_interaction_days := totalInteractionDays |}.

Definition calculateRelationshipScore
    (dateNow : Z) (senderEmail userEmail : string) (isManualVIP : bool)
  : RelationshipScore :=
  let stats := analyzeEmailHistory dateNow senderEmail userEmail in
  let replyFrequencyScore := scoreReplyFrequency stats in
  let twoWayExchangeScore := scoreTwoWayExchanges stats in
  let recencyScore := scoreRecency dateNow stats in
  let emailVolumeScore := scoreEmailVolume stats in
  let manualVIPScore := if isManualVIP then 1%Q else 0%Q in
  let compositeScore :=
    (replyFrequencyScore * WEIGHTS.REPLY_FREQUENCY +
     twoWayExchangeScore * WEIGHTS.TWO_WAY_EXCHANGES +
     recencyScore * WEIGHTS.RECENCY +
     emailVolumeScore * WEIGHTS.EMAIL_VOLUME +
     manualVIPScore * WEIGHTS.MANUAL_VIP)%Q in
  let isNewSender := (emails_received stats =? 0) && (emails_sent_to stats =? 0) in
  let finalScore :=
    if isNewSender then 0.5%Q else Qmax 0 (Qmin 1 compositeScore) in
  {| sender_email := senderEmail;
     rs_score := finalScore;
     is_vip := if isManualVIP then 1 else 0;
     components :=
       {| reply_frequency := replyFrequencyScore;
          c_two_way_exchanges := twoWayExchangeScore;
          recency := recencyScore;
          email_volume := emailVolumeScore;
          manual_vip := manualVIPScore |};
     stats := stats |}.

End Collaborators.

End RelationshipScorer.

(** ** Regular expressions, as far as [URGENCY_SIGNALS] needs them

    Text is a string of 8-bit code units.  The matcher is a backtracking one
    in continuation-passing style; it carries the code unit before the
    current position, which is what [\b] looks at. *)

Module RegExp.

Inductive atom :=
| Chr (c : ascii)                (* a literal character *)
| OneOf (cs : list ascii)        (* [...] *)
| Range (lo hi : ascii).         (* [lo-hi] *)

Inductive regex :=
| Atom (a : atom)
| Lit (s : string)               (* a run of literal characters *)
| Seq (r1 r2 : regex)
| Alt (r1 r2 : regex)            (* r1|r2 *)
| Opt (r : regex)                (* (?:r)? *)
| Rep (n : nat) (a : atom)       (* a{n,}, greedy; a+ is a{1,} *)
| WordB.                         (* \b *)

Record RegExp := {
  source : string;
  ignoreCase : bool;
  body : regex
}.

Definition code (c : ascii) : N := N_of_ascii c.

Definition between (lo hi : N) (c : ascii) : bool :=
  ((lo <=? code c) && (code c <=? hi))%N.

(** [\w]: [A-Za-z0-9_]. *)
Definition is_word (c : ascii) : bool :=
  between 65 90 c || between 97 122 c || between 48 57 c || (code c =? 95)%N.

Definition is_word_at (c : option ascii) : bool :=
  match c with
  | Some c => is_word c
  | None => false
  end.

(** Canonicalize of the [i] flag: a-z to A-Z, everything else fixed. *)
Definition canonicalize (c : ascii) : ascii :=
  if between 97 122 c then ascii_of_N (code c - 32) else c.

Definition to_lower (c : ascii) : ascii :=
  if between 65 90 c then ascii_of_N (code c + 32) else c.

Definition same_char (i : bool) (x c : ascii) : bool :=
  if i then (code (canonicalize x) =? code (canonicalize c))%N
  else (code x =? code c)%N.

Definition atom_match (i : bool) (a : atom) (c : ascii) : bool :=
  match a with
  | Chr x => same_char i x c
  | OneOf cs => existsb (λ x, same_char i x c) cs
  | Range lo hi =>
      if i
      then between (code lo) (code hi) (canonicalize c)
           || between (code lo) (code hi) (to_lower (canonicalize c))
      else between (code lo) (code hi) c
  end.

Section Matcher.
Variable i : bool.

Fixpoint lit_match (l : list ascii) (prev : option ascii) (s : list ascii)
    (k : option ascii → list ascii → bool) : bool :=
  match l with
  | [] => k prev s
  | x :: l' =>
      match s with
      | c :: s' => same_char i x c && lit_match l' (Some c) s' k
      | [] => false
      end
  end.

(** Greedy [a{n,}]: take one more if possible, else stop once [n] are taken. *)
Fixpoint rep_match (a : atom) (n : nat) (prev : option ascii) (s : list ascii)
    (k : option ascii → list ascii → bool) : bool :=
  match s with
  | c :: s' =>
      (atom_match i a c && rep_match a (pred n) (Some c) s' k)
      || (Nat.eqb n 0 && k prev s)
  | [] => Nat.eqb n 0 && k prev s
  end.

Fixpoint matches (r : regex) (prev : option ascii) (s : list ascii)
    (k : option ascii → list ascii → bool) : bool :=
  match r with
  | Atom a =>
      match s with
      | c :: s' => atom_match i a c && k (Some c) s'
      | [] => false
      end
  | Lit l => lit_match (list_ascii_of_string l) prev s k
  | Seq r1 r2 => matches r1 prev s (λ p s', matches r2 p s' k)
  | Alt r1 r2 => matches r1 prev s k || matches r2 prev s k
  | Opt r1 => matches r1 prev s k || k prev s
  | Rep n a => rep_match a n prev s k
  | WordB => xorb (is_word_at prev) (is_word_at (head s)) && k prev s
  end.

(** Try every start position, left to right. *)
Fixpoint search (r : regex) (prev : option ascii) (s : list ascii) : bool :=
  matches r prev s (λ _ _, true)
  || match s with
     | c :: s' => search r (Some c) s'
     | [] => false
     end.
End Matcher.

(** [re.test(text)] *)
Definition test (re : RegExp) (text : string) : bool :=
  search (ignoreCase re) (body re) None (list_ascii_of_string text).

Declare Scope re_scope.
Delimit Scope re_scope with re.
Notation "a ∥ b" := (Alt a b) (at level 52, left associativity) : re_scope.
Notation "a ⋅ b" := (Seq a b) (at level 51, left associativity) : re_scope.

End RegExp.

(** ** ContentAnalyzer.detectUrgency *)

Record UrgencyResult := {
  urgency_level : Z;
  urgency_signals : list string
}.

Module ContentAnalyzer.
Import RegExp.
Local Open Scope re_scope.

(** [\b(r)\b] *)
Definition word (r : regex) : regex := WordB ⋅ r ⋅ WordB.

Module URGENCY_SIGNALS.

Definition CRITICAL : list RegExp := [
  {| source := "\b(urgent|emergency|critical|immediate(?:ly)?|asap|right away)\b";
     ignoreCase := true;
     body := word (Lit "urgent" ∥ Lit "emergency" ∥ Lit "critical"
                   ∥ Lit "immediate" ⋅ Opt (Lit "ly") ∥ Lit "asap" ∥ Lit "right away") |};
  {| source := "\b(time[- ]sensitive|time critical|priority)\b";
     ignoreCase := true;
     body := word (Lit "time" ⋅ Atom (OneOf ["-"; " "]%char) ⋅ Lit "sensitive"
                   ∥ Lit "time critical" ∥ Lit "priority") |};
  {| source := "\b(action required|response required|approval required)\b";
     ignoreCase := true;
     body := word (Lit "action required" ∥ Lit "response required"
                   ∥ Lit "approval required") |};
  {| source := "!!!+";
     ignoreCase := false;
     body := Lit "!!" ⋅ Rep 1 (Chr "!") |};
  {| source := "\bNOW\b";
     ignoreCase := false;
     body := word (Lit "NOW") |}
].

Definition HIGH : list RegExp := [
  {| source := "\b(soon|quickly|prompt(?:ly)?|expedite)\b";
     ignoreCase := true;
     body := word (Lit "soon" ∥ Lit "quickly" ∥ Lit "prompt" ⋅ Opt (Lit "ly")
                   ∥ Lit "expedite") |};
  {| source := "\b(high priority|important)\b";
     ignoreCase := true;
     body := word (Lit "high priority" ∥ Lit "important") |};
  {| source := "\b(need(?:ed)? (?:by|before))\b";
     ignoreCase := true;
     body := word (Lit "need" ⋅ Opt (Lit "ed") ⋅ Lit " " ⋅ (Lit "by" ∥ Lit "before")) |};
  {| source := "\b(deadline|due date)\b";
     ignoreCase := true;
     body := word (Lit "deadline" ∥ Lit "due date") |}
].

Definition MEDIUM : list RegExp := [
  {| source := "\b(timely|at your earliest convenience)\b";
     ignoreCase := true;
     body := word (Lit "timely" ∥ Lit "at your earliest convenience") |};
  {| source := "\b(follow[- ]?up|reminder)\b";
     ignoreCase := true;
     body := word (Lit "follow" ⋅ Opt (Atom (OneOf ["-"; " "]%char)) ⋅ Lit "up"
                   ∥ Lit "reminder") |};
  {| source := "\b(pending|waiting for)\b";
     ignoreCase := true;
     body := word (Lit "pending" ∥ Lit "waiting for") |}
].

End URGENCY_SIGNALS.

(** [/\b[A-Z]{3,}\b/g] *)
Definition ALL_CAPS_WORD : RegExp :=
  {| source := "\b[A-Z]{3,}\b";
     ignoreCase := false;
     body := word (Rep 3 (Range "A" "Z")) |}.

Definition LF : string := String "010" EmptyString.

(** One [for (const pattern of ...)] loop over the locals [(score, signals)]. *)
Definition scan (points : Z) (patterns : list RegExp) (fullText : string)
    (st : Z * list string) : Z * list string :=
  fold_left
    (λ '(score, signals) pattern,
       if test pattern fullText
       then (score + points, signals ++ [source pattern])
       else (score, signals))
    patterns st.

Definition detectUrgency (subject bodyText : string) : UrgencyResult :=
  let fullText := subject +:+ LF +:+ bodyText in
  let st := (0, []) in
  let st := scan 5 URGENCY_SIGNALS.CRITICAL fullText st in
  let st := scan 3 URGENCY_SIGNALS.HIGH fullText st in
  let st := scan 1 URGENCY_SIGNALS.MEDIUM fullText st in
  (* subject.match(...) is null, or the non-empty array of all matches *)
  let allCapsWords := test ALL_CAPS_WORD subject in
  let '(score, signals) :=
    if allCapsWords
    then (fst st + 2, snd st ++ ["ALL CAPS in subject"])
    else st in
  let urgencyLevel := Z.min 10 score in
  {| urgency_level := urgencyLevel; urgency_signals := signals |}.

End ContentAnalyzer.


(** ** Inputs used in the statements below *)

Module Fixtures.

(** [features.relationship_score = v] *)
Definition set_relationship_score (v : Q) (f : MessageFeatures) : MessageFeatures :=
  let '(Build_MessageFeatures a1 a2 a3 a4 a5 a6 a7 a8 a9 a10 _ a12 a13 a14 a15 a16
          a17 a18 a19 a20 a21 a22 a23 a24) := f in
  Build_MessageFeatures a1 a2 a3 a4 a5 a6 a7 a8 a9 a10 v a12 a13 a14 a15 a16
    a17 a18 a19 a20 a21 a22 a23 a24.

(** [features.is_newsletter = v] *)
Definition set_is_newsletter (v : Z) (f : MessageFeatures) : MessageFeatures :=
  let '(Build_MessageFeatures a1 _ a3 a4 a5 a6 a7 a8 a9 a10 a11 a12 a13 a14 a15 a16
          a17 a18 a19 a20 a21 a22 a23 a24) := f in
  Build_MessageFeatures a1 v a3 a4 a5 a6 a7 a8 a9 a10 a11 a12 a13 a14 a15 a16
    a17 a18 a19 a20 a21 a22 a23 a24.

(** [features.otp_detected = v] *)
Definition set_otp_detected (v : Z) (f : MessageFeatures) : MessageFeatures :=
  let '(Build_MessageFeatures a1 a2 a3 a4 a5 a6 a7 a8 _ a10 a11 a12 a13 a14 a15 a16
          a17 a18 a19 a20 a21 a22 a23 a24) := f in
  Build_MessageFeatures a1 a2 a3 a4 a5 a6 a7 a8 v a10 a11 a12 a13 a14 a15 a16
    a17 a18 a19 a20 a21 a22 a23 a24.

(** [features.explicit_ask = v] *)
Definition set_explicit_ask (v : Z) (f : MessageFeatures) : MessageFeatures :=
  let '(Build_MessageFeatures a1 a2 a3 a4 a5 a6 a7 a8 a9 a10 a11 a12 a13 a14 a15 a16
          a17 a18 _ a20 a21 a22 a23 a24) := f in
  Build_MessageFeatures a1 a2 a3 a4 a5 a6 a7 a8 a9 a10 a11 a12 a13 a14 a15 a16
    a17 a18 v a20 a21 a22 a23 a24.

(** [features.deadline_epoch = d] *)
Definition set_deadline_epoch (d : option Z) (f : MessageFeatures) : MessageFeatures :=
  let '(Build_MessageFeatures a1 a2 a3 a4 a5 a6 a7 a8 a9 a10 a11 a12 a13 a14 a15 a16
          a17 a18 a19 _ a21 a22 a23 a24) := f in
  Build_MessageFeatures a1 a2 a3 a4 a5 a6 a7 a8 a9 a10 a11 a12 a13 a14 a15 a16
    a17 a18 a19 d a21 a22 a23 a24.

(** [features.time_to_deadline_min = t] *)
Definition set_time_to_deadline_min (t : option Z) (f : MessageFeatures)
  : MessageFeatures :=
  let '(Build_MessageFeatures a1 a2 a3 a4 a5 a6 a7 a8 a9 a10 a11 a12 a13 a14 a15 a16
          a17 a18 a19 a20 _ a22 a23 a24) := f in
  Build_MessageFeatures a1 a2 a3 a4 a5 a6 a7 a8 a9 a10 a11 a12 a13 a14 a15 a16
    a17 a18 a19 a20 t a22 a23 a24.

(** [features.has_calendar = v; features.calendar_start_epoch = start] *)
Definition set_calendar (v : Z) (start : option Z) (f : MessageFeatures)
  : MessageFeatures :=
  let '(Build_MessageFeatures a1 a2 a3 a4 a5 a6 _ _ a9 a10 a11 a12 a13 a14 a15 a16
          a17 a18 a19 a20 a21 a22 a23 a24) := f in
  Build_MessageFeatures a1 a2 a3 a4 a5 a6 v start a9 a10 a11 a12 a13 a14 a15 a16
    a17 a18 a19 a20 a21 a22 a23 a24.

End Fixtures.

(** ** The urgency rule in closed form, and in the specification's words *)

Module UrgencyModel.
Import RegExp ContentAnalyzer.

(** How many patterns of a tier match the text. *)
Definition matched (patterns : list RegExp) (text : string) : Z :=
  Z.of_nat (length (List.filter (λ p, test p text) patterns)).

Definition fullText (subject bodyText : string) : string :=
  subject +:+ LF +:+ bodyText.

(** The words of a text: maximal runs of non-space characters. *)
Fixpoint words_from (cur : list ascii) (s : list ascii) : list (list ascii) :=
  match s with
  | [] => match cur with [] => [] | _ => [rev cur] end
  | c :: s' =>
      if (code c =? 32)%N
      then match cur with
           | [] => words_from [] s'
           | _ => rev cur :: words_from [] s'
           end
      else words_from (c :: cur) s'
  end.

(** A capitalized word starts with an upper-case letter. *)
Definition capitalized (w : list ascii) : bool :=
  match w with
  | c :: _ => between 65 90 c
  | [] => false
  end.

(** Is there a run of [n] more capitalized words, [run] being already seen? *)
Fixpoint has_run (n : nat) (run : nat) (ws : list (list ascii)) : bool :=
  Nat.leb n run
  || match ws with
     | w :: ws' => if capitalized w then has_run n (S run) ws' else has_run n 0 ws'
     | [] => false
     end.

(** The specification's wording of the fourth rule: "three or more
    consecutive capitalized words in the subject". *)
Definition three_consecutive_capitalized_words (subject : string) : bool :=
  has_run 3 0 (words_from [] (list_ascii_of_string subject)).

(** The urgency level as the specification words it. *)
Definition urgency_level_as_specified (subject bodyText : string) : Z :=
  let text := fullText subject bodyText in
  Z.min 10
    (5 * matched URGENCY_SIGNALS.CRITICAL text
     + 3 * matched URGENCY_SIGNALS.HIGH text
     + 1 * matched URGENCY_SIGNALS.MEDIUM text
     + (if three_consecutive_capitalized_words subject then 2 else 0)).

End UrgencyModel.

(** ** More record updates *)

Module Updates.

(** [features.is_auto_generated = v] *)
Definition set_is_auto_generated (v : Z) (f : MessageFeatures) : MessageFeatures :=
  let '(Build_MessageFeatures a1 a2 _ a4 a5 a6 a7 a8 a9 a10 a11 a12 a13 a14 a15 a16
          a17 a18 a19 a20 a21 a22 a23 a24) := f in
  Build_MessageFeatures a1 a2 v a4 a5 a6 a7 a8 a9 a10 a11 a12 a13 a14 a15 a16
    a17 a18 a19 a20 a21 a22 a23 a24.

(** [features.reply_need_prob = v] *)
Definition set_reply_need_prob (v : Q) (f : MessageFeatures) : MessageFeatures :=
  let '(Build_MessageFeatures a1 a2 a3 a4 a5 a6 a7 a8 a9 a10 a11 a12 a13 a14 a15 a16
          a17 a18 a19 a20 a21 a22 _ a24) := f in
  Build_MessageFeatures a1 a2 a3 a4 a5 a6 a7 a8 a9 a10 a11 a12 a13 a14 a15 a16
    a17 a18 a19 a20 a21 a22 v a24.

(** [is_newsletter], [is_auto_generated] and [otp_detected] all reset to 0. *)
Definition clear_negative_signals (f : MessageFeatures) : MessageFeatures :=
  let '(Build_MessageFeatures a1 _ _ a4 a5 a6 a7 a8 _ a10 a11 a12 a13 a14 a15 a16
          a17 a18 a19 a20 a21 a22 a23 a24) := f in
  Build_MessageFeatures a1 0 0 a4 a5 a6 a7 a8 0 a10 a11 a12 a13 a14 a15 a16
    a17 a18 a19 a20 a21 a22 a23 a24.

End Updates.

(** ** The feature weights as an explanation of the score *)

Module Explain.
Import PriorityScorer.

(** The sum of all recorded contributions. *)
Definition sum_weights (m : gmap string Q) : Q :=
  map_fold (λ _ v acc, acc + v)%Q 0%Q m.

(** Baseline plus recorded contributions is the running score. *)
Definition accounted (st : Locals) : Prop :=
  (l_score st == 50 + sum_weights (l_featureWeights st))%Q.

(** A block of the method body that writes only the keys [keys] and keeps
    the account balanced when those keys are still free. *)
Definition step (keys : list string) (g : Locals → Locals) : Prop :=
  (∀ st (key : string),
     key ∉ keys → l_featureWeights (g st) !! key = l_featureWeights st !! key)
  ∧ (∀ st,
       (∀ key : string, key ∈ keys → l_featureWeights st !! key = None) →
       accounted st → accounted (g st)).



End Explain.

(** ** ContentAnalyzer.classifyIntent *)

Module ContentAnalyzerIntent.

(** Every [return] of the method is one of the four literals; the declared
    [null] is never produced. *)
Definition classifyIntent
    (hasQuestion hasDeadline : bool) (urgencyLevel actionItemCount : Z) : Intent :=
  if hasDeadline && (5 <=? urgencyLevel) then confirm
  else if hasQuestion || (0 <? actionItemCount) || (5 <=? urgencyLevel) then request
  else if hasDeadline && (urgencyLevel <? 5) then schedule
  else inform.

(** [s.toUpperCase()] on 8-bit text whose letters are ASCII. *)
Definition to_upper (s : string) : string :=
  string_of_list_ascii (map RegExp.canonicalize (list_ascii_of_string s)).

(** Two matcher continuations that agree up to the case of what they are
    given. *)
Definition case_blind (k k' : option ascii → list ascii → bool) : Prop :=
  ∀ p t, k' (RegExp.canonicalize <$> p) (map RegExp.canonicalize t) = k p t.

End ContentAnalyzerIntent.

(** ** ContentAnalyzer.isMeetingRelated and isFinancialRelated *)

Module ContentAnalyzerHelpers.
Import RegExp ContentAnalyzer.
Local Open Scope re_scope.






End ContentAnalyzerHelpers.

(** ** CalendarGate.detect

    The host's regular-expression engine, [parseVCalendar] and
    [extractEventInfoFromText] are the section's variables: [detect] is
    modelled for any behaviour of theirs.  A pattern is kept as its source
    text and flags. *)

Module JSString.

(** [hay.includes(needle)] *)
Fixpoint includes (needle hay : string) : bool :=
  String.prefix needle hay
  || match hay with
     | String _ rest => includes needle rest
     | EmptyString => false
     end.

(** [s.endsWith(suffix)] *)
Definition endsWith (suffix s : string) : bool :=
  (String.length suffix <=? String.length s)%nat
  && String.eqb
       (String.substring (String.length s - String.length suffix)
          (String.length suffix) s)
       suffix.

(** [s.split(sep)] for a one-character separator. *)
Fixpoint split_from (sep : ascii) (cur : string) (s : string) : list string :=
  match s with
  | EmptyString => [cur]
  | String c rest =>
      if Ascii.eqb c sep
      then cur :: split_from sep EmptyString rest
      else split_from sep (cur +:+ String c EmptyString) rest
  end.

Definition split (sep : ascii) (s : string) : list string :=
  split_from sep EmptyString s.

(** [toLowerCase] on one 8-bit code unit: A-Z, and the Latin-1 capitals
    U+00C0-U+00DE except the multiplication sign. *)
Definition lower_char (c : ascii) : ascii :=
  let n := N_of_ascii c in
  if ((65 <=? n) && (n <=? 90) || (192 <=? n) && (n <=? 222) && negb (n =? 215))%N
  then ascii_of_N (n + 32)
  else c.

Fixpoint toLowerCase (s : string) : string :=
  match s with
  | EmptyString => EmptyString
  | String c rest => String (lower_char c) (toLowerCase rest)
  end.

(** [if (s)] for a string. *)
Definition truthy (s : string) : bool :=
  match s with
  | EmptyString => false
  | _ => true
  end.

End JSString.

Record CalendarEventInfo := {
  startTime : option Z;
  endTime : option Z;
  title : option string;
  location : option string;
  organizer : option string;
  isRecurring : option bool;
  method : option string
}.

Record CalendarDetectionResult := {
  hasCalendar : bool;
  cd_confidence : Q;
  eventInfo : option CalendarEventInfo;
  cd_reasons : list string
}.

Record Attachment := {
  att_filename : string;
  att_contentType : option string
}.

Record Pattern := {
  pattern_source : string;
  pattern_flags : string
}.

Record CalendarService := {
  svc_domain : string;
  svc_service : string
}.

Module CalendarGate.
Import JSString.

Definition CALENDAR_MIME_TYPES : list string :=
  ["text/calendar"; "application/ics"; "text/x-vcalendar"].

Definition CALENDAR_SERVICES : list CalendarService := [
  {| svc_domain := "calendar.google.com"; svc_service := "Google Calendar" |};
  {| svc_domain := "calendar-server.bounces.google.com"; svc_service := "Google Calendar" |};
  {| svc_domain := "outlook.com"; svc_service := "Outlook" |};
  {| svc_domain := "calendar.yahoo.com"; svc_service := "Yahoo Calendar" |};
  {| svc_domain := "calendly.com"; svc_service := "Calendly" |};
  {| svc_domain := "zoom.us"; svc_service := "Zoom" |};
  {| svc_domain := "webex.com"; svc_service := "WebEx" |};
  {| svc_domain := "teams.microsoft.com"; svc_service := "Microsoft Teams" |};
  {| svc_domain := "gotomeeting.com"; svc_service := "GoToMeeting" |};
  {| svc_domain := "bluejeans.com"; svc_service := "BlueJeans" |}
].

Definition re_i (source : string) : Pattern :=
  {| pattern_source := source; pattern_flags := "i" |}.

Definition CALENDAR_SUBJECT_PATTERNS : list Pattern := [
  re_i "invitation:|invite:|meeting invitation";
  re_i "calendar invitation";
  re_i "you('re| are) invited to";
  re_i "meeting (request|reminder|update|cancelled?|rescheduled)";
  re_i "\[(new |updated |cancelled? )?meeting\]";
  re_i "reminder: .* meeting";
  re_i "accepted:|declined:|tentative:|cancelled?:";
  re_i "has (accepted|declined|tentatively accepted) your (meeting|event|invitation)";
  re_i "scheduled for .* at \d+:\d+";
  re_i "\d{1,2}:\d{2}\s*(am|pm|[ap]\.m\.)";
  re_i "webinar invitation";
  re_i "event registration";
  re_i "save the date"
].

Definition CALENDAR_BODY_PATTERNS : list Pattern := [
  re_i "join\s+(the\s+)?(meeting|call|conference|webinar)";
  re_i "meeting\s+link:|join\s+link:";
  re_i "click\s+here\s+to\s+join";
  re_i "zoom\.us\/j\/";
  re_i "teams\.microsoft\.com\/l\/meetup";
  re_i "meet\.google\.com\/";
  re_i "webex\.com\/meet";
  re_i "add\s+to\s+(your\s+)?calendar";
  re_i "accept\s+or\s+decline";
  re_i "rsvp";
  re_i "save\s+this\s+event";
  re_i "when:\s*.+\n";
  re_i "where:\s*.+\n";
  re_i "time:\s*\d+:\d+";
  re_i "date:\s*.+\d{4}";
  re_i "location:\s*.+";
  re_i "agenda:";
  re_i "dial[- ]?in:";
  re_i "meeting\s+id:";
  re_i "passcode:|password:"
].

(** [checkCalendarService]: the known service whose domain occurs in the
    sender's domain, else a generic one for calendar-like domains. *)
Definition checkCalendarService (email : string) : option CalendarService :=
  match split "@" email !! 1%nat with
  | None => None
  | Some part =>
      let domain := toLowerCase part in
      if negb (truthy domain) then None
      else
        match List.find (λ service, includes (svc_domain service) domain)
                CALENDAR_SERVICES with
        | Some service => Some service
        | None =>
            if includes "calendar" domain || includes "events" domain
               || includes "meeting" domain
            then Some {| svc_domain := domain;
                         svc_service := "Unknown Calendar Service" |}
            else None
        end
  end.

Section Host.

(** [pattern.test(text)], and [text.match(pattern)] being non-null. *)
Variable RegExp_test : Pattern → string → bool.
Variable parseVCalendar : string → CalendarEventInfo.
Variable extractEventInfoFromText : string → option CalendarEventInfo.

(** The three locals of [detect]. *)
Record Locals := {
  reasons : list string;
  confidence : Q;
  l_eventInfo : option CalendarEventInfo
}.

(** [confidence = Math.max(confidence, c); reasons.push(r)] *)
Definition raise (c : Q) (r : string) (st : Locals) : Locals :=
  {| reasons := reasons st ++ [r];
     confidence := Qmax (confidence st) c;
     l_eventInfo := l_eventInfo st |}.

Definition set_eventInfo (e : option CalendarEventInfo) (st : Locals) : Locals :=
  {| reasons := reasons st; confidence := confidence st; l_eventInfo := e |}.

Definition is_calendar_mime (contentType : string) : bool :=
  existsb (λ mime, includes mime contentType) CALENDAR_MIME_TYPES.

(** 1. Content-Type for text/calendar (RFC 5545). *)
Definition check_content_type (contentType bodyText : option string) (st : Locals)
  : Locals :=
  match contentType with
  | Some ct =>
      if truthy ct && is_calendar_mime ct then
        let st :=
          {| reasons := reasons st ++ ["Content-Type is " +:+ ct +:+ " (RFC 5545)"];
             confidence := 1;
             l_eventInfo := l_eventInfo st |} in
        match bodyText with
        | Some b =>
            if includes "BEGIN:VCALENDAR" b
            then set_eventInfo (Some (parseVCalendar b)) st
            else st
        | None => st
        end
      else st
  | None => st
  end.

(** 2. .ics attachments. *)
Definition check_attachments (attachments : option (list Attachment)) (st : Locals)
  : Locals :=
  match attachments with
  | Some atts =>
      match List.find
              (λ att,
                 endsWith ".ics" (att_filename att) || endsWith ".vcs" (att_filename att)
                 || existsb (λ mime,
                               match att_contentType att with
                               | Some ct => includes mime ct
                               | None => false
                               end)
                      CALENDAR_MIME_TYPES)
              atts with
      | Some icsAttachment =>
          raise 0.95 ("Has calendar attachment: " +:+ att_filename icsAttachment) st
      | None => st
      end
  | None => st
  end.

(** 3. Sender from a calendar service. *)
Definition check_service (senderEmail : string) (st : Locals) : Locals :=
  match checkCalendarService senderEmail with
  | Some calendarService =>
      raise 0.90 ("From calendar service: " +:+ svc_service calendarService) st
  | None => st
  end.

(** 4. Subject patterns: the first matching pattern only ([break]), then the
    meeting-response test. *)
Definition check_subject (subject : option string) (st : Locals) : Locals :=
  match subject with
  | Some subj =>
      if truthy subj then
        let st :=
          match List.find (λ pattern, RegExp_test pattern subj)
                  CALENDAR_SUBJECT_PATTERNS with
          | Some pattern =>
              let st :=
                raise 0.85
                  ("Subject matches calendar pattern: " +:+ pattern_source pattern) st in
              let timeMatch :=
                RegExp_test (re_i "(\d{1,2}):(\d{2})\s*(am|pm|[ap]\.m\.)?") subj in
              match l_eventInfo st with
              | None =>
                  if timeMatch
                  then set_eventInfo
                         (Some {| startTime := None; endTime := None;
                                  title := Some subj; location := None;
                                  organizer := None; isRecurring := None;
                                  method := None |}) st
                  else st
              | Some _ => st
              end
          | None => st
          end in
        if RegExp_test (re_i "accepted:|declined:|tentative:") subj
        then raise 0.80 "Subject indicates meeting response" st
        else st
      else st
  | None => st
  end.

(** 5. Body patterns, counted over the first 1500 characters. *)
Definition check_body (bodyText : option string) (st : Locals) : Locals :=
  match bodyText with
  | Some b =>
      if truthy b then
        let bodySnippet := String.substring 0 1500 b in
        let patternMatches :=
          length (List.filter (λ pattern, RegExp_test pattern bodySnippet)
                    CALENDAR_BODY_PATTERNS) in
        if (0 <? patternMatches)%nat then
          let bodyConfidence :=
            Qmin (0.70 + inject_Z (Z.of_nat patternMatches) * 0.05) 0.85 in
          let st :=
            raise bodyConfidence
              ("Body contains " +:+ pretty patternMatches +:+ " calendar pattern(s)")
              st in
          match l_eventInfo st with
          | None => set_eventInfo (extractEventInfoFromText bodySnippet) st
          | Some _ => st
          end
        else st
      else st
  | None => st
  end.

(** 6. Calendar-specific headers. *)
Definition check_headers (headers : option (gmap string string)) (st : Locals)
  : Locals :=
  match headers with
  | Some h =>
      let present key :=
        match h !! key with
        | Some v => truthy v
        | None => false
        end in
      let st :=
        if present "x-microsoft-exchange-calendar-series-instance-id"
           || present "x-ms-exchange-calendar-series-master-id"
        then raise 0.90 "Has Microsoft Exchange calendar headers" st
        else st in
      if present "x-meetup-event" || present "x-eventbrite-event"
      then raise 0.85 "Has event platform headers" st
      else st
  | None => st
  end.

Definition detect
    (senderEmail : string) (headers : option (gmap string string))
    (subject bodyText : option string) (attachments : option (list Attachment))
    (contentType : option string) : CalendarDetectionResult :=
  let st := {| reasons := []; confidence := 0; l_eventInfo := None |} in
  let st := check_content_type contentType bodyText st in
  let st := check_attachments attachments st in
  let st := check_service senderEmail st in
  let st := check_subject subject st in
  let st := check_body bodyText st in
  let st := check_headers headers st in
  {| hasCalendar := Qle_bool 0.70 (confidence st);
     cd_confidence := confidence st;
     eventInfo := if Qle_bool 0.70 (confidence st) then l_eventInfo st else None;
     cd_reasons := reasons st |}.

End Host.

End CalendarGate.

(** ** What the steps of [CalendarGate.detect] keep *)

Module CalendarGateInv.
Import CalendarGate.

(** Either nothing was found yet, or at least one reason is recorded and the
    confidence is between 0.75 and 1. *)
Definition ok (st : Locals) : Prop :=
  (reasons st = [] ∧ confidence st == 0)%Q
  ∨ (reasons st ≠ [] ∧ 0.75 <= confidence st <= 1)%Q.

(** A step only appends reasons and never lowers the confidence. *)
Definition keeps (st st' : Locals) : Prop :=
  (confidence st <= confidence st')%Q
  ∧ (confidence st' <= Qmax (confidence st) 1)%Q
  ∧ ∃ more, reasons st' = reasons st ++ more.

End CalendarGateInv.

(** ** NewsletterGate.detect

    The host's regular-expression engine is the section's variable, as for
    [CalendarGate.detect]; the header tables and the domain list are the
    module's own. *)

Record NewsletterDetectionResult := {
  isNewsletter : bool;
  nd_confidence : Q;
  nd_reasons : list string
}.

(** The [{ found, reasons }] object every check returns. *)
Record Check := {
  found : bool;
  check_reasons : list string
}.

Module NewsletterGate.
Import JSString.

Definition LIST_HEADERS : list string := [
  "list-unsubscribe"; "list-id"; "list-post"; "list-help"; "list-subscribe";
  "list-archive"
].

Definition CAMPAIGN_HEADERS : list string := [
  "x-campaign-id"; "x-mailchimp-campaign"; "x-sendgrid-id"; "x-mailjet-campaign";
  "x-constantcontact-id"
].

Definition re (source : string) : Pattern :=
  {| pattern_source := source; pattern_flags := EmptyString |}.

Definition NO_REPLY_PATTERNS : list Pattern := [
  CalendarGate.re_i "^no[-_.]?reply";
  CalendarGate.re_i "^do[-_.]?not[-_.]?reply";
  CalendarGate.re_i "^notifications?";
  CalendarGate.re_i "^alerts?";
  CalendarGate.re_i "^news(?:letter)?";
  CalendarGate.re_i "^updates?";
  CalendarGate.re_i "^marketing";
  CalendarGate.re_i "^info@";
  CalendarGate.re_i "^hello@";
  CalendarGate.re_i "^team@";
  CalendarGate.re_i "^support@";
  CalendarGate.re_i "^help@"
].

Definition NEWSLETTER_DOMAINS : list string := [
  "mailchimp.com"; "sendgrid.net"; "constantcontact.com"; "mailjet.com";
  "sendinblue.com"; "getresponse.com"; "activecampaign.com"; "convertkit.com";
  "drip.com"; "aweber.com"; "substack.com"; "beehiiv.com"; "buttondown.email";
  "revue.co"; "tinyletter.com"
].

Definition newsletterPhrases : list Pattern := [
  CalendarGate.re_i "newsletter";
  CalendarGate.re_i "weekly digest";
  CalendarGate.re_i "monthly update";
  CalendarGate.re_i "daily brief";
  re "\[.*\]";
  CalendarGate.re_i "issue #\d+";
  CalendarGate.re_i "volume \d+";
  CalendarGate.re_i "edition \d+"
].

Definition not_found : Check := {| found := false; check_reasons := [] |}.

(** [if (headers[header])] *)
Definition header_set (headers : gmap string string) (header : string) : bool :=
  match headers !! header with
  | Some v => truthy v
  | None => false
  end.

(** One turn of the loop of [checkListHeaders]. *)
Definition list_header_step (headers : gmap string string) (acc : Check)
    (header : string) : Check :=
  if header_set headers header
  then {| found := true;
          check_reasons :=
            check_reasons acc
            ++ ["Has " +:+ ContentAnalyzerIntent.to_upper header +:+ " header (RFC "
                +:+ (if String.eqb header "list-id" then "2919" else "2369")
                +:+ ")"] |}
  else acc.

Definition checkListHeaders (headers : gmap string string) : Check :=
  fold_left (list_header_step headers) LIST_HEADERS not_found.

(** One turn of the loop of [checkCampaignHeaders]. *)
Definition campaign_header_step (headers : gmap string string) (acc : Check)
    (header : string) : Check :=
  if header_set headers header
  then {| found := true;
          check_reasons :=
            check_reasons acc
            ++ ["Has " +:+ ContentAnalyzerIntent.to_upper header
                +:+ " marketing header"] |}
  else acc.

Definition checkCampaignHeaders (headers : gmap string string) : Check :=
  fold_left (campaign_header_step headers) CAMPAIGN_HEADERS not_found.

(** [headers['precedence']?.toLowerCase()] is ['bulk'] or ['list']. *)
Definition precedence_bulk (headers : gmap string string) : bool :=
  match headers !! "precedence" with
  | Some v => String.eqb (toLowerCase v) "bulk" || String.eqb (toLowerCase v) "list"
  | None => false
  end.

(** [checkNewsletterDomain]: the first listed domain that occurs in the
    sender's domain. *)
Definition checkNewsletterDomain (email : string) : Check :=
  match split "@" email !! 1%nat with
  | None => not_found
  | Some part =>
      let domain := toLowerCase part in
      if negb (truthy domain) then not_found
      else
        match List.find (λ newsletterDomain, includes newsletterDomain domain)
                NEWSLETTER_DOMAINS with
        | Some newsletterDomain =>
            {| found := true;
               check_reasons :=
                 ["From known newsletter service: " +:+ newsletterDomain] |}
        | None => not_found
        end
  end.

(** The two locals of [detect]. *)
Record Locals := {
  nl_reasons : list string;
  nl_confidence : Q
}.

(** [if (result.found) { reasons.push(...result.reasons);
    confidence = Math.max(confidence, level) }] *)
Definition take_check (result : Check) (level : Q) (st : Locals) : Locals :=
  if found result
  then {| nl_reasons := nl_reasons st ++ check_reasons result;
          nl_confidence := Qmax (nl_confidence st) level |}
  else st.

Section Host.

Variable RegExp_test : Pattern → string → bool.

(** [checkSenderPatterns]: the first pattern matching the part of the address
    before the first "@" ([split] never returns an empty array). *)
Definition checkSenderPatterns (email : string) : Check :=
  let localPart := hd EmptyString (split "@" email) in
  match List.find (λ pattern, RegExp_test pattern localPart) NO_REPLY_PATTERNS with
  | Some pattern =>
      {| found := true;
         check_reasons := ["Sender matches pattern: " +:+ pattern_source pattern] |}
  | None => not_found
  end.

Definition checkSubjectPatterns (subject : string) : Check :=
  match List.find (λ pattern, RegExp_test pattern subject) newsletterPhrases with
  | Some pattern =>
      {| found := true;
         check_reasons :=
           ["Subject matches newsletter pattern: " +:+ pattern_source pattern] |}
  | None => not_found
  end.

(** 1. to 3.: the List-* headers, the campaign headers, Precedence. *)
Definition check_headers (headers : option (gmap string string)) (st : Locals)
  : Locals :=
  match headers with
  | Some h =>
      let st := take_check (checkListHeaders h) 0.95 st in
      let st := take_check (checkCampaignHeaders h) 0.90 st in
      if precedence_bulk h
      then {| nl_reasons := nl_reasons st ++ ["Precedence header indicates bulk mail"];
              nl_confidence := Qmax (nl_confidence st) 0.85 |}
      else st
  | None => st
  end.

(** 6. The subject line. *)
Definition check_subject (subject : option string) (st : Locals) : Locals :=
  match subject with
  | Some subj =>
      if truthy subj then take_check (checkSubjectPatterns subj) 0.60 st else st
  | None => st
  end.

Definition detect
    (senderEmail : string) (headers : option (gmap string string))
    (subject : option string) : NewsletterDetectionResult :=
  let st := {| nl_reasons := []; nl_confidence := 0 |} in
  let st := check_headers headers st in
  let st := take_check (checkSenderPatterns senderEmail) 0.75 st in
  let st := take_check (checkNewsletterDomain senderEmail) 0.85 st in
  let st := check_subject subject st in
  {| isNewsletter := Qle_bool 0.60 (nl_confidence st);
     nd_confidence := nl_confidence st;
     nd_reasons := nl_reasons st |}.

End Host.

End NewsletterGate.

(** ** What the steps of [NewsletterGate.detect] keep *)

Module NewsletterGateInv.
Import NewsletterGate.
Local Open Scope Q_scope.

(** A check reports [found] exactly when it gives a reason. *)
Definition sound (c : Check) : Prop :=
  (found c = true ∧ check_reasons c ≠ []) ∨ (found c = false ∧ check_reasons c = []).

(** The confidence levels [detect] can assign. *)
Definition level (c : Q) : Prop :=
  c == 0.60 ∨ c == 0.75 ∨ c == 0.85 ∨ c == 0.90 ∨ c == 0.95.

(** Nothing found yet, or a reason is recorded and the confidence is one of
    the levels. *)
Definition graded (st : Locals) : Prop :=
  (nl_reasons st = [] ∧ nl_confidence st == 0)
  ∨ (nl_reasons st ≠ [] ∧ level (nl_confidence st)).

(** The level a rule contributes: its own when it fired, none otherwise. *)
Definition fired (b : bool) (l : Q) : Q := if b then l else 0.

End NewsletterGateInv.

(** ** OTPGate

    Times are epoch milliseconds and [new Date()] is the argument [dateNow].
    A JS number that can be [NaN] or infinite is a [JSNumber]; arithmetic on
    finite numbers is exact.  The regular-expression engine, [parseInt] and
    the printing of a number in a template string are the host's. *)

Inductive JSNumber :=
| NaN
| Infinity (negative : bool)
| Finite (q : Q).

Inductive OTPType := type_otp | type_verification | type_2fa | type_pin | type_reset.

Record OTPInfo := {
  otp_code : option string;
  otp_expiryMinutes : option JSNumber;
  otp_service : option string;
  otp_type : OTPType
}.

Record OTPDetectionResult := {
  hasOTP : bool;
  od_confidence : Q;
  otpInfo : option OTPInfo;
  ageMinutes : option Z;
  isExpired : bool;
  od_reasons : list string
}.

Module OTPGate.
Import JSString.

(** [a < b] on JS numbers. *)
Definition num_lt (a b : JSNumber) : bool :=
  match a, b with
  | NaN, _ => false
  | _, NaN => false
  | Infinity true, Infinity true => false
  | Infinity true, _ => true
  | _, Infinity true => false
  | Infinity false, _ => false
  | Finite _, Infinity false => true
  | Finite x, Finite y => JS.Qlt_bool x y
  end.

(** [a * 60] *)
Definition times_60 (a : JSNumber) : JSNumber :=
  match a with
  | Finite q => Finite (q * 60)
  | other => other
  end.

Definition OTP_PATTERNS : list Pattern := [
  NewsletterGate.re "\b(\d{6})\b";
  NewsletterGate.re "\b(\d{4})\b";
  NewsletterGate.re "\b(\d{8})\b";
  NewsletterGate.re "\b(\d{3}[-\s]\d{3})\b";
  NewsletterGate.re "\b(\d{2}\s\d{2}\s\d{2})\b";
  NewsletterGate.re "\b([A-Z0-9]{6,8})\b"
].

Definition OTP_KEYWORDS : list Pattern := [
  CalendarGate.re_i "verification code";
  CalendarGate.re_i "confirm(?:ation)? code";
  CalendarGate.re_i "security code";
  CalendarGate.re_i "authentication code";
  CalendarGate.re_i "one[- ]?time password";
  CalendarGate.re_i "otp";
  CalendarGate.re_i "2fa code";
  CalendarGate.re_i "mfa code";
  CalendarGate.re_i "two[- ]?factor";
  CalendarGate.re_i "pin code";
  CalendarGate.re_i "access code";
  CalendarGate.re_i "activation code";
  CalendarGate.re_i "use (this |the following )?code";
  CalendarGate.re_i "enter (this |the following )?code";
  CalendarGate.re_i "your code is";
  CalendarGate.re_i "code:\s*\d+";
  CalendarGate.re_i "here('s| is) your code";
  CalendarGate.re_i "sign[- ]?in code";
  CalendarGate.re_i "login code";
  CalendarGate.re_i "reset code";
  CalendarGate.re_i "recovery code";
  CalendarGate.re_i "temporary password";
  CalendarGate.re_i "single[- ]?use code"
].

Definition TIME_INDICATORS : list Pattern := [
  CalendarGate.re_i "expires? in (\d+) minutes?";
  CalendarGate.re_i "valid for (\d+) minutes?";
  CalendarGate.re_i "use within (\d+) minutes?";
  CalendarGate.re_i "(\d+)[- ]?minutes? to use";
  CalendarGate.re_i "will expire";
  CalendarGate.re_i "time[- ]?sensitive";
  CalendarGate.re_i "act quickly";
  CalendarGate.re_i "immediate(?:ly)?";
  CalendarGate.re_i "expires? soon";
  CalendarGate.re_i "temporary";
  CalendarGate.re_i "do not share"
].

Definition OTP_SERVICES : list (Pattern * string) := [
  (CalendarGate.re_i "facebook|fb\.com", "Facebook");
  (CalendarGate.re_i "twitter|x\.com", "Twitter/X");
  (CalendarGate.re_i "instagram", "Instagram");
  (CalendarGate.re_i "linkedin", "LinkedIn");
  (CalendarGate.re_i "tiktok", "TikTok");
  (CalendarGate.re_i "google|gmail", "Google");
  (CalendarGate.re_i "microsoft|outlook|hotmail", "Microsoft");
  (CalendarGate.re_i "apple|icloud", "Apple");
  (CalendarGate.re_i "amazon|aws", "Amazon");
  (CalendarGate.re_i "meta", "Meta");
  (CalendarGate.re_i "paypal", "PayPal");
  (CalendarGate.re_i "stripe", "Stripe");
  (CalendarGate.re_i "bank|chase|wells|citi|bofa", "Banking");
  (CalendarGate.re_i "venmo", "Venmo");
  (CalendarGate.re_i "cashapp|square", "CashApp");
  (CalendarGate.re_i "whatsapp", "WhatsApp");
  (CalendarGate.re_i "telegram", "Telegram");
  (CalendarGate.re_i "signal", "Signal");
  (CalendarGate.re_i "discord", "Discord");
  (CalendarGate.re_i "slack", "Slack");
  (CalendarGate.re_i "github", "GitHub");
  (CalendarGate.re_i "gitlab", "GitLab");
  (CalendarGate.re_i "bitbucket", "Bitbucket");
  (CalendarGate.re_i "npm", "NPM");
  (CalendarGate.re_i "docker", "Docker");
  (CalendarGate.re_i "uber", "Uber");
  (CalendarGate.re_i "lyft", "Lyft");
  (CalendarGate.re_i "airbnb", "Airbnb");
  (CalendarGate.re_i "netflix", "Netflix");
  (CalendarGate.re_i "spotify", "Spotify")
].

Definition OTP_SUBJECT_PATTERNS : list Pattern := [
  CalendarGate.re_i "your? (verification|security|authentication|confirmation) code";
  CalendarGate.re_i "\d{4,8} is your";
  CalendarGate.re_i "code:\s*\d{4,8}";
  CalendarGate.re_i "verify your (account|email|phone|identity)";
  CalendarGate.re_i "confirm your (account|email|phone|identity)";
  CalendarGate.re_i "2fa|otp|mfa";
  CalendarGate.re_i "sign[- ]?in attempt";
  CalendarGate.re_i "password reset";
  CalendarGate.re_i "account recovery";
  CalendarGate.re_i "action required";
  CalendarGate.re_i "urgent.*security"
].

Definition contextPatterns : list Pattern := [
  CalendarGate.re_i "code:?\s*(\d{4,8})";
  CalendarGate.re_i "is:?\s*(\d{4,8})";
  NewsletterGate.re ":\s*(\d{4,8})";
  CalendarGate.re_i "\b(\d{6})\b.*(?:code|otp|verification|pin)";
  CalendarGate.re_i "(?:code|otp|verification|pin).*\b(\d{6})\b"
].

Definition expiryPatterns : list Pattern := [
  CalendarGate.re_i "expires? in (\d+) minutes?";
  CalendarGate.re_i "valid for (\d+) minutes?";
  CalendarGate.re_i "(\d+)[- ]?minutes? to use";
  CalendarGate.re_i "use within (\d+) minutes?"
].

Definition hourPattern : Pattern := CalendarGate.re_i "expires? in (\d+) hours?".

Definition securitySenderPatterns : list Pattern := [
  CalendarGate.re_i "security@";
  CalendarGate.re_i "no[- ]?reply@";
  CalendarGate.re_i "verification@";
  CalendarGate.re_i "authenticate@";
  CalendarGate.re_i "2fa@";
  CalendarGate.re_i "otp@";
  CalendarGate.re_i "accounts?@"
].

(** [determineOTPType] *)
Definition determineOTPType (text : string) : OTPType :=
  let lowerText := toLowerCase text in
  if includes "reset" lowerText || includes "recover" lowerText then type_reset
  else if includes "pin" lowerText then type_pin
  else if includes "2fa" lowerText || includes "two" lowerText
          || includes "second" lowerText then type_2fa
  else if includes "verif" lowerText then type_verification
  else type_otp.

(** [calculateUrgency], with [expiryMinutes] given (its default is 10).  A
    zero [expiryMinutes] is divided by with a negative age only: the quotient
    is minus infinity and the result plus infinity. *)
Definition calculateUrgency (dateNow emailDate : Z) (expiryMinutes : Q) : JSNumber :=
  let ageMinutes := (inject_Z (dateNow - emailDate) / inject_Z (1000 * 60))%Q in
  if Qle_bool expiryMinutes ageMinutes then Finite 0
  else if Qeq_bool expiryMinutes 0 then Infinity false
  else Finite (Qmax 0 (1 - ageMinutes / expiryMinutes)).

Section Host.

(** [pattern.test(text)] *)
Variable RegExp_test : Pattern → string → bool.
(** [text.match(pattern)]: [None] when there is no match, else capture group
    1 of the first match ([None] inside when the group took no part). *)
Variable String_match : Pattern → string → option (option string).
Variable parseInt : string → JSNumber.
(** A number inside a template string. *)
Variable Number_toString : JSNumber → string.

(** [match && match[1]] as a condition, with the group. *)
Definition group1 (pattern : Pattern) (text : string) : option string :=
  match String_match pattern text with
  | Some (Some g) => if truthy g then Some g else None
  | _ => None
  end.

(** The fallback loop of [extractCode] over [OTP_PATTERNS]: a 4-character
    code is returned only when it does not read as a year between 1900 and
    2100. *)
Fixpoint any_code (patterns : list Pattern) (text : string) : option string :=
  match patterns with
  | [] => None
  | pattern :: rest =>
      match group1 pattern text with
      | Some code =>
          if (String.length code =? 4)%nat then
            let num := parseInt code in
            if num_lt num (Finite 1900) || num_lt (Finite 2100) num
            then Some code
            else any_code rest text
          else Some code
      | None => any_code rest text
      end
  end.

(** The first pattern of the list with a group 1, and that group. *)
Fixpoint first_group (patterns : list Pattern) (text : string) : option string :=
  match patterns with
  | [] => None
  | pattern :: rest =>
      match group1 pattern text with
      | Some g => Some g
      | None => first_group rest text
      end
  end.

Definition extractCode (text : string) (preferNearKeywords : bool) : option string :=
  match (if preferNearKeywords then first_group contextPatterns text else None) with
  | Some code => Some code
  | None => any_code OTP_PATTERNS text
  end.

(** [extractExpiryTime]: the [minutes] of the object it returns. *)
Definition extractExpiryTime (text : string) : option JSNumber :=
  match first_group expiryPatterns text with
  | Some g => Some (parseInt g)
  | None =>
      match group1 hourPattern text with
      | Some g => Some (times_60 (parseInt g))
      | None => None
      end
  end.

Definition identifyService (senderEmail : string) (bodyText : option string)
  : option string :=
  let searchText :=
    toLowerCase (senderEmail +:+ " " +:+ default EmptyString bodyText) in
  match List.find (λ entry, RegExp_test (fst entry) searchText) OTP_SERVICES with
  | Some entry => Some (snd entry)
  | None => None
  end.

(** The locals of [detect]. *)
Record Locals := {
  o_reasons : list string;
  o_confidence : Q;
  o_otpInfo : option OTPInfo;
  o_ageMinutes : option Z;
  o_isExpired : bool
}.

(** [confidence = Math.max(confidence, c); reasons.push(r)] *)
Definition lift (c : Q) (r : string) (st : Locals) : Locals :=
  {| o_reasons := o_reasons st ++ [r];
     o_confidence := Qmax (o_confidence st) c;
     o_otpInfo := o_otpInfo st;
     o_ageMinutes := o_ageMinutes st;
     o_isExpired := o_isExpired st |}.

Definition set_otpInfo (info : option OTPInfo) (st : Locals) : Locals :=
  {| o_reasons := o_reasons st;
     o_confidence := o_confidence st;
     o_otpInfo := info;
     o_ageMinutes := o_ageMinutes st;
     o_isExpired := o_isExpired st |}.

Definition set_isExpired (st : Locals) : Locals :=
  {| o_reasons := o_reasons st;
     o_confidence := o_confidence st;
     o_otpInfo := o_otpInfo st;
     o_ageMinutes := o_ageMinutes st;
     o_isExpired := true |}.

(** [if (!otpInfo) otpInfo = info] *)
Definition otpInfo_if_unset (info : OTPInfo) (st : Locals) : Locals :=
  match o_otpInfo st with
  | None => set_otpInfo (Some info) st
  | Some _ => st
  end.

(** [ageMinutes && ageMinutes > minutes] *)
Definition outlived (minutes : JSNumber) (ageMinutes : option Z) : bool :=
  match ageMinutes with
  | Some age => JS.truthy age && num_lt minutes (Finite (inject_Z age))
  | None => false
  end.

(** The age of the message in whole minutes; older than 15 is expired. *)
Definition check_age (dateNow : Z) (emailDate : option Z) : Locals :=
  match emailDate with
  | Some d =>
      let age := ((dateNow - d) / (1000 * 60))%Z in
      {| o_reasons := []; o_confidence := 0; o_otpInfo := None;
         o_ageMinutes := Some age; o_isExpired := (15 <? age)%Z |}
  | None =>
      {| o_reasons := []; o_confidence := 0; o_otpInfo := None;
         o_ageMinutes := None; o_isExpired := false |}
  end.

(** 1. The subject: the first matching pattern, then a code in it. *)
Definition check_subject (subject : option string) (st : Locals) : Locals :=
  match subject with
  | Some subj =>
      if truthy subj then
        let st :=
          match List.find (λ pattern, RegExp_test pattern subj)
                  OTP_SUBJECT_PATTERNS with
          | Some pattern =>
              lift 0.80 ("Subject matches OTP pattern: " +:+ pattern_source pattern) st
          | None => st
          end in
        match extractCode subj false with
        | Some codeInSubject =>
            if truthy codeInSubject then
              otpInfo_if_unset
                {| otp_code := Some codeInSubject; otp_expiryMinutes := None;
                   otp_service := None; otp_type := type_otp |}
                (lift 0.75 ("Found potential code in subject: " +:+ codeInSubject) st)
            else st
        | None => st
        end
      else st
  | None => st
  end.

(** 2a. Keywords in the first 500 characters of the body, and the code near
    them. *)
Definition check_keywords (bodySnippet : string) (st : Locals) : Locals :=
  let keywordMatches :=
    length (List.filter (λ keyword, RegExp_test keyword bodySnippet) OTP_KEYWORDS) in
  if (0 <? keywordMatches)%nat then
    let keywordConfidence :=
      Qmin (0.70 + inject_Z (Z.of_nat keywordMatches) * 0.10) 0.95 in
    let st :=
      lift keywordConfidence
        ("Body contains " +:+ pretty keywordMatches +:+ " OTP keyword(s)") st in
    match extractCode bodySnippet true with
    | Some extractedCode =>
        if truthy extractedCode then
          otpInfo_if_unset
            {| otp_code := Some extractedCode; otp_expiryMinutes := None;
               otp_service := None; otp_type := determineOTPType bodySnippet |}
            (lift 0.90 ("Found code: " +:+ extractedCode) st)
        else st
    | None => st
    end
  else st.

(** 2b. A stated expiry time. *)
Definition check_expiry (bodySnippet : string) (st : Locals) : Locals :=
  match extractExpiryTime bodySnippet with
  | Some minutes =>
      let st :=
        lift 0.85 ("Code expires in " +:+ Number_toString minutes +:+ " minutes") st in
      let st :=
        match o_otpInfo st with
        | Some info =>
            set_otpInfo
              (Some {| otp_code := otp_code info; otp_expiryMinutes := Some minutes;
                       otp_service := otp_service info; otp_type := otp_type info |})
              st
        | None => st
        end in
      if outlived minutes (o_ageMinutes st) then set_isExpired st else st
  | None => st
  end.

(** 2c. Time-sensitive language. *)
Definition check_time_language (bodySnippet : string) (st : Locals) : Locals :=
  if existsb (λ pattern, RegExp_test pattern bodySnippet) TIME_INDICATORS
  then lift 0.75 "Contains time-sensitive language" st
  else st.

Definition check_body (bodyText : option string) (st : Locals) : Locals :=
  match bodyText with
  | Some b =>
      if truthy b then
        let bodySnippet := String.substring 0 500 b in
        let st := check_keywords bodySnippet st in
        let st := check_expiry bodySnippet st in
        check_time_language bodySnippet st
      else st
  | None => st
  end.

(** What [bodyText] says about the expiry, as [check_body] reads it. *)
Definition body_outlived (bodyText : option string) (age : option Z) : bool :=
  match bodyText with
  | Some b =>
      truthy b
      && match extractExpiryTime (String.substring 0 500 b) with
         | Some minutes => outlived minutes age
         | None => false
         end
  | None => false
  end.

(** 3. A known service in the sender or the body. *)
Definition check_service (senderEmail : string) (bodyText : option string)
    (st : Locals) : Locals :=
  match identifyService senderEmail bodyText with
  | Some service =>
      if truthy service then
        let st := lift 0.70 ("From known service: " +:+ service) st in
        match o_otpInfo st with
        | Some info =>
            set_otpInfo
              (Some {| otp_code := otp_code info;
                       otp_expiryMinutes := otp_expiryMinutes info;
                       otp_service := Some service; otp_type := otp_type info |})
              st
        | None => st
        end
      else st
  | None => st
  end.

(** 4. Security and no-reply senders. *)
Definition check_sender (senderEmail : string) (st : Locals) : Locals :=
  if existsb (λ pattern, RegExp_test pattern senderEmail) securitySenderPatterns
  then lift 0.65 "From security/no-reply address" st
  else st.

(** 5. The note on an expired message. *)
Definition check_expired (st : Locals) : Locals :=
  if o_isExpired st
  then {| o_reasons := o_reasons st ++ ["OTP likely expired (email too old)"];
          o_confidence := o_confidence st;
          o_otpInfo := o_otpInfo st;
          o_ageMinutes := o_ageMinutes st;
          o_isExpired := o_isExpired st |}
  else st.

Definition detect
    (dateNow : Z) (senderEmail : string) (subject bodyText : option string)
    (emailDate : option Z) : OTPDetectionResult :=
  let st := check_age dateNow emailDate in
  let st := check_subject subject st in
  let st := check_body bodyText st in
  let st := check_service senderEmail bodyText st in
  let st := check_sender senderEmail st in
  let st := check_expired st in
  {| hasOTP := Qle_bool 0.65 (o_confidence st);
     od_confidence := o_confidence st;
     otpInfo := if Qle_bool 0.65 (o_confidence st) then o_otpInfo st else None;
     ageMinutes := o_ageMinutes st;
     isExpired := o_isExpired st;
     od_reasons := o_reasons st |}.

End Host.

End OTPGate.

(** ** What the steps of [OTPGate.detect] keep *)

Module OTPGateInv.
Import OTPGate.
Local Open Scope Q_scope.

(** A rule has fired: a reason is recorded and the confidence is between 0.65
    and 0.95. *)
Definition hit (st : Locals) : Prop :=
  o_reasons st ≠ [] ∧ 0.65 <= o_confidence st <= 0.95.

(** No rule has fired yet. *)
Definition idle (st : Locals) : Prop :=
  o_reasons st = [] ∧ o_confidence st == 0 ∧ o_otpInfo st = None.

(** The age and the expiry flag are left alone. *)
Definition same_age (st st' : Locals) : Prop :=
  o_ageMinutes st' = o_ageMinutes st ∧ o_isExpired st' = o_isExpired st.

End OTPGateInv.

(** * Properties *)

(** ** Rational helpers *)

Section QHelpers.
Local Open Scope Q_scope.

Lemma Qlt_bool_iff (x y : Q) : JS.Qlt_bool x y = true ↔ x < y.
Proof.
  unfold JS.Qlt_bool. rewrite negb_true_iff.
  destruct (Qle_bool y x) eqn:E.
  - apply Qle_bool_iff in E. split; [discriminate | intros H; lra].
  - split; [intros _ | reflexivity].
    apply Qnot_le_lt. intros H. apply Qle_bool_iff in H. congruence.
Qed.

(** [Math.max(lo, Math.min(hi, x))] lands in [[lo, hi]]. *)
Lemma clamp_range (lo hi x : Q) : lo <= hi → lo <= Qmax lo (Qmin hi x) <= hi.
Proof.
  intros H. split.
  - apply Q.le_max_l.
  - apply Q.max_lub; [exact H | apply Q.le_min_l].
Qed.

Lemma clamp_ge (lo hi x b : Q) : lo <= hi → b <= hi → b <= x → b <= Qmax lo (Qmin hi x).
Proof.
  intros H1 H2 H3.
  apply Qle_trans with (Qmin hi x); [| apply Q.le_max_r].
  apply Q.min_glb; assumption.
Qed.

Lemma Math_round_mono (x y : Q) : x <= y → (JS.Math_round x ≤ JS.Math_round y)%Z.
Proof.
  intros H. unfold JS.Math_round. apply Qfloor_resp_le. lra.
Qed.

Lemma Math_round_Z (n : Z) : JS.Math_round (inject_Z n) = n.
Proof.
  unfold JS.Math_round.
  assert (H1 : (n ≤ Qfloor (inject_Z n + (1 # 2)))%Z).
  { rewrite <- (Qfloor_Z n) at 1. apply Qfloor_resp_le. lra. }
  assert (H2 : (Qfloor (inject_Z n + (1 # 2)) < n + 1)%Z).
  { rewrite Zlt_Qlt, inject_Z_plus.
    pose proof (Qfloor_le (inject_Z n + (1 # 2))) as Hf.
    change (inject_Z 1) with 1. lra. }
  lia.
Qed.
End QHelpers.

(** ** PriorityScorer *)

Section PriorityScorerFacts.
Import JS PriorityScorer LinearModel Fixtures.
Local Open Scope Q_scope.

Lemma truthy_true (n : Z) : truthy n = true ↔ n ≠ 0%Z.
Proof. unfold truthy. rewrite negb_true_iff, Z.eqb_neq. reflexivity. Qed.

Lemma truthy_opt_true (n : option Z) :
  truthy_opt n = true ↔ ∃ v, n = Some v ∧ v ≠ 0%Z.
Proof.
  destruct n as [v|]; simpl.
  - rewrite truthy_true. split; [eauto | intros (w & [= ->] & ?); assumption].
  - split; [discriminate | intros (w & [=] & _)].
Qed.

(** Project a field out of a chain of local updates, and open the weights. *)
Ltac locals :=
  cbv beta iota delta
    [l_score l_confidence l_reasoning l_featureWeights
     signal weigh push upd_score upd_confidence].

Ltac weights :=
  unfold WEIGHTS.NEWSLETTER_PENALTY, WEIGHTS.AUTO_GENERATED_PENALTY,
    WEIGHTS.OTP_PENALTY, WEIGHTS.RELATIONSHIP_MAX, WEIGHTS.EXPLICIT_ASK,
    WEIGHTS.DEADLINE_BONUS, WEIGHTS.URGENT_DEADLINE_BONUS, WEIGHTS.VIP_SENDER,
    WEIGHTS.THREAD_YOU_OWE, WEIGHTS.REPLY_NEED_MAX, WEIGHTS.INTENT_CONFIRM,
    WEIGHTS.INTENT_REQUEST, WEIGHTS.INTENT_SCHEDULE, WEIGHTS.INTENT_INFORM,
    CATEGORIES.URGENT, CATEGORIES.IMPORTANT, CATEGORIES.NORMAL, CATEGORIES.LOW.

(** *** The score is the linear model *)

Lemma score_if_signal (b : bool) (w : Q) (r k : string) (st : Locals) :
  l_score (if b then signal w r k st else st) == l_score st + (if b then w else 0).
Proof. destruct b; locals; ring. Qed.

Lemma phase1_score f st : l_score (phase1 f st) == l_score st + phase1_points f.
Proof.
  unfold phase1, phase1_points.
  destruct (truthy (is_newsletter f)),
           (truthy (is_auto_generated f) && negb (truthy (has_calendar f)))%bool,
           (truthy (otp_detected f)); locals; weights; ring.
Qed.

Lemma deadline_block_score f st :
  l_score (deadline_block f st) == l_score st + deadline_points f.
Proof.
  unfold deadline_block, deadline_points, deadline_urgent.
  destruct (truthy_opt (deadline_epoch f)); cbn [andb]; [| ring].
  destruct (time_to_deadline_min f) as [ttd|]; [| locals; weights; ring].
  destruct (ttd <? 1440)%Z; locals; weights; ring.
Qed.

Lemma phase2_score f st :
  l_score (phase2 f st) == l_score st + phase2_points f + deadline_points f.
Proof.
  unfold phase2, phase2_points. cbv zeta.
  rewrite !score_if_signal, deadline_block_score, !score_if_signal.
  destruct (Qlt_bool 0 (relationship_score f)); [| weights; ring].
  destruct (Qlt_bool 0.7 (relationship_score f)); [locals; weights; ring |].
  destruct (Qlt_bool 0.4 (relationship_score f)); locals; weights; ring.
Qed.

Lemma phase3_score f st : l_score (phase3 f st) == l_score st + phase3_points f.
Proof.
  unfold phase3, phase3_points.
  destruct (content_intent f) as [[]|]; locals; weights; ring.
Qed.

(** Phases 1-3 compute baseline 50 plus the sum of the rule weights. *)
Lemma accumulate_score f : l_score (accumulate f) == additive_total f.
Proof.
  unfold accumulate, additive_total.
  rewrite phase3_score, phase2_score, phase1_score. cbn [initial l_score]. ring.
Qed.

(** *** The confidence is touched by four rules only *)

Lemma confidence_if_signal (b : bool) (w : Q) (r k : string) (st : Locals) :
  l_confidence (if b then signal w r k st else st) = l_confidence st.
Proof. destruct b; reflexivity. Qed.

Lemma confidence_signal (w : Q) (r k : string) (st : Locals) :
  l_confidence (signal w r k st) = l_confidence st.
Proof. reflexivity. Qed.

Lemma confidence_upd (g : Q → Q) (st : Locals) :
  l_confidence (upd_confidence g st) = g (l_confidence st).
Proof. reflexivity. Qed.

Lemma confidence_push (r : string) (st : Locals) :
  l_confidence (push r st) = l_confidence st.
Proof. reflexivity. Qed.

Lemma confidence_upd_score (g : Q → Q) (st : Locals) :
  l_confidence (upd_score g st) = l_confidence st.
Proof. reflexivity. Qed.

Lemma score_upd (g : Q → Q) (st : Locals) : l_score (upd_score g st) = g (l_score st).
Proof. reflexivity. Qed.

Lemma score_push (r : string) (st : Locals) : l_score (push r st) = l_score st.
Proof. reflexivity. Qed.

Lemma score_upd_confidence (g : Q → Q) (st : Locals) :
  l_score (upd_confidence g st) = l_score st.
Proof. reflexivity. Qed.

Lemma phase1_confidence f st :
  l_confidence (phase1 f st)
  = if truthy (otp_detected f) then Qmin (l_confidence st) 0.6 else l_confidence st.
Proof.
  unfold phase1. cbv zeta.
  destruct (truthy (otp_detected f)).
  - rewrite confidence_upd, confidence_signal, !confidence_if_signal. reflexivity.
  - rewrite !confidence_if_signal. reflexivity.
Qed.

Lemma deadline_block_confidence f st :
  l_confidence (deadline_block f st)
  = if deadline_urgent f then Qmin (l_confidence st + 0.1) 1 else l_confidence st.
Proof.
  unfold deadline_block, deadline_urgent.
  destruct (truthy_opt (deadline_epoch f)); cbn [andb]; [| reflexivity].
  destruct (time_to_deadline_min f) as [ttd|]; [| reflexivity].
  destruct (ttd <? 1440)%Z; reflexivity.
Qed.

Lemma phase2_confidence f st :
  l_confidence (phase2 f st)
  = if deadline_urgent f then Qmin (l_confidence st + 0.1) 1 else l_confidence st.
Proof.
  unfold phase2. cbv zeta.
  rewrite !confidence_if_signal, deadline_block_confidence, !confidence_if_signal.
  destruct (Qlt_bool 0 (relationship_score f)); [| reflexivity].
  destruct (Qlt_bool 0.7 (relationship_score f)); [reflexivity |].
  destruct (Qlt_bool 0.4 (relationship_score f)); reflexivity.
Qed.

Lemma phase3_confidence f st : l_confidence (phase3 f st) = l_confidence st.
Proof. unfold phase3. destruct (content_intent f) as [[]|]; reflexivity. Qed.

Lemma accumulate_confidence f :
  l_confidence (accumulate f)
  = let c := if truthy (otp_detected f) then Qmin 0.8 0.6 else 0.8 in
    if deadline_urgent f then Qmin (c + 0.1) 1 else c.
Proof.
  unfold accumulate.
  rewrite phase3_confidence, phase2_confidence, phase1_confidence. reflexivity.
Qed.

(** [0 < t/3600 < 24] on the rationals is [0 < t < 86400] on the seconds. *)
Lemma hours_window (t : Z) :
  (Qlt_bool 0 (inject_Z t / 3600) && Qlt_bool (inject_Z t / 3600) 24
   = (0 <? t)%Z && (t <? 24 * 3600)%Z)%bool.
Proof.
  assert (E : inject_Z t == inject_Z t / 3600 * 3600) by (field; discriminate).
  apply eq_true_iff_eq.
  rewrite !andb_true_iff, !Qlt_bool_iff, !Z.ltb_lt, !Zlt_Qlt.
  change (inject_Z 0) with 0. change (inject_Z (24 * 3600)) with 86400.
  split; intros [H1 H2]; split; lra.
Qed.

Lemma calendar_block_spec dateNow f st :
  calendar_block dateNow f st
  = if calendar_soon dateNow f then
      let hoursToEvent :=
        match calendar_start_epoch f with
        | Some start => inject_Z (start - dateNow / 1000) / 3600
        | None => 0
        end in
      upd_confidence (λ c, Qmin (c + 0.15) 1)
        (push ("Calendar invite: event in " +:+ pretty (Qfloor hoursToEvent) +:+ "h")
           (upd_score (λ s, Qmax s CATEGORIES.IMPORTANT) st))
    else st.
Proof.
  unfold calendar_block, calendar_soon.
  destruct (calendar_start_epoch f) as [start|].
  - cbv zeta. rewrite hours_window.
    destruct (truthy (has_calendar f)), (truthy start); cbn [andb]; try reflexivity.
  - rewrite andb_false_r. reflexivity.
Qed.

Lemma security_block_spec f st :
  security_block f st
  = if security_alert f then
      upd_confidence (λ _, 0.7)
        (push "Potential security alert (urgent + short deadline)"
           (upd_score (λ s, Qmax s (CATEGORIES.URGENT - 5)) st))
    else st.
Proof.
  unfold security_block, security_alert.
  destruct (time_to_deadline_min f) as [ttd|]; [reflexivity |].
  rewrite andb_false_r. reflexivity.
Qed.

(** The confidence just before the final clamp. *)
Lemma confidence_trace dateNow f :
  l_confidence (phase4 dateNow f (accumulate f))
  = let c := if truthy (otp_detected f) then Qmin 0.8 0.6 else 0.8 in
    let c := if deadline_urgent f then Qmin (c + 0.1) 1 else c in
    let c := if calendar_soon dateNow f then Qmin (c + 0.15) 1 else c in
    if security_alert f then 0.7 else c.
Proof.
  unfold phase4. rewrite security_block_spec, calendar_block_spec.
  destruct (security_alert f); [reflexivity |].
  destruct (calendar_soon dateNow f); cbv zeta;
    rewrite ?confidence_upd, ?confidence_push, ?confidence_upd_score,
      accumulate_confidence; reflexivity.
Qed.

(** The score just before the final clamp. *)
Lemma score_trace dateNow f :
  l_score (phase4 dateNow f (accumulate f))
  == let s := additive_total f in
     let s := if calendar_soon dateNow f then Qmax s 70 else s in
     if security_alert f then Qmax s 85 else s.
Proof.
  unfold phase4. rewrite security_block_spec, calendar_block_spec. cbv zeta.
  destruct (security_alert f), (calendar_soon dateNow f);
    rewrite ?score_upd_confidence, ?score_push, ?score_upd, ?score_upd_confidence,
      ?score_push, ?score_upd; weights;
    rewrite accumulate_score; reflexivity.
Qed.


(** *** The feature-weight map *)

Lemma weights_if_signal_ne (b : bool) (w : Q) (r k key : string) (st : Locals) :
  key ≠ k →
  l_featureWeights (if b then signal w r k st else st) !! key
  = l_featureWeights st !! key.
Proof.
  intros Hne. destruct b; [| reflexivity].
  locals. apply lookup_insert_ne. congruence.
Qed.

Lemma phase3_weights_ne f st (key : string) :
  key ≠ "intent_confirm" → key ≠ "intent_request" → key ≠ "intent_inform" →
  l_featureWeights (phase3 f st) !! key = l_featureWeights st !! key.
Proof.
  intros H1 H2 H3. unfold phase3.
  destruct (content_intent f) as [[]|]; try reflexivity;
    locals; apply lookup_insert_ne; congruence.
Qed.

Lemma phase4_weights dateNow f st :
  l_featureWeights (phase4 dateNow f st) = l_featureWeights st.
Proof.
  unfold phase4. rewrite security_block_spec, calendar_block_spec.
  destruct (security_alert f), (calendar_soon dateNow f); reflexivity.
Qed.

Lemma deadline_weight dateNow f :
  truthy_opt (deadline_epoch f) = true →
  feature_weights (calculatePriority dateNow f) !! "deadline_epoch" = Some 15.
Proof.
  intros Hd. unfold calculatePriority, phase5. cbn [feature_weights].
  rewrite phase4_weights. unfold accumulate.
  rewrite phase3_weights_ne by discriminate.
  unfold phase2. cbv zeta. rewrite !weights_if_signal_ne by discriminate.
  unfold deadline_block. rewrite Hd.
  destruct (time_to_deadline_min f) as [ttd|]; [destruct (ttd <? 1440)%Z |];
    locals; weights; by simplify_map_eq.
Qed.

Lemma urgent_deadline_weight dateNow f :
  deadline_urgent f = true →
  feature_weights (calculatePriority dateNow f) !! "time_to_deadline_urgent" = Some 25.
Proof.
  unfold deadline_urgent. intros Hu.
  apply andb_true_iff in Hu as [Hd Ht].
  unfold calculatePriority, phase5. cbn [feature_weights].
  rewrite phase4_weights. unfold accumulate.
  rewrite phase3_weights_ne by discriminate.
  unfold phase2. cbv zeta. rewrite !weights_if_signal_ne by discriminate.
  unfold deadline_block. rewrite Hd.
  destruct (time_to_deadline_min f) as [ttd|]; [| discriminate].
  rewrite Ht. locals. weights. by simplify_map_eq.
Qed.


(** *** Range and categories *)

(** C1.  For every feature record (and every clock reading) the returned
    score is an integer between 0 and 100 and the returned confidence lies
    between 0 and 1. *)
Theorem calculatePriority_range (dateNow : Z) (f : MessageFeatures) :
  (0 ≤ score (calculatePriority dateNow f) ≤ 100)%Z
  ∧ 0 <= confidence (calculatePriority dateNow f) <= 1.
Proof.
  unfold calculatePriority, phase5. cbn [score confidence].
  set (x := l_score _). set (c := l_confidence _).
  destruct (clamp_range 0 100 x) as [Hlo Hhi]; [discriminate |].
  split; [split |].
  - rewrite <- (Math_round_Z 0). apply Math_round_mono, Hlo.
  - rewrite <- (Math_round_Z 100). apply Math_round_mono, Hhi.
  - apply clamp_range. discriminate.
Qed.

(** The category is read off the clamped score before it is rounded. *)
Lemma categorize_thresholds (x : Q) :
  match categorize x with
  | urgent => 90 <= x
  | important => 70 <= x < 90
  | normal => 50 <= x < 70
  | low => 30 <= x < 50
  | spam => x < 30
  end.
Proof.
  unfold categorize. weights.
  destruct (Qle_bool 90 x) eqn:E1; [by apply Qle_bool_iff |].
  destruct (Qle_bool 70 x) eqn:E2;
    [split; [by apply Qle_bool_iff | by apply Qlt_bool_iff; unfold Qlt_bool; rewrite E1] |].
  destruct (Qle_bool 50 x) eqn:E3;
    [split; [by apply Qle_bool_iff | by apply Qlt_bool_iff; unfold Qlt_bool; rewrite E2] |].
  destruct (Qle_bool 30 x) eqn:E4;
    [split; [by apply Qle_bool_iff | by apply Qlt_bool_iff; unfold Qlt_bool; rewrite E3] |].
  by apply Qlt_bool_iff; unfold Qlt_bool; rewrite E4.
Qed.

(** C2.  With a relationship score of 0.66 and nothing else, the additive
    total is 69.8: the category is taken from 69.8 ([normal]) and the score
    is then rounded to 70, which the thresholds call [important]. *)
Theorem category_taken_before_rounding (dateNow : Z) (id : string) :
  let r := calculatePriority dateNow
             (set_relationship_score 0.66 (createBaselineFeatures id)) in
  score r = 70%Z ∧ category r = normal.
Proof. vm_compute. split; reflexivity. Qed.

(** *** Dependence on the clock *)

(** C3, as stated, fails: the same calendar invite scored two hours before
    the event and one day later gets two different results. *)
Lemma calculatePriority_reads_the_clock :
  let f := set_calendar 1 (Some 7200%Z) (createBaselineFeatures "test-001") in
  calculatePriority 0 f ≠ calculatePriority 86400000 f.
Proof.
  intros f H. apply (f_equal score) in H. vm_compute in H. discriminate.
Qed.

(** C3, amended.  The result is a function of the feature record and of the
    clock second; two invocations agree when they read the same second, or
    when the record carries no calendar start (flag 0, or start null or 0). *)
Theorem calculatePriority_deterministic (f : MessageFeatures) (n1 n2 : Z) :
  (n1 / 1000 = n2 / 1000)%Z
  ∨ has_calendar f = 0%Z
  ∨ calendar_start_epoch f = None
  ∨ calendar_start_epoch f = Some 0%Z →
  calculatePriority n1 f = calculatePriority n2 f.
Proof.
  intros H. unfold calculatePriority, phase4. do 2 f_equal.
  unfold calendar_block.
  destruct H as [H | [H | [H | H]]].
  - rewrite H. reflexivity.
  - rewrite H. destruct (calendar_start_epoch f); reflexivity.
  - rewrite H. reflexivity.
  - rewrite H. cbn [truthy Z.eqb negb]. rewrite andb_false_r. reflexivity.
Qed.

Lemma calculatePriority_deterministic_witness :
  has_calendar (createBaselineFeatures "test-001") = 0%Z
  ∧ calculatePriority 0 (createBaselineFeatures "test-001")
    = calculatePriority 86400000 (createBaselineFeatures "test-001").
Proof.
  split; [reflexivity |].
  apply (calculatePriority_deterministic (createBaselineFeatures "test-001")).
  right; left; reflexivity.
Defined.


(** *** The deadline rule *)

Lemma deadline_points_cleared f : deadline_points (set_deadline_epoch None f) = 0.
Proof. destruct f; reflexivity. Qed.

Lemma deadline_urgent_cleared f : deadline_urgent (set_deadline_epoch None f) = false.
Proof. destruct f; reflexivity. Qed.

Lemma other_points_cleared f :
  let f0 := set_deadline_epoch None f in
  phase1_points f0 = phase1_points f
  ∧ phase2_points f0 = phase2_points f
  ∧ phase3_points f0 = phase3_points f
  ∧ otp_detected f0 = otp_detected f.
Proof. destruct f; repeat split; reflexivity. Qed.

(** C4, as stated, fails: epoch 0 is a non-null deadline that the test
    [if (features.deadline_epoch)] does not take, so nothing is added. *)
Lemma zero_deadline_epoch_adds_nothing :
  let f := set_time_to_deadline_min (Some 30%Z)
             (set_deadline_epoch (Some 0%Z) (createBaselineFeatures "test-001")) in
  let r := calculatePriority 0 f in
  deadline_epoch f ≠ None
  ∧ score r = 50%Z ∧ category r = normal ∧ confidence r = 0.8
  ∧ feature_weights r !! "deadline_epoch" = None.
Proof. vm_compute. repeat split; discriminate. Qed.

(** C4, amended.  For every feature record whose [deadline_epoch] is neither
    null nor 0 the additive total grows by 15, and by 25 more (40 in all)
    when [time_to_deadline_min] is non-null and below 1440, in which case
    the confidence grows by 0.1, capped at 1; both contributions are
    recorded in the feature weights.  In particular such a deadline with
    [time_to_deadline_min = 30] on the neutral record scores 90, [urgent]. *)
Theorem deadline_bonus (f : MessageFeatures) (d : Z) :
  deadline_epoch f = Some d → d ≠ 0%Z →
  let f0 := set_deadline_epoch None f in
  let within24h :=
    match time_to_deadline_min f with
    | Some ttd => (ttd <? 1440)%Z
    | None => false
    end in
  l_score (accumulate f)
    == l_score (accumulate f0) + 15 + (if within24h then 25 else 0)
  ∧ l_confidence (accumulate f)
    = (if within24h then Qmin (l_confidence (accumulate f0) + 0.1) 1
       else l_confidence (accumulate f0))
  ∧ (∀ dateNow,
       feature_weights (calculatePriority dateNow f) !! "deadline_epoch" = Some 15
       ∧ (within24h = true →
          feature_weights (calculatePriority dateNow f) !! "time_to_deadline_urgent"
          = Some 25))
  ∧ (∀ dateNow id,
       let r := calculatePriority dateNow
                  (set_time_to_deadline_min (Some 30%Z)
                     (set_deadline_epoch (Some d) (createBaselineFeatures id))) in
       score r = 90%Z ∧ category r = urgent ∧ confidence r == 0.9).
Proof.
  intros Hd Hnz f0 within24h.
  assert (Ht : truthy_opt (deadline_epoch f) = true).
  { apply truthy_opt_true. eauto. }
  assert (Hu : deadline_urgent f = within24h).
  { unfold deadline_urgent. rewrite Ht. reflexivity. }
  destruct (other_points_cleared f) as (E1 & E2 & E3 & E4). fold f0 in E1, E2, E3, E4.
  split; [| split; [| split]].
  - rewrite !accumulate_score. unfold additive_total.
    unfold f0 at 3. rewrite deadline_points_cleared, E1, E2, E3.
    unfold deadline_points. rewrite Ht, Hu.
    destruct within24h; ring.
  - rewrite !accumulate_confidence. cbv zeta.
    rewrite E4, Hu. unfold f0. rewrite deadline_urgent_cleared. reflexivity.
  - intros dateNow. split.
    + apply deadline_weight, Ht.
    + intros Hw. apply urgent_deadline_weight. rewrite Hu. exact Hw.
  - intros dateNow id.
    destruct d as [|p|p]; [contradiction | |]; vm_compute; repeat split; discriminate.
Qed.

Lemma deadline_bonus_witness :
  let f := set_time_to_deadline_min (Some 30%Z)
             (set_deadline_epoch (Some 1800%Z) (createBaselineFeatures "test-001")) in
  deadline_epoch f = Some 1800%Z
  ∧ 1800%Z ≠ 0%Z
  ∧ l_score (accumulate f) == 90
  ∧ score (calculatePriority 0 f) = 90%Z
  ∧ category (calculatePriority 0 f) = urgent.
Proof.
  intros f.
  destruct (deadline_bonus f 1800 eq_refl ltac:(discriminate)) as (Hs & _ & _ & Hr).
  destruct (Hr 0%Z "test-001") as (Hscore & Hcat & _).
  split; [reflexivity |]. split; [discriminate |].
  split; [rewrite Hs; reflexivity |].
  split; [exact Hscore | exact Hcat].
Defined.

(** *** The security-alert override *)

(** C5, as stated, fails on the same input shape: with [deadline_epoch = 0]
    (non-null), five minutes to the deadline and an explicit ask, the floor
    is not applied and the confidence stays at its base. *)
Lemma zero_deadline_epoch_no_security_floor :
  let f := set_explicit_ask 1
             (set_time_to_deadline_min (Some 5%Z)
                (set_deadline_epoch (Some 0%Z) (createBaselineFeatures "test-001"))) in
  let r := calculatePriority 0 f in
  deadline_epoch f ≠ None ∧ time_to_deadline_min f = Some 5%Z ∧ explicit_ask f = 1%Z
  ∧ score r = 70%Z ∧ confidence r = 0.8.
Proof. vm_compute. repeat split; discriminate. Qed.

(** C5, amended.  For every feature record whose [deadline_epoch] is neither
    null nor 0, whose [time_to_deadline_min] is non-null and below 360 and
    whose [explicit_ask] is set, the score is at least 85 and the
    confidence is exactly 0.7, whatever the other features and the clock. *)
Theorem security_alert_floor (dateNow : Z) (f : MessageFeatures) (d ttd : Z) :
  deadline_epoch f = Some d → d ≠ 0%Z →
  time_to_deadline_min f = Some ttd → (ttd < 360)%Z →
  explicit_ask f ≠ 0%Z →
  (85 ≤ score (calculatePriority dateNow f))%Z
  ∧ confidence (calculatePriority dateNow f) = 0.7.
Proof.
  intros Hd Hnz Ht Hlt Hask.
  assert (Hsec : security_alert f = true).
  { unfold security_alert. rewrite Hd, Ht. cbn [truthy_opt].
    rewrite !andb_true_iff, !truthy_true, Z.ltb_lt. auto. }
  unfold calculatePriority, phase5. cbn [score confidence]. split.
  - rewrite <- (Math_round_Z 85). apply Math_round_mono.
    apply clamp_ge; [discriminate | discriminate |].
    rewrite score_trace. cbv zeta. rewrite Hsec. apply Q.le_max_r.
  - rewrite confidence_trace. cbv zeta. rewrite Hsec. reflexivity.
Qed.

Lemma security_alert_floor_witness :
  let f := set_is_newsletter 1
             (set_explicit_ask 1
                (set_time_to_deadline_min (Some 5%Z)
                   (set_deadline_epoch (Some 300%Z)
                      (createBaselineFeatures "test-001")))) in
  (deadline_epoch f = Some 300%Z ∧ 300%Z ≠ 0%Z
   ∧ time_to_deadline_min f = Some 5%Z ∧ (5 < 360)%Z ∧ explicit_ask f ≠ 0%Z)
  ∧ (85 ≤ score (calculatePriority 0 f))%Z
  ∧ confidence (calculatePriority 0 f) = 0.7.
Proof.
  intros f. split.
  - repeat split; (reflexivity || discriminate).
  - apply (security_alert_floor 0 f 300 5);
      (reflexivity || discriminate).
Defined.


(** *** Single negative signals on the neutral record *)

(** C6.  The neutral record with only [is_newsletter] set gets the -30
    penalty: score 20, below 30, category [spam]. *)
Theorem newsletter_alone_is_spam (dateNow : Z) (id : string) (v : Z) :
  v ≠ 0%Z →
  let r := calculatePriority dateNow (set_is_newsletter v (createBaselineFeatures id)) in
  feature_weights r !! "is_newsletter" = Some (-30)
  ∧ score r = 20%Z ∧ (score r < 30)%Z ∧ category r = spam.
Proof.
  intros Hv. destruct v as [|p|p]; [contradiction | |]; vm_compute; repeat split.
Qed.

Lemma newsletter_alone_is_spam_witness :
  1%Z ≠ 0%Z
  ∧ let r := calculatePriority 0 (set_is_newsletter 1 (createBaselineFeatures "test-001")) in
    feature_weights r !! "is_newsletter" = Some (-30)
    ∧ score r = 20%Z ∧ (score r < 30)%Z ∧ category r = spam.
Proof.
  split; [discriminate |].
  apply (newsletter_alone_is_spam 0 "test-001" 1). discriminate.
Defined.

(** C7.  The neutral record with only [otp_detected] set gets the -35
    penalty: score 15, below 30, and a confidence of at most 0.6. *)
Theorem otp_alone_is_low_confidence (dateNow : Z) (id : string) (v : Z) :
  v ≠ 0%Z →
  let r := calculatePriority dateNow (set_otp_detected v (createBaselineFeatures id)) in
  feature_weights r !! "otp_detected" = Some (-35)
  ∧ score r = 15%Z ∧ (score r < 30)%Z ∧ confidence r <= 0.6.
Proof.
  intros Hv. destruct v as [|p|p]; [contradiction | |]; vm_compute; repeat split;
    discriminate.
Qed.

Lemma otp_alone_is_low_confidence_witness :
  1%Z ≠ 0%Z
  ∧ let r := calculatePriority 0 (set_otp_detected 1 (createBaselineFeatures "test-001")) in
    feature_weights r !! "otp_detected" = Some (-35)
    ∧ score r = 15%Z ∧ (score r < 30)%Z ∧ confidence r <= 0.6.
Proof.
  split; [discriminate |].
  apply (otp_alone_is_low_confidence 0 "test-001" 1). discriminate.
Defined.

(** *** The base confidence *)

(** C10.  When no confidence rule fires -- no OTP, no deadline with a
    non-null [time_to_deadline_min] below 1440, no calendar event starting
    within the 24 hours after the evaluation time, no deadline below 360
    minutes together with an explicit ask -- the confidence is exactly the
    base value 0.8. *)
Theorem base_confidence (dateNow : Z) (f : MessageFeatures) :
  otp_detected f = 0%Z →
  ¬ (deadline_epoch f ≠ None
     ∧ ∃ ttd, time_to_deadline_min f = Some ttd ∧ (ttd < 1440)%Z) →
  ¬ (has_calendar f ≠ 0%Z
     ∧ ∃ start, calendar_start_epoch f = Some start
                ∧ (0 < start - dateNow / 1000 < 24 * 3600)%Z) →
  ¬ (deadline_epoch f ≠ None
     ∧ (∃ ttd, time_to_deadline_min f = Some ttd ∧ (ttd < 360)%Z)
     ∧ explicit_ask f ≠ 0%Z) →
  confidence (calculatePriority dateNow f) = 0.8.
Proof.
  intros Hotp Hdl Hcal Hsec.
  assert (E1 : truthy (otp_detected f) = false) by (rewrite Hotp; reflexivity).
  assert (E2 : deadline_urgent f = false).
  { apply not_true_is_false. unfold deadline_urgent. intros H.
    apply andb_true_iff in H as [H1 H2]. apply Hdl.
    apply truthy_opt_true in H1 as (d & Hd & _).
    split; [congruence |].
    destruct (time_to_deadline_min f) as [ttd|]; [| discriminate].
    exists ttd. split; [reflexivity | by apply Z.ltb_lt]. }
  assert (E3 : calendar_soon dateNow f = false).
  { apply not_true_is_false. unfold calendar_soon. intros H.
    apply andb_true_iff in H as [H1 H2]. apply Hcal.
    split; [by apply truthy_true |].
    destruct (calendar_start_epoch f) as [start|]; [| discriminate].
    exists start. split; [reflexivity |].
    rewrite !andb_true_iff, !Z.ltb_lt in H2. lia. }
  assert (E4 : security_alert f = false).
  { apply not_true_is_false. unfold security_alert. intros H.
    rewrite !andb_true_iff in H. destruct H as [[H1 H2] H3]. apply Hsec.
    apply truthy_opt_true in H1 as (d & Hd & _).
    split; [congruence |]. split; [| by apply truthy_true].
    destruct (time_to_deadline_min f) as [ttd|]; [| discriminate].
    exists ttd. split; [reflexivity | by apply Z.ltb_lt]. }
  unfold calculatePriority, phase5. cbn [confidence].
  rewrite confidence_trace. cbv zeta. rewrite E1, E2, E3, E4. reflexivity.
Qed.

Lemma base_confidence_witness :
  let f := set_calendar 1 (Some 1700259200%Z)
             (set_explicit_ask 1
                (set_time_to_deadline_min (Some 2880%Z)
                   (set_deadline_epoch (Some 1700172800%Z)
                      (createBaselineFeatures "test-001")))) in
  otp_detected f = 0%Z
  ∧ confidence (calculatePriority 1700000000000 f) = 0.8.
Proof.
  intros f. split; [reflexivity |].
  apply (base_confidence 1700000000000 f).
  - reflexivity.
  - intros [_ (ttd & [= <-] & Hlt)]. discriminate Hlt.
  - intros [_ (start & [= <-] & _ & Hlt)]. discriminate Hlt.
  - intros [_ [(ttd & [= <-] & Hlt) _]]. discriminate Hlt.
Defined.

(** *** What the returned score and category guarantee about each other *)

(** X1.  The category is decided on the unrounded score, so the returned integer
    lies in the category's band with both ends included. *)
Theorem category_band (dateNow : Z) (f : MessageFeatures) :
  let r := calculatePriority dateNow f in
  match category r with
  | urgent => (90 ≤ score r ≤ 100)%Z
  | important => (70 ≤ score r ≤ 90)%Z
  | normal => (50 ≤ score r ≤ 70)%Z
  | low => (30 ≤ score r ≤ 50)%Z
  | spam => (0 ≤ score r ≤ 30)%Z
  end.
Proof.
  intros r. subst r. unfold calculatePriority, phase5. cbn [score category].
  set (x := Qmax 0 (Qmin 100 _)).
  pose proof (categorize_thresholds x) as Hc.
  assert (Hr : (0 ≤ Math_round x ≤ 100)%Z).
  { destruct (clamp_range 0 100 (l_score (phase4 dateNow f (accumulate f))))
      as [H0 H100]; [discriminate |]. fold x in H0, H100. split.
    - rewrite <- (Math_round_Z 0). by apply Math_round_mono.
    - rewrite <- (Math_round_Z 100). by apply Math_round_mono. }
  assert (Hup : ∀ n : Z, x <= inject_Z n → (Math_round x ≤ n)%Z).
  { intros n Hn. rewrite <- (Math_round_Z n). by apply Math_round_mono. }
  assert (Hlo : ∀ n : Z, inject_Z n <= x → (n ≤ Math_round x)%Z).
  { intros n Hn. rewrite <- (Math_round_Z n) at 1. by apply Math_round_mono. }
  destruct (categorize x).
  - split; [apply Hlo, Hc | lia].
  - destruct Hc as [H1 H2]. split; [apply Hlo, H1 | apply Hup; change (inject_Z 90) with 90; lra].
  - destruct Hc as [H1 H2]. split; [apply Hlo, H1 | apply Hup; change (inject_Z 70) with 70; lra].
  - destruct Hc as [H1 H2]. split; [apply Hlo, H1 | apply Hup; change (inject_Z 50) with 50; lra].
  - split; [lia | apply Hup; change (inject_Z 30) with 30; lra].
Qed.

(** *** The method body in closed form *)



Lemma clamp_mono (lo hi x y : Q) : x <= y → Qmax lo (Qmin hi x) <= Qmax lo (Qmin hi y).
Proof.
  intros H. apply Q.max_le_compat_l. apply Q.min_le_compat_l. exact H.
Qed.



(** *** The two calendar rules *)

(** X3.  A record with the calendar flag set is scored exactly as if it were not
    auto-generated: the -20 penalty is never applied to a calendar invite. *)
Theorem calendar_invite_not_penalised (dateNow : Z) (f : MessageFeatures) :
  has_calendar f ≠ 0%Z →
  calculatePriority dateNow f
  = calculatePriority dateNow (Updates.set_is_auto_generated 0 f).
Proof.
  intros H. apply truthy_true in H.
  destruct f. cbn [has_calendar] in H.
  unfold calculatePriority, accumulate, phase1, Updates.set_is_auto_generated.
  cbv beta iota delta [is_newsletter is_auto_generated has_calendar otp_detected].
  rewrite H. cbn [negb truthy Z.eqb andb]. rewrite andb_false_r. reflexivity.
Qed.

Lemma calendar_invite_not_penalised_witness :
  let f := Updates.set_is_auto_generated 1
             (set_calendar 1 (Some 1700007200%Z) (createBaselineFeatures "test-001")) in
  has_calendar f ≠ 0%Z
  ∧ calculatePriority 1700000000000 f
    = calculatePriority 1700000000000 (Updates.set_is_auto_generated 0 f).
Proof.
  intros f. split; [discriminate |].
  apply (calendar_invite_not_penalised 1700000000000 f). discriminate.
Defined.

(** X4.  An invite whose event starts within the next 24 hours is at least
    [important], with a score of at least 70, whatever else the record says
    (newsletter, OTP, auto-generated, ...). *)
Theorem calendar_override (dateNow : Z) (f : MessageFeatures) (start : Z) :
  has_calendar f ≠ 0%Z →
  calendar_start_epoch f = Some start → start ≠ 0%Z →
  (0 < start - dateNow / 1000 < 24 * 3600)%Z →
  let r := calculatePriority dateNow f in
  (70 ≤ score r)%Z ∧ (category r = important ∨ category r = urgent).
Proof.
  intros Hcal Hstart Hnz Hwin r.
  assert (Hsoon : calendar_soon dateNow f = true).
  { unfold calendar_soon. rewrite Hstart.
    rewrite !andb_true_iff, !truthy_true, !Z.ltb_lt. lia. }
  subst r. unfold calculatePriority, phase5. cbn [score category].
  set (x := Qmax 0 (Qmin 100 _)).
  assert (Hx : 70 <= x).
  { unfold x. apply clamp_ge; [discriminate | discriminate |].
    rewrite score_trace. cbv zeta. rewrite Hsoon.
    destruct (security_alert f).
    - apply Qle_trans with (Qmax (additive_total f) 70); [apply Q.le_max_r | apply Q.le_max_l].
    - apply Q.le_max_r. }
  split.
  - rewrite <- (Math_round_Z 70). by apply Math_round_mono.
  - pose proof (categorize_thresholds x) as Hc.
    destruct (categorize x); auto; lra.
Qed.

Lemma calendar_override_witness :
  let f := set_is_newsletter 1
             (set_otp_detected 1
                (set_calendar 1 (Some 1700007200%Z) (createBaselineFeatures "test-001"))) in
  (has_calendar f ≠ 0%Z ∧ (0 < 1700007200 - 1700000000000 / 1000 < 24 * 3600)%Z)
  ∧ (70 ≤ score (calculatePriority 1700000000000 f))%Z.
Proof.
  intros f. split; [split; [discriminate | split; reflexivity] |].
  apply (calendar_override 1700000000000 f 1700007200);
    [discriminate | reflexivity | discriminate | split; reflexivity].
Defined.

(** *** Monotonicity *)

Lemma overrides_mono (b1 b2 : bool) (s s' : Q) :
  s <= s' →
  (let t := if b1 then Qmax s 70 else s in if b2 then Qmax t 85 else t)
  <= (let t := if b1 then Qmax s' 70 else s' in if b2 then Qmax t 85 else t).
Proof.
  intros H. cbv zeta.
  assert (H1 : (if b1 then Qmax s 70 else s) <= (if b1 then Qmax s' 70 else s')).
  { destruct b1; [apply Q.max_le_compat_r |]; exact H. }
  destruct b2; [apply Q.max_le_compat_r |]; exact H1.
Qed.

(** Scores compare as the additive totals do, when the two records trigger
    the same overrides. *)
Lemma score_mono (dateNow : Z) (f g : MessageFeatures) :
  calendar_soon dateNow f = calendar_soon dateNow g →
  security_alert f = security_alert g →
  additive_total f <= additive_total g →
  (score (calculatePriority dateNow f) ≤ score (calculatePriority dateNow g))%Z.
Proof.
  intros Hc Hs Ht. unfold calculatePriority, phase5. cbn [score].
  apply Math_round_mono, clamp_mono. rewrite !score_trace, Hc, Hs.
  apply overrides_mono, Ht.
Qed.

Lemma relationship_points_mono (r1 r2 : Q) :
  r1 <= r2 →
  (if Qlt_bool 0 r1 then r1 * 30 else 0) <= (if Qlt_bool 0 r2 then r2 * 30 else 0).
Proof.
  intros H.
  destruct (Qlt_bool 0 r1) eqn:E1, (Qlt_bool 0 r2) eqn:E2;
    rewrite ?Qlt_bool_iff in *; try lra.
  apply not_true_iff_false in E2. rewrite Qlt_bool_iff in E2. lra.
Qed.

Lemma reply_points_mono (p1 p2 : Q) :
  p1 <= p2 →
  (if Qlt_bool 0.5 p1 then p1 * 25 else 0) <= (if Qlt_bool 0.5 p2 then p2 * 25 else 0).
Proof.
  intros H.
  destruct (Qlt_bool 0.5 p1) eqn:E1, (Qlt_bool 0.5 p2) eqn:E2;
    rewrite ?Qlt_bool_iff in *; try lra.
  apply not_true_iff_false in E2. rewrite Qlt_bool_iff in E2. lra.
Qed.

(** X5.  A stronger relationship or a higher reply probability never lowers the
    score of an otherwise identical record. *)
Theorem score_monotone_in_graded_inputs
    (dateNow : Z) (f : MessageFeatures) (r1 r2 p1 p2 : Q) :
  r1 <= r2 → p1 <= p2 →
  (score (calculatePriority dateNow
            (set_relationship_score r1 (Updates.set_reply_need_prob p1 f)))
   ≤ score (calculatePriority dateNow
              (set_relationship_score r2 (Updates.set_reply_need_prob p2 f))))%Z.
Proof.
  intros Hr Hp. apply score_mono.
  - destruct f; reflexivity.
  - destruct f; reflexivity.
  - pose proof (relationship_points_mono r1 r2 Hr) as H1.
    pose proof (reply_points_mono p1 p2 Hp) as H2.
    destruct f. unfold additive_total, phase1_points, phase2_points, deadline_points,
      phase3_points, deadline_urgent, set_relationship_score, Updates.set_reply_need_prob.
    cbv beta iota delta
      [is_newsletter is_auto_generated has_calendar otp_detected relationship_score
       is_vip_sender explicit_ask thread_you_owe reply_need_prob deadline_epoch
       time_to_deadline_min content_intent].
    lra.
Qed.

Lemma score_monotone_in_graded_inputs_witness :
  let f := set_explicit_ask 1 (createBaselineFeatures "test-001") in
  (0.2 <= 0.9 ∧ 0.4 <= 0.8)
  ∧ (score (calculatePriority 0
              (set_relationship_score 0.2 (Updates.set_reply_need_prob 0.4 f)))
     ≤ score (calculatePriority 0
                (set_relationship_score 0.9 (Updates.set_reply_need_prob 0.8 f))))%Z.
Proof.
  intros f. split; [split; discriminate |].
  apply (score_monotone_in_graded_inputs 0 f); discriminate.
Defined.

(** X6.  The three negative signals never raise the score: a record scores at
    most what it scores with newsletter, auto-generated and OTP flags reset. *)
Theorem negative_signals_never_raise (dateNow : Z) (f : MessageFeatures) :
  (score (calculatePriority dateNow f)
   ≤ score (calculatePriority dateNow (Updates.clear_negative_signals f)))%Z.
Proof.
  apply score_mono.
  - destruct f; reflexivity.
  - destruct f; reflexivity.
  - destruct f. unfold additive_total, phase1_points, phase2_points, deadline_points,
      phase3_points, deadline_urgent, Updates.clear_negative_signals.
    cbv beta iota delta
      [is_newsletter is_auto_generated has_calendar otp_detected relationship_score
       is_vip_sender explicit_ask thread_you_owe reply_need_prob deadline_epoch
       time_to_deadline_min content_intent].
    cbn [truthy Z.eqb negb andb].
    destruct (truthy _), (truthy _ && negb (truthy _))%bool, (truthy _); lra.
Qed.

(** *** The feature weights explain the additive score *)




















End PriorityScorerFacts.

(** ** RelationshipScorer *)

Section RelationshipScorerFacts.
Import RelationshipScorer.
Local Open Scope Q_scope.

Variable Math_exp : Q → Q.
Variable selectReceived : string → Z → list EmailRecord.
Variable selectSent : string → string → Z → list EmailRecord.

Lemma no_rows {A} (l : list A) : Z.of_nat (length l) = 0%Z → l = [].
Proof. destruct l; [reflexivity | discriminate]. Qed.

(** C8.  A sender with no email received from them and none sent to them in
    the window scores exactly 0.5, with or without the manual-VIP flag; the
    weighted sum of the returned components (0.175, or 0.275 for a VIP) is
    not what is returned. *)
Theorem new_sender_scores_neutral
    (dateNow : Z) (senderEmail userEmail : string) (isManualVIP : bool) :
  let r := calculateRelationshipScore Math_exp selectReceived selectSent
             dateNow senderEmail userEmail isManualVIP in
  emails_received (stats r) = 0%Z →
  emails_sent_to (stats r) = 0%Z →
  rs_score r = 0.5
  ∧ reply_frequency (components r) * WEIGHTS.REPLY_FREQUENCY
    + c_two_way_exchanges (components r) * WEIGHTS.TWO_WAY_EXCHANGES
    + recency (components r) * WEIGHTS.RECENCY
    + email_volume (components r) * WEIGHTS.EMAIL_VOLUME
    + manual_vip (components r) * WEIGHTS.MANUAL_VIP
    == (if isManualVIP then 0.275 else 0.175).
Proof.
  intros r Hrecv Hsent. subst r.
  unfold calculateRelationshipScore in *. cbv zeta in *.
  cbn [stats rs_score components reply_frequency c_two_way_exchanges recency
       email_volume manual_vip] in *.
  split.
  - rewrite Hrecv, Hsent. reflexivity.
  - unfold scoreReplyFrequency, scoreTwoWayExchanges, scoreEmailVolume, scoreRecency.
    rewrite Hrecv, Hsent.
    unfold analyzeEmailHistory in *. cbv zeta in *.
    cbn [emails_received emails_sent_to last_contact_epoch] in *.
    apply no_rows in Hrecv, Hsent. rewrite Hrecv, Hsent.
    destruct isManualVIP; reflexivity.
Qed.
End RelationshipScorerFacts.

Lemma new_sender_scores_neutral_witness :
  let r := RelationshipScorer.calculateRelationshipScore
             (λ _, 1%Q) (λ _ _, []) (λ _ _ _, [])
             1700000000000 "new@example.com" "me@example.com" true in
  (emails_received (stats r) = 0%Z ∧ emails_sent_to (stats r) = 0%Z)
  ∧ rs_score r = 0.5%Q.
Proof.
  intros r. split; [split; reflexivity |].
  apply (new_sender_scores_neutral (λ _, 1%Q) (λ _ _, []) (λ _ _ _, [])
           1700000000000 "new@example.com" "me@example.com" true); reflexivity.
Defined.

(** ** RelationshipScorer: ranges and shapes *)

Section RelationshipScorerShapes.
Import RelationshipScorer.
Local Open Scope Q_scope.

Variable Math_exp : Q → Q.
Variable selectReceived : string → Z → list EmailRecord.
Variable selectSent : string → string → Z → list EmailRecord.

(** *** Counting replies *)

Lemma counting_fold_bounds {A} (g : Z → A → Z) (l : list A) (n : Z) :
  (∀ c x, (c ≤ g c x ≤ c + 1)%Z) →
  (n ≤ fold_left g l n ≤ n + Z.of_nat (length l))%Z.
Proof.
  intros Hg. revert n. induction l as [|x l IH]; intros n; cbn [fold_left length].
  - lia.
  - specialize (IH (g n x)). specialize (Hg n x). lia.
Qed.

Lemma countUserReplies_bounds (received sent : list EmailRecord) :
  (0 ≤ countUserReplies received sent ≤ Z.of_nat (length sent))%Z.
Proof.
  unfold countUserReplies.
  apply (counting_fold_bounds _ sent 0). intros c x. cbv zeta.
  destruct (existsb _ received); lia.
Qed.

Lemma countSenderReplies_bounds (sent received : list EmailRecord) :
  (0 ≤ countSenderReplies sent received ≤ Z.of_nat (length received))%Z.
Proof.
  unfold countSenderReplies.
  apply (counting_fold_bounds _ received 0). intros c x. cbv zeta.
  destruct (existsb _ sent); lia.
Qed.

Lemma counting_fold_never {A} (l : list A) (n : Z) :
  fold_left (λ (count : Z) (_ : A), count) l n = n.
Proof. revert n. induction l; intros; cbn; auto. Qed.

(** X8.  The counts [analyzeEmailHistory] reports are consistent: replies are a
    subset of the emails in their direction, exchanges are bounded by both reply
    counts, and nothing is counted as a reply when the other direction is empty. *)
Theorem analyzeEmailHistory_counts (dateNow : Z) (senderEmail userEmail : string) :
  let s := analyzeEmailHistory selectReceived selectSent dateNow senderEmail userEmail in
  (0 ≤ user_replies_count s ≤ emails_sent_to s)%Z
  ∧ (0 ≤ sender_replies_count s ≤ emails_received s)%Z
  ∧ (0 ≤ two_way_exchanges s)%Z
  ∧ (two_way_exchanges s ≤ user_replies_count s)%Z
  ∧ (two_way_exchanges s ≤ sender_replies_count s)%Z
  ∧ (emails_received s = 0%Z ∨ emails_sent_to s = 0%Z →
     user_replies_count s = 0%Z ∧ sender_replies_count s = 0%Z
     ∧ two_way_exchanges s = 0%Z).
Proof.
  unfold analyzeEmailHistory. cbv zeta.
  cbn [user_replies_count emails_sent_to sender_replies_count emails_received
       two_way_exchanges].
  set (received := selectReceived _ _). set (sent := selectSent _ _ _).
  pose proof (countUserReplies_bounds received sent) as Hu.
  pose proof (countSenderReplies_bounds sent received) as Hs.
  split; [lia |]. split; [lia |]. split; [lia |]. split; [lia |]. split; [lia |].
  intros H. split; [| split; [| lia]].
  - destruct H as [H | H].
    + apply no_rows in H. rewrite H. unfold countUserReplies. cbn [existsb].
      apply counting_fold_never.
    + lia.
  - destruct H as [H | H].
    + lia.
    + apply no_rows in H. rewrite H. unfold countSenderReplies. cbn [existsb].
      apply counting_fold_never.
Qed.

(** *** The component curves *)

Lemma scoreReplyFrequency_range (s : EmailHistoryStats) :
  0 <= scoreReplyFrequency s <= 1.
Proof.
  unfold scoreReplyFrequency.
  destruct (emails_received s =? 0)%Z; [split; discriminate |].
  cbv zeta. set (d := Qabs _).
  assert (0 <= d) by apply Qabs_nonneg.
  split; [apply Q.le_max_l |]. apply Q.max_lub; lra.
Qed.

Lemma inject_Z_div_nonneg (a b : Z) : (0 ≤ a)%Z → (0 < b)%Z → 0 <= inject_Z a / inject_Z b.
Proof.
  intros Ha Hb. apply Qle_shift_div_l.
  - change 0 with (inject_Z 0). rewrite <- Zlt_Qlt. exact Hb.
  - rewrite Qmult_0_l. change 0 with (inject_Z 0). rewrite <- Zle_Qle. exact Ha.
Qed.

Lemma scoreTwoWayExchanges_range (s : EmailHistoryStats) :
  (0 ≤ two_way_exchanges s)%Z → (0 ≤ emails_received s)%Z → (0 ≤ emails_sent_to s)%Z →
  0 <= scoreTwoWayExchanges s <= 1.
Proof.
  intros H2 Hr Hs. unfold scoreTwoWayExchanges. cbv zeta.
  destruct (emails_received s + emails_sent_to s =? 0)%Z eqn:E; [split; discriminate |].
  apply Z.eqb_neq in E.
  pose proof (inject_Z_div_nonneg (two_way_exchanges s)
                (emails_received s + emails_sent_to s) H2 ltac:(lia)) as Hq.
  split; [apply Q.min_glb; lra | apply Q.le_min_l].
Qed.

Lemma scoreRecency_range (dateNow : Z) (s : EmailHistoryStats) :
  0 <= scoreRecency Math_exp dateNow s <= 1.
Proof.
  unfold scoreRecency.
  destruct (last_contact_epoch s) as [lst|]; [| split; discriminate].
  destruct (JS.truthy lst); [| split; discriminate].
  cbv zeta. apply clamp_range. discriminate.
Qed.

Lemma scoreEmailVolume_range (s : EmailHistoryStats) :
  (0 ≤ emails_received s)%Z → 0 <= scoreEmailVolume s <= 1.
Proof.
  intros Hr. unfold scoreEmailVolume.
  destruct (emails_received s <? 5)%Z eqn:E1.
  - apply Z.ltb_lt in E1. rewrite Zlt_Qlt in E1. rewrite Zle_Qle in Hr.
    change (inject_Z 5) with 5 in E1. change (inject_Z 0) with 0 in Hr.
    set (x := inject_Z (emails_received s)) in *.
    assert (x / 5 == x * (1 # 5)) as -> by (field; discriminate). lra.
  - destruct (emails_received s <=? 50)%Z eqn:E2; [split; discriminate |].
    apply Z.leb_gt in E2. rewrite Zlt_Qlt in E2. change (inject_Z 50) with 50 in E2.
    cbv zeta. unfold SPAM_THRESHOLD. set (x := inject_Z (emails_received s)) in *.
    assert ((x - 50) / 100 == (x - 50) * (1 # 100)) as -> by (field; discriminate).
    split; [apply Q.le_max_l | apply Q.max_lub; lra].
Qed.

(** X9.  The volume component is 1 exactly on the sweet spot of 5 to 50 received
    emails and has decayed to 0 from 150 emails on. *)
Theorem scoreEmailVolume_shape (s : EmailHistoryStats) :
  (scoreEmailVolume s == 1 ↔ (5 ≤ emails_received s ≤ 50)%Z)
  ∧ ((150 ≤ emails_received s)%Z → scoreEmailVolume s == 0).
Proof.
  unfold scoreEmailVolume, SPAM_THRESHOLD.
  destruct (emails_received s <? 5)%Z eqn:E1.
  - apply Z.ltb_lt in E1. split; [| lia].
    pose proof E1 as E1'. rewrite Zlt_Qlt in E1'. change (inject_Z 5) with 5 in E1'.
    set (x := inject_Z (emails_received s)) in *.
    assert (x / 5 == x * (1 # 5)) as -> by (field; discriminate).
    split; [intros H; lra | lia].
  - apply Z.ltb_ge in E1.
    destruct (emails_received s <=? 50)%Z eqn:E2.
    + apply Z.leb_le in E2. split; [split; [lia | reflexivity] | lia].
    + apply Z.leb_gt in E2. cbv zeta.
      pose proof E2 as E2'. rewrite Zlt_Qlt in E2'. change (inject_Z 50) with 50 in E2'.
      set (x := inject_Z (emails_received s)) in *.
      assert (Hp : (x - 50) / 100 == (x - 50) * (1 # 100)) by (field; discriminate).
      split.
      * split; [| lia]. intros H. exfalso.
        assert (Hlt : Qmax 0 (1 - (x - 50) / 100) < 1).
        { apply Q.max_lub_lt; lra. }
        lra.
      * intros H150. rewrite Zle_Qle in H150. change (inject_Z 150) with 150 in H150.
        fold x in H150. apply Q.max_l. lra.
Qed.


(** *** The composite score *)

Lemma clamp_inside (lo hi x : Q) : lo <= x → x <= hi → Qmax lo (Qmin hi x) == x.
Proof.
  intros H1 H2. rewrite (Q.min_r hi x) by exact H2. apply Q.max_r. exact H1.
Qed.

Lemma analyzed_counts_nonneg (dateNow : Z) (senderEmail userEmail : string) :
  let s := analyzeEmailHistory selectReceived selectSent dateNow senderEmail userEmail in
  (0 ≤ two_way_exchanges s)%Z ∧ (0 ≤ emails_received s)%Z ∧ (0 ≤ emails_sent_to s)%Z.
Proof.
  unfold analyzeEmailHistory. cbv zeta.
  cbn [two_way_exchanges emails_received emails_sent_to].
  set (received := selectReceived _ _). set (sent := selectSent _ _ _).
  pose proof (countUserReplies_bounds received sent).
  pose proof (countSenderReplies_bounds sent received). lia.
Qed.

(** X11.  Every relationship score and every component it is built from lies
    between 0 and 1, whatever the history queries and [Math.exp] return. *)
Theorem relationship_score_range
    (dateNow : Z) (senderEmail userEmail : string) (isManualVIP : bool) :
  let r := calculateRelationshipScore Math_exp selectReceived selectSent
             dateNow senderEmail userEmail isManualVIP in
  0 <= rs_score r <= 1
  ∧ 0 <= reply_frequency (components r) <= 1
  ∧ 0 <= c_two_way_exchanges (components r) <= 1
  ∧ 0 <= recency (components r) <= 1
  ∧ 0 <= email_volume (components r) <= 1
  ∧ 0 <= manual_vip (components r) <= 1.
Proof.
  destruct (analyzed_counts_nonneg dateNow senderEmail userEmail) as (H2 & Hr & Hs).
  unfold calculateRelationshipScore. cbv zeta in *.
  cbn [rs_score components reply_frequency c_two_way_exchanges recency email_volume
       manual_vip].
  set (s := analyzeEmailHistory _ _ _ _ _) in *.
  split; [| split; [| split; [| split; [| split]]]].
  - destruct ((emails_received s =? 0)%Z && (emails_sent_to s =? 0)%Z)%bool.
    + split; discriminate.
    + apply clamp_range. discriminate.
  - apply scoreReplyFrequency_range.
  - by apply scoreTwoWayExchanges_range.
  - apply scoreRecency_range.
  - by apply scoreEmailVolume_range.
  - destruct isManualVIP; split; discriminate.
Qed.

Lemma composite_range (a b c d e : Q) :
  0 <= a <= 1 → 0 <= b <= 1 → 0 <= c <= 1 → 0 <= d <= 1 → 0 <= e <= 1 →
  0 <= a * WEIGHTS.REPLY_FREQUENCY + b * WEIGHTS.TWO_WAY_EXCHANGES
       + c * WEIGHTS.RECENCY + d * WEIGHTS.EMAIL_VOLUME + e * WEIGHTS.MANUAL_VIP <= 1.
Proof.
  unfold WEIGHTS.REPLY_FREQUENCY, WEIGHTS.TWO_WAY_EXCHANGES, WEIGHTS.RECENCY,
    WEIGHTS.EMAIL_VOLUME, WEIGHTS.MANUAL_VIP.
  intros. lra.
Qed.

(** X12.  For a sender with any history the final clamp never bites: the score
    is exactly the weighted sum of the five components. Consequently the manual
    VIP flag is worth exactly 0.1 for such a sender, and nothing for a sender
    without history. *)
Theorem known_sender_score_is_weighted_sum
    (dateNow : Z) (senderEmail userEmail : string) (isManualVIP : bool) :
  let r := calculateRelationshipScore Math_exp selectReceived selectSent
             dateNow senderEmail userEmail isManualVIP in
  let plain := calculateRelationshipScore Math_exp selectReceived selectSent
                 dateNow senderEmail userEmail false in
  let known := negb ((emails_received (stats r) =? 0)%Z
                     && (emails_sent_to (stats r) =? 0)%Z) in
  (known = true →
   rs_score r
   == reply_frequency (components r) * WEIGHTS.REPLY_FREQUENCY
      + c_two_way_exchanges (components r) * WEIGHTS.TWO_WAY_EXCHANGES
      + recency (components r) * WEIGHTS.RECENCY
      + email_volume (components r) * WEIGHTS.EMAIL_VOLUME
      + manual_vip (components r) * WEIGHTS.MANUAL_VIP)
  ∧ rs_score r == rs_score plain + (if known && isManualVIP then 0.1 else 0).
Proof.
  destruct (analyzed_counts_nonneg dateNow senderEmail userEmail) as (H2 & Hr & Hs).
  unfold calculateRelationshipScore. cbv zeta in *.
  cbn [rs_score components reply_frequency c_two_way_exchanges recency email_volume
       manual_vip stats].
  set (s := analyzeEmailHistory _ _ _ _ _) in *.
  pose proof (scoreReplyFrequency_range s) as R1.
  pose proof (scoreTwoWayExchanges_range s H2 Hr Hs) as R2.
  pose proof (scoreRecency_range dateNow s) as R3.
  pose proof (scoreEmailVolume_range s Hr) as R4.
  assert (V1 : 0 <= (1 : Q) <= 1) by (split; discriminate).
  assert (V0 : 0 <= (0 : Q) <= 1) by (split; discriminate).
  pose proof (composite_range _ _ _ _ _ R1 R2 R3 R4 V1) as [C1 C1'].
  pose proof (composite_range _ _ _ _ _ R1 R2 R3 R4 V0) as [C0 C0'].
  destruct ((emails_received s =? 0)%Z && (emails_sent_to s =? 0)%Z)%bool;
    cbn [negb andb].
  - split; [discriminate | ring].
  - split.
    + intros _. destruct isManualVIP; by apply clamp_inside.
    + destruct isManualVIP.
      * rewrite !clamp_inside by assumption. unfold WEIGHTS.MANUAL_VIP. ring.
      * ring.
Qed.

(** *** Sorting by date *)

Section SortFacts.
Context {A : Type} (leb : A → A → bool).
Hypothesis leb_total : ∀ a b, leb a b = true ∨ leb b a = true.
Hypothesis leb_trans : ∀ a b c, leb a b = true → leb b c = true → leb a c = true.

Lemma insert_sorted_Permutation (x : A) (xs : list A) :
  Permutation (insert_sorted leb x xs) (x :: xs).
Proof.
  induction xs as [|y ys IH]; cbn [insert_sorted]; [reflexivity |].
  destruct (leb y x); [| reflexivity].
  rewrite IH. apply Permutation_swap.
Qed.

Lemma insert_sorted_StronglySorted (x : A) (xs : list A) :
  StronglySorted (λ a b, leb a b = true) xs →
  StronglySorted (λ a b, leb a b = true) (insert_sorted leb x xs).
Proof.
  induction 1 as [|y ys Hs IH Hall]; cbn [insert_sorted].
  - repeat constructor.
  - destruct (leb y x) eqn:E.
    + constructor; [exact IH |].
      rewrite insert_sorted_Permutation. constructor; assumption.
    + assert (Hxy : leb x y = true) by (destruct (leb_total x y); congruence).
      constructor; [by constructor |].
      constructor; [exact Hxy |].
      eapply Forall_impl; [exact Hall |]. intros z Hz. cbv beta in *. eauto.
Qed.

Lemma sort_acc_Permutation (xs acc : list A) :
  Permutation (fold_left (λ acc x, insert_sorted leb x acc) xs acc) (xs ++ acc).
Proof.
  revert acc. induction xs as [|x xs IH]; intros acc; cbn [fold_left app].
  - reflexivity.
  - rewrite IH, insert_sorted_Permutation. symmetry. apply Permutation_middle.
Qed.

Lemma sort_acc_StronglySorted (xs acc : list A) :
  StronglySorted (λ a b, leb a b = true) acc →
  StronglySorted (λ a b, leb a b = true)
    (fold_left (λ acc x, insert_sorted leb x acc) xs acc).
Proof.
  revert acc. induction xs as [|x xs IH]; intros acc Hacc; cbn [fold_left].
  - exact Hacc.
  - apply IH. by apply insert_sorted_StronglySorted.
Qed.

Lemma sort_StronglySorted (xs : list A) :
  StronglySorted (λ a b, leb a b = true) (sort leb xs).
Proof. apply sort_acc_StronglySorted. constructor. Qed.

Lemma sort_Permutation (xs : list A) : Permutation (sort leb xs) xs.
Proof.
  unfold sort. rewrite sort_acc_Permutation, app_nil_r. reflexivity.
Qed.

Hypothesis leb_refl : ∀ a, leb a a = true.

Lemma sorted_head_least (l : list A) (a : A) :
  StronglySorted (λ a b, leb a b = true) l →
  head l = Some a → ∀ e, e ∈ l → leb a e = true.
Proof.
  intros Hs Hh e He. destruct l as [|y ys]; [discriminate |].
  injection Hh as ->. apply StronglySorted_inv in Hs as [_ Hall].
  apply elem_of_cons in He as [-> | He]; [apply leb_refl |].
  rewrite Forall_forall in Hall. by apply Hall.
Qed.

Lemma sorted_last_greatest (l : list A) (b : A) :
  StronglySorted (λ a b, leb a b = true) l →
  last l = Some b → ∀ e, e ∈ l → leb e b = true.
Proof.
  induction 1 as [|y ys Hs IH Hall]; intros Hl e He; [discriminate |].
  destruct ys as [|z zs].
  - cbn in Hl. injection Hl as ->. apply list_elem_of_singleton in He as ->.
    apply leb_refl.
  - change (last (y :: z :: zs)) with (last (z :: zs)) in Hl.
    apply elem_of_cons in He as [-> | He]; [| by apply IH].
    rewrite Forall_forall in Hall. apply Hall.
    destruct (last_Some (z :: zs) b) as [H _].
    destruct (H Hl) as [l' ->]. rewrite elem_of_app, list_elem_of_singleton. by right.
Qed.
End SortFacts.

(** *** First and last contact *)

Lemma by_date_total (a b : EmailRecord) :
  (date a <=? date b)%Z = true ∨ (date b <=? date a)%Z = true.
Proof. rewrite !Z.leb_le. lia. Qed.

Lemma by_date_trans (a b c : EmailRecord) :
  (date a <=? date b)%Z = true → (date b <=? date c)%Z = true →
  (date a <=? date c)%Z = true.
Proof. rewrite !Z.leb_le. lia. Qed.

Lemma Qceiling_nonneg (x : Q) : 0 <= x → (0 ≤ Qceiling x)%Z.
Proof.
  intros H. rewrite Zle_Qle. change (inject_Z 0) with 0.
  pose proof (Qle_ceiling x). lra.
Qed.

(** X13.  The contact epochs [analyzeEmailHistory] reports bracket every email
    of the window, in both directions; they are null exactly when the window is
    empty, and the interaction span is never negative. *)
Theorem contact_epochs_bracket (dateNow : Z) (senderEmail userEmail : string) :
  let s := analyzeEmailHistory selectReceived selectSent dateNow senderEmail userEmail in
  let emails := selectReceived senderEmail (dateNow - SIX_MONTHS_MS)
                ++ selectSent userEmail senderEmail (dateNow - SIX_MONTHS_MS) in
  (first_contact_epoch s = None ↔ emails = [])
  ∧ (last_contact_epoch s = None ↔ emails = [])
  ∧ (∀ first lst e,
       first_contact_epoch s = Some first → last_contact_epoch s = Some lst →
       e ∈ emails → (first ≤ date e / 1000 ≤ lst)%Z)
  ∧ (0 ≤ total_interaction_days s)%Z.
Proof.
  unfold analyzeEmailHistory. cbv zeta.
  cbn [first_contact_epoch last_contact_epoch total_interaction_days].
  set (emails := selectReceived _ _ ++ selectSent _ _ _).
  set (leb := λ a b : EmailRecord, (date a <=? date b)%Z).
  pose proof (sort_StronglySorted leb by_date_total by_date_trans emails) as Hsorted.
  pose proof (sort_Permutation leb emails) as Hperm.
  set (all := sort leb emails) in *.
  assert (Hnil : all = [] ↔ emails = []).
  { split; intros H.
    - rewrite H in Hperm. by apply Permutation_nil.
    - rewrite H in Hperm. by apply Permutation_nil_r. }
  assert (Hbr : ∀ a b e, head all = Some a → last all = Some b → e ∈ emails →
                (date a / 1000 ≤ date e / 1000 ≤ date b / 1000)%Z).
  { intros a b e Ha Hb He. rewrite <- Hperm in He.
    assert (Hrefl : ∀ x, leb x x = true) by (intros; apply Z.leb_refl).
    pose proof (sorted_head_least leb Hrefl all a Hsorted Ha e He) as H1.
    pose proof (sorted_last_greatest leb Hrefl all b Hsorted Hb e He) as H2.
    unfold leb in H1, H2. rewrite Z.leb_le in H1, H2.
    split; apply Z.div_le_mono; lia. }
  split; [| split; [| split]].
  - rewrite <- Hnil. destruct all; cbn; split; congruence.
  - rewrite <- Hnil. rewrite fmap_None, last_None. reflexivity.
  - intros first lst e Hf Hl He.
    apply fmap_Some in Hf as (a & Ha & ->). apply fmap_Some in Hl as (b & Hb & ->).
    by apply Hbr.
  - destruct (head all) as [a|] eqn:Ha; cbn [fmap option_fmap option_map]; [| lia].
    destruct (last all) as [b|] eqn:Hb; cbn [fmap option_fmap option_map]; [| lia].
    destruct (JS.truthy (date a / 1000) && JS.truthy (date b / 1000))%bool; [| lia].
    apply Qceiling_nonneg. apply inject_Z_div_nonneg; [| reflexivity].
    assert (He : a ∈ emails) by (rewrite <- Hperm; by apply head_Some_elem_of).
    specialize (Hbr a b a eq_refl eq_refl He). lia.
Qed.

(** *** Reply latency *)

Lemma latency_sum_bounds (l : list Q) (acc : Q) :
  Forall (λ x, 0 < x ∧ x < 10080) l → l ≠ [] →
  acc < fold_left Qplus l acc
  ∧ fold_left Qplus l acc < acc + 10080 * inject_Z (Z.of_nat (length l)).
Proof.
  intros Hall. revert acc. induction Hall as [|x l [Hx1 Hx2] Hall IH]; intros acc Hne.
  - congruence.
  - cbn [fold_left length]. rewrite Nat2Z.inj_succ, <- Z.add_1_r, inject_Z_plus.
    change (inject_Z 1) with 1.
    destruct l as [|y l'].
    + cbn [fold_left length]. change (inject_Z (Z.of_nat 0)) with 0. lra.
    + destruct (IH (acc + x)) as [H1 H2]; [discriminate |]. lra.
Qed.

(** X14.  The average reply latency, when there is one, is positive and below
    the seven-day cut-off (10080 minutes). *)
Theorem average_reply_latency_range (received sent : list EmailRecord) :
  match calculateAverageReplyLatency received sent with
  | Some avg => 0 < avg ∧ avg < 10080
  | None => True
  end.
Proof.
  unfold calculateAverageReplyLatency.
  set (step := λ (latencies : list Q) (sentEmail : EmailRecord), _).
  assert (Hinv : ∀ l acc, Forall (λ x, 0 < x ∧ x < 10080) acc →
                  Forall (λ x, 0 < x ∧ x < 10080) (fold_left step l acc)).
  { induction l as [|e l IH]; intros acc Hacc; cbn [fold_left]; [exact Hacc |].
    apply IH. unfold step at 1. cbv zeta.
    set (earlier := filter _ received).
    pose proof (sort_Permutation (λ a b, (date b <=? date a)%Z) earlier) as Hperm.
    destruct (sort _ earlier) as [|recent rest]; [exact Hacc |].
    destruct (JS.Qlt_bool _ _) eqn:E; [| exact Hacc].
    apply Forall_app. split; [exact Hacc |].
    apply Forall_singleton. apply Qlt_bool_iff in E. split; [| exact E].
    assert (Hin : recent ∈ earlier) by (rewrite <- Hperm; apply elem_of_cons; by left).
    apply list_elem_of_filter in Hin as [Hlt _].
    apply Qlt_shift_div_l; [reflexivity |]. rewrite Qmult_0_l.
    change 0 with (inject_Z 0). rewrite <- Zlt_Qlt. lia. }
  specialize (Hinv sent [] ltac:(constructor)).
  destruct (fold_left step sent []) as [|x l] eqn:El; [exact I |].
  cbv zeta.
  destruct (latency_sum_bounds (x :: l) 0 Hinv ltac:(discriminate)) as [H1 H2].
  set (n := inject_Z (Z.of_nat (length (x :: l)))) in *.
  assert (Hn : 0 < n).
  { unfold n. change 0 with (inject_Z 0). rewrite <- Zlt_Qlt. cbn [length]. lia. }
  split.
  - apply Qlt_shift_div_l; [exact Hn | lra].
  - apply Qlt_shift_div_r; [exact Hn | lra].
Qed.

End RelationshipScorerShapes.

(** ** ContentAnalyzer *)

Section ContentAnalyzerFacts.
Import RegExp ContentAnalyzer UrgencyModel.

(** One loop adds [points] per matching pattern and logs its source. *)
Lemma scan_spec (points : Z) (patterns : list RegExp) (text : string)
    (score : Z) (signals : list string) :
  scan points patterns text (score, signals)
  = (score + points * matched patterns text,
     signals ++ map source (List.filter (λ p, test p text) patterns)).
Proof.
  unfold scan, matched.
  revert score signals.
  induction patterns as [|p ps IH]; intros score signals.
  - cbn. f_equal; [lia | by rewrite app_nil_r].
  - cbn [fold_left List.filter].
    destruct (test p text).
    + rewrite IH. cbn [length map]. f_equal; [lia | by rewrite <- app_assoc].
    + apply IH.
Qed.

(** C9, as stated, fails in both directions on the capitals rule: a lone
    all-capitals word earns the +2 although the subject has no three
    capitalized words in a row, and three capitalized words in a row earn
    nothing when none of them is all capitals. *)
Lemma capitals_rule_is_all_caps_word :
  (urgency_level (detectUrgency "FYI" "") = 2
   ∧ urgency_level_as_specified "FYI" "" = 0)
  ∧ (urgency_level (detectUrgency "Please Review Budget" "") = 0
     ∧ urgency_level_as_specified "Please Review Budget" "" = 2).
Proof. vm_compute. repeat split. Qed.

(** C9, amended.  For every subject and body, the urgency level is
    5 for each CRITICAL pattern matching the text, plus 3 for each HIGH
    pattern, plus 1 for each MEDIUM pattern (a pattern counts once, however
    many of its alternative terms occur), plus 2 when the subject contains a
    word of three or more capital letters, the sum capped at 10. *)
Theorem detectUrgency_level (subject bodyText : string) :
  let text := fullText subject bodyText in
  urgency_level (detectUrgency subject bodyText)
  = Z.min 10
      (5 * matched URGENCY_SIGNALS.CRITICAL text
       + 3 * matched URGENCY_SIGNALS.HIGH text
       + 1 * matched URGENCY_SIGNALS.MEDIUM text
       + (if test ALL_CAPS_WORD subject then 2 else 0)).
Proof.
  intros text. unfold detectUrgency. cbv zeta. fold (fullText subject bodyText). fold text.
  rewrite !scan_spec. cbn [fst snd].
  destruct (test ALL_CAPS_WORD subject); cbn [urgency_level]; f_equal; lia.
Qed.

(** Two terms of one pattern count once. *)
Example two_critical_terms_one_pattern :
  urgency_level (detectUrgency "urgent asap" "") = 5.
Proof. reflexivity. Qed.

End ContentAnalyzerFacts.


(** ** ContentAnalyzer: urgency and intent *)

Section ContentAnalyzerShapes.
Import RegExp ContentAnalyzer UrgencyModel ContentAnalyzerIntent.

Lemma matched_nonneg (patterns : list RegExp) (text : string) :
  0 ≤ matched patterns text.
Proof. unfold matched. lia. Qed.

Lemma matched_zero (patterns : list RegExp) (text : string) :
  matched patterns text = 0 ↔ List.filter (λ p, test p text) patterns = [].
Proof.
  unfold matched. split; intros H.
  - destruct (List.filter _ patterns); [reflexivity | discriminate].
  - rewrite H. reflexivity.
Qed.

Lemma matched_le_length (patterns : list RegExp) (text : string) :
  matched patterns text ≤ Z.of_nat (length patterns).
Proof.
  unfold matched. apply inj_le. induction patterns as [|p ps IH]; cbn; [lia |].
  destruct (test p text); cbn; lia.
Qed.

(** X15.  The urgency level lies between 0 and 10, at most 13 signals are
    reported, and the level is 0 exactly when no signal is reported. *)
Theorem detectUrgency_range (subject bodyText : string) :
  let r := detectUrgency subject bodyText in
  0 ≤ urgency_level r ≤ 10
  ∧ (length (urgency_signals r) ≤ 13)%nat
  ∧ (urgency_level r = 0 ↔ urgency_signals r = []).
Proof.
  unfold detectUrgency. cbv zeta. rewrite !scan_spec. cbn [fst snd app].
  set (text := subject +:+ LF +:+ bodyText).
  pose proof (matched_nonneg URGENCY_SIGNALS.CRITICAL text) as C0.
  pose proof (matched_nonneg URGENCY_SIGNALS.HIGH text) as H0.
  pose proof (matched_nonneg URGENCY_SIGNALS.MEDIUM text) as M0.
  pose proof (matched_le_length URGENCY_SIGNALS.CRITICAL text) as C1.
  pose proof (matched_le_length URGENCY_SIGNALS.HIGH text) as H1.
  pose proof (matched_le_length URGENCY_SIGNALS.MEDIUM text) as M1.
  pose proof (matched_zero URGENCY_SIGNALS.CRITICAL text) as Cz.
  pose proof (matched_zero URGENCY_SIGNALS.HIGH text) as Hz.
  pose proof (matched_zero URGENCY_SIGNALS.MEDIUM text) as Mz.
  unfold matched in C0, H0, M0, C1, H1, M1, Cz, Hz, Mz |- *.
  cbn [length URGENCY_SIGNALS.CRITICAL URGENCY_SIGNALS.HIGH URGENCY_SIGNALS.MEDIUM]
    in C1, H1, M1.
  set (cs := List.filter _ URGENCY_SIGNALS.CRITICAL) in *.
  set (hs := List.filter _ URGENCY_SIGNALS.HIGH) in *.
  set (ms := List.filter _ URGENCY_SIGNALS.MEDIUM) in *.
  destruct (test ALL_CAPS_WORD subject); cbn [urgency_level urgency_signals].
  - split; [lia |]. split.
    + rewrite !length_app, !length_map. cbn [length]. lia.
    + split; [lia |]. intros H. apply app_eq_nil in H as [_ H]. discriminate.
  - split; [lia |]. split.
    + rewrite !length_app, !length_map. lia.
    + split.
      * intros H.
        assert (E : cs = [] ∧ hs = [] ∧ ms = []).
        { rewrite <- Cz, <- Hz, <- Mz. lia. }
        destruct E as (-> & -> & ->). reflexivity.
      * intros H. apply app_eq_nil in H as [H Hm]. apply app_eq_nil in H as [Hc Hh].
        apply map_eq_nil in Hm, Hh, Hc. rewrite Hm, Hh, Hc. reflexivity.
Qed.

(** X16.  The intent rules in the order the method applies them: [confirm] needs
    a deadline and urgency 5 or more; [request] is any question, action item or
    high urgency that is not a [confirm]; [schedule] is a quiet deadline with
    nothing asked; [inform] is what is left. *)
Theorem classifyIntent_table
    (hasQuestion hasDeadline : bool) (urgencyLevel actionItemCount : Z) :
  let i := classifyIntent hasQuestion hasDeadline urgencyLevel actionItemCount in
  (i = confirm ↔ hasDeadline = true ∧ 5 ≤ urgencyLevel)
  ∧ (i = request ↔
     (hasQuestion = true ∨ 0 < actionItemCount ∨ 5 ≤ urgencyLevel)
     ∧ ¬ (hasDeadline = true ∧ 5 ≤ urgencyLevel))
  ∧ (i = schedule ↔
     hasDeadline = true ∧ urgencyLevel < 5 ∧ hasQuestion = false ∧ actionItemCount ≤ 0)
  ∧ (i = inform ↔
     hasDeadline = false ∧ urgencyLevel < 5 ∧ hasQuestion = false ∧ actionItemCount ≤ 0).
Proof.
  unfold classifyIntent.
  destruct hasQuestion, hasDeadline;
    destruct (Z.leb_spec 5 urgencyLevel), (Z.ltb_spec urgencyLevel 5),
      (Z.ltb_spec 0 actionItemCount);
    cbn [andb orb]; repeat split; intros; try discriminate; try lia;
    try (intuition (discriminate || lia)).
Qed.

(** X17.  A text that matches a CRITICAL pattern is never classified [inform] or
    [schedule]: it is [confirm] with a deadline and [request] without one,
    whatever the question and action-item findings are. *)
Theorem critical_text_is_confirm_or_request
    (subject bodyText : string) (hasQuestion hasDeadline : bool) (actionItemCount : Z) :
  0 < matched URGENCY_SIGNALS.CRITICAL (fullText subject bodyText) →
  classifyIntent hasQuestion hasDeadline
    (urgency_level (detectUrgency subject bodyText)) actionItemCount
  = if hasDeadline then confirm else request.
Proof.
  intros Hc.
  assert (H5 : 5 ≤ urgency_level (detectUrgency subject bodyText)).
  { unfold detectUrgency. cbv zeta. rewrite !scan_spec. cbn [fst snd].
    fold (fullText subject bodyText).
    pose proof (matched_nonneg URGENCY_SIGNALS.HIGH (fullText subject bodyText)).
    pose proof (matched_nonneg URGENCY_SIGNALS.MEDIUM (fullText subject bodyText)).
    destruct (test ALL_CAPS_WORD subject); cbn [urgency_level]; lia. }
  unfold classifyIntent. apply Z.leb_le in H5. rewrite H5.
  destruct hasDeadline; [reflexivity |]. cbn [andb]. rewrite orb_true_r. reflexivity.
Qed.

Lemma critical_text_is_confirm_or_request_witness :
  0 < matched URGENCY_SIGNALS.CRITICAL (fullText "Server down" "Please act ASAP.")
  ∧ classifyIntent false true
      (urgency_level (detectUrgency "Server down" "Please act ASAP.")) 0
    = confirm.
Proof.
  split; [reflexivity |].
  apply (critical_text_is_confirm_or_request "Server down" "Please act ASAP." false true 0).
  reflexivity.
Defined.

(** *** Case *)

Ltac each_ascii c :=
  destruct c as [[] [] [] [] [] [] [] []]; vm_compute; reflexivity.

Lemma canonicalize_idem (c : ascii) : canonicalize (canonicalize c) = canonicalize c.
Proof. each_ascii c. Qed.

Lemma is_word_canonicalize (c : ascii) : is_word (canonicalize c) = is_word c.
Proof. each_ascii c. Qed.

Lemma is_word_at_canonicalize (p : option ascii) :
  is_word_at (canonicalize <$> p) = is_word_at p.
Proof. destruct p; [apply is_word_canonicalize | reflexivity]. Qed.

Lemma same_char_canonicalize (x c : ascii) :
  same_char true x (canonicalize c) = same_char true x c.
Proof. unfold same_char. rewrite canonicalize_idem. reflexivity. Qed.

Lemma atom_match_canonicalize (a : atom) (c : ascii) :
  atom_match true a (canonicalize c) = atom_match true a c.
Proof.
  destruct a as [x|cs|lo hi]; cbn [atom_match].
  - apply same_char_canonicalize.
  - induction cs as [|x cs IH]; cbn [existsb]; [reflexivity |].
    rewrite same_char_canonicalize, IH. reflexivity.
  - rewrite canonicalize_idem. reflexivity.
Qed.

Lemma lit_match_canonicalize (l : list ascii) prev s k k' :
  case_blind k k' →
  lit_match true l (canonicalize <$> prev) (map canonicalize s) k'
  = lit_match true l prev s k.
Proof.
  intros Hk. revert prev s. induction l as [|x l IH]; intros prev s; cbn [lit_match].
  - apply Hk.
  - destruct s as [|c s]; cbn [map]; [reflexivity |].
    rewrite same_char_canonicalize. f_equal. apply (IH (Some c)).
Qed.

Lemma rep_match_canonicalize (a : atom) (n : nat) prev s k k' :
  case_blind k k' →
  rep_match true a n (canonicalize <$> prev) (map canonicalize s) k'
  = rep_match true a n prev s k.
Proof.
  intros Hk. revert n prev. induction s as [|c s IH]; intros n prev; cbn [rep_match map].
  - f_equal. apply (Hk prev []).
  - rewrite atom_match_canonicalize. f_equal.
    + f_equal. apply (IH (pred n) (Some c)).
    + f_equal. apply (Hk prev (c :: s)).
Qed.

Lemma matches_canonicalize (r : regex) prev s k k' :
  case_blind k k' →
  matches true r (canonicalize <$> prev) (map canonicalize s) k'
  = matches true r prev s k.
Proof.
  revert prev s k k'. induction r as [a|l|r1 IH1 r2 IH2|r1 IH1 r2 IH2|r1 IH1|n a|];
    intros prev s k k' Hk; cbn [matches].
  - destruct s as [|c s]; cbn [map]; [reflexivity |].
    rewrite atom_match_canonicalize. f_equal. apply (Hk (Some c) s).
  - by apply lit_match_canonicalize.
  - apply IH1. intros p t. by apply IH2.
  - f_equal; [by apply IH1 | by apply IH2].
  - f_equal; [by apply IH1 | apply Hk].
  - by apply rep_match_canonicalize.
  - rewrite is_word_at_canonicalize.
    assert (E : head (map canonicalize s) = canonicalize <$> head s) by (by destruct s).
    rewrite E, is_word_at_canonicalize. f_equal. apply Hk.
Qed.

Lemma search_canonicalize (r : regex) prev s :
  search true r (canonicalize <$> prev) (map canonicalize s) = search true r prev s.
Proof.
  revert prev. induction s as [|c s IH]; intros prev; cbn [search map].
  - f_equal. by apply (matches_canonicalize r prev [] (λ _ _, true) (λ _ _, true)).
  - f_equal; [| apply (IH (Some c))].
    by apply (matches_canonicalize r prev (c :: s) (λ _ _, true) (λ _ _, true)).
Qed.




(** *** A keyword in running text *)

Lemma search_unfold (i : bool) (r : regex) prev s :
  search i r prev s
  = matches i r prev s (λ _ _, true)
    || match s with
       | c :: s' => search i r (Some c) s'
       | [] => false
       end.
Proof. destruct s; reflexivity. Qed.

(** A match that starts after [pre] is found by the search. *)
Lemma search_skip (i : bool) (r : regex) prev pre s :
  matches i r (from_option Some prev (last pre)) s (λ _ _, true) = true →
  search i r prev (pre ++ s) = true.
Proof.
  revert prev. induction pre as [|c pre IH]; intros prev H.
  - cbn in H. cbn [app]. rewrite search_unfold, H. reflexivity.
  - cbn [app]. rewrite search_unfold. apply orb_true_iff. right.
    apply IH. destruct pre as [|c' pre']; [exact H |].
    change (last (c :: c' :: pre')) with (last (c' :: pre')) in H.
    destruct (last (c' :: pre')) eqn:E; [exact H |].
    apply last_None in E. discriminate.
Qed.

Lemma last_map_canonicalize (l : list ascii) :
  last (map canonicalize l) = canonicalize <$> last l.
Proof.
  induction l as [|c l IH]; [reflexivity |].
  destruct l as [|c' l']; [reflexivity |].
  change (last (map canonicalize (c :: c' :: l')))
    with (last (map canonicalize (c' :: l'))).
  rewrite IH. reflexivity.
Qed.

(** X19.  The word "urgent", in any mix of upper and lower case and delimited by
    non-word characters (or by the ends of the text), anywhere in the subject or
    the body, is reported as a CRITICAL signal and puts the urgency level at 5
    or more. *)
Theorem urgent_word_is_detected
    (subject bodyText : string) (pre w post : list ascii) :
  list_ascii_of_string (fullText subject bodyText) = pre ++ w ++ post →
  map canonicalize w = list_ascii_of_string "URGENT" →
  is_word_at (last pre) = false →
  is_word_at (head post) = false →
  let r := detectUrgency subject bodyText in
  5 ≤ urgency_level r
  ∧ "\b(urgent|emergency|critical|immediate(?:ly)?|asap|right away)\b"
      ∈ urgency_signals r.
Proof.
  intros Hsplit Hw Hpre Hpost.
  set (p0 := {| source := "\b(urgent|emergency|critical|immediate(?:ly)?|asap|right away)\b";
                ignoreCase := true;
                body := word (Lit "urgent" ∥ Lit "emergency" ∥ Lit "critical"
                              ∥ Lit "immediate" ⋅ Opt (Lit "ly") ∥ Lit "asap"
                              ∥ Lit "right away")%re |}).
  assert (Ht : test p0 (fullText subject bodyText) = true).
  { unfold test. rewrite Hsplit. cbn [ignoreCase body p0].
    rewrite <- (search_canonicalize _ None). cbn [fmap option_fmap option_map].
    rewrite !map_app, Hw. apply search_skip.
    rewrite last_map_canonicalize.
    assert (Hp : is_word_at (from_option Some None (canonicalize <$> last pre)) = false).
    { destruct (last pre) as [c|]; [| reflexivity].
      cbn. rewrite is_word_canonicalize. exact Hpre. }
    assert (Hq : is_word_at (head (map canonicalize post)) = false).
    { destruct post as [|c post']; [reflexivity |].
      cbn. rewrite is_word_canonicalize. exact Hpost. }
    set (prev := from_option Some None (canonicalize <$> last pre)) in *.
    set (rest := map canonicalize post) in *.
    unfold word. cbn [matches lit_match list_ascii_of_string app head].
    rewrite Hp. cbn [is_word_at]. 
    change (is_word "U") with true. cbn [xorb andb].
    change (same_char true "u" "U") with true.
    change (same_char true "r" "R") with true.
    change (same_char true "g" "G") with true.
    change (same_char true "e" "E") with true.
    change (same_char true "n" "N") with true.
    change (same_char true "t" "T") with true.
    cbn [andb]. rewrite Hq. reflexivity. }
  assert (Hf : List.filter (λ p, test p (fullText subject bodyText))
                 URGENCY_SIGNALS.CRITICAL
               = p0 :: List.filter (λ p, test p (fullText subject bodyText))
                         (tl URGENCY_SIGNALS.CRITICAL)).
  { change URGENCY_SIGNALS.CRITICAL with (p0 :: tl URGENCY_SIGNALS.CRITICAL) at 1.
    cbn [List.filter]. rewrite Ht. reflexivity. }
  unfold detectUrgency. cbv zeta. fold (fullText subject bodyText).
  rewrite !scan_spec. cbn [fst snd]. unfold matched. rewrite !Hf.
  cbn [length map app].
  destruct (test ALL_CAPS_WORD subject); cbn [urgency_level urgency_signals];
    (split; [lia |]); apply elem_of_cons; left; reflexivity.
Qed.

Lemma urgent_word_is_detected_witness :
  let r := detectUrgency "Re: budget" "This is Urgent, please read." in
  5 ≤ urgency_level r.
Proof.
  intros r.
  apply (urgent_word_is_detected "Re: budget" "This is Urgent, please read."
           (list_ascii_of_string "Re: budget" ++ "010"%char
            :: list_ascii_of_string "This is ")
           (list_ascii_of_string "Urgent")
           (list_ascii_of_string ", please read."));
    reflexivity.
Defined.

(** *** The two keyword helpers *)






End ContentAnalyzerShapes.

(** ** CalendarGate *)

Section CalendarGateFacts.
Import CalendarGate CalendarGateInv.
Local Open Scope Q_scope.

Variable RegExp_test : Pattern → string → bool.
Variable parseVCalendar : string → CalendarEventInfo.
Variable extractEventInfoFromText : string → option CalendarEventInfo.

Lemma keeps_refl st : keeps st st.
Proof.
  split; [apply Qle_refl | split; [apply Q.le_max_l | exists []; by rewrite app_nil_r]].
Qed.

Lemma keeps_trans st1 st2 st3 : keeps st1 st2 → keeps st2 st3 → keeps st1 st3.
Proof.
  intros (H1 & H1' & m1 & E1) (H2 & H2' & m2 & E2). split; [| split].
  - by apply Qle_trans with (confidence st2).
  - apply Qle_trans with (Qmax (confidence st2) 1); [exact H2' |].
    apply Q.max_lub; [exact H1' | apply Q.le_max_r].
  - exists (m1 ++ m2). rewrite E2, E1, app_assoc. reflexivity.
Qed.

Lemma raise_spec (c : Q) (r : string) (st : Locals) :
  0.75 <= c <= 1 → ok st → ok (raise c r st) ∧ keeps st (raise c r st)
                           ∧ c <= confidence (raise c r st).
Proof.
  intros [Hc1 Hc2] Hok. unfold raise, ok, keeps. cbn [reasons confidence].
  split; [| split].
  - right. split; [intros H; by apply app_eq_nil in H as [_ H] |].
    split.
    + apply Qle_trans with c; [exact Hc1 | apply Q.le_max_r].
    + apply Q.max_lub; [| exact Hc2].
      destruct Hok as [[_ H] | [_ [_ H]]]; [rewrite H; discriminate | exact H].
  - split; [apply Q.le_max_l | split; [| by eexists]].
    apply Q.max_le_compat_l. exact Hc2.
  - apply Q.le_max_r.
Qed.

Lemma set_eventInfo_spec e st :
  (ok st → ok (set_eventInfo e st)) ∧ keeps st (set_eventInfo e st).
Proof. split; [auto | exact (keeps_refl st)]. Qed.

Ltac raise_step :=
  match goal with
  | Hok : ok ?st |- context [raise ?c ?r ?st] =>
      let H1 := fresh "Hok" in
      let H2 := fresh "Hk" in
      let H3 := fresh "Hc" in
      destruct (raise_spec c r st) as (H1 & H2 & H3);
      [split; discriminate | exact Hok |]
  end.

Lemma check_attachments_spec attachments st :
  ok st → ok (check_attachments attachments st)
          ∧ keeps st (check_attachments attachments st).
Proof.
  intros Hok. unfold check_attachments.
  destruct attachments as [atts|]; [| split; [exact Hok | apply keeps_refl]].
  destruct (List.find _ atts); [| split; [exact Hok | apply keeps_refl]].
  raise_step. auto.
Qed.

Lemma check_service_spec senderEmail st :
  ok st → ok (check_service senderEmail st) ∧ keeps st (check_service senderEmail st).
Proof.
  intros Hok. unfold check_service.
  destruct (checkCalendarService senderEmail); [| split; [exact Hok | apply keeps_refl]].
  raise_step. auto.
Qed.

Lemma check_subject_spec subject st :
  ok st → ok (check_subject RegExp_test subject st)
          ∧ keeps st (check_subject RegExp_test subject st).
Proof.
  intros Hok. unfold check_subject.
  destruct subject as [subj|]; [| split; [exact Hok | apply keeps_refl]].
  destruct (JSString.truthy subj); [| split; [exact Hok | apply keeps_refl]].
  cbv zeta.
  set (st1 := match List.find _ CALENDAR_SUBJECT_PATTERNS with
              | Some _ => _ | None => st end).
  assert (H1 : ok st1 ∧ keeps st st1).
  { unfold st1. destruct (List.find _ CALENDAR_SUBJECT_PATTERNS) as [pattern|];
      [| split; [exact Hok | apply keeps_refl]].
    raise_step.
    destruct (l_eventInfo (raise _ _ st)); [auto |].
    destruct (RegExp_test _ subj); auto. }
  destruct H1 as [Hok1 Hk1]. clearbody st1.
  destruct (RegExp_test (re_i "accepted:|declined:|tentative:") subj); [| auto].
  raise_step. split; [assumption | by eapply keeps_trans].
Qed.

Lemma body_confidence_range (n : nat) :
  (0 < n)%nat → 0.75 <= Qmin (0.70 + inject_Z (Z.of_nat n) * 0.05) 0.85 <= 1.
Proof.
  intros Hn. split.
  - apply Q.min_glb; [| discriminate].
    assert (1 <= inject_Z (Z.of_nat n)).
    { change 1 with (inject_Z 1). rewrite <- Zle_Qle. lia. }
    lra.
  - apply Qle_trans with 0.85; [apply Q.le_min_r | discriminate].
Qed.

Lemma check_body_spec bodyText st :
  ok st → ok (check_body RegExp_test extractEventInfoFromText bodyText st)
          ∧ keeps st (check_body RegExp_test extractEventInfoFromText bodyText st).
Proof.
  intros Hok. unfold check_body.
  destruct bodyText as [b|]; [| split; [exact Hok | apply keeps_refl]].
  destruct (JSString.truthy b); [| split; [exact Hok | apply keeps_refl]].
  cbv zeta. set (n := length _).
  destruct (0 <? n)%nat eqn:En; [| split; [exact Hok | apply keeps_refl]].
  apply Nat.ltb_lt in En.
  destruct (raise_spec (Qmin (0.70 + inject_Z (Z.of_nat n) * 0.05) 0.85)
              ("Body contains " +:+ pretty n +:+ " calendar pattern(s)") st
              (body_confidence_range n En) Hok) as (H1 & H2 & _).
  destruct (l_eventInfo _); auto.
Qed.

Lemma check_headers_spec headers st :
  ok st → ok (check_headers headers st) ∧ keeps st (check_headers headers st).
Proof.
  intros Hok. unfold check_headers.
  destruct headers as [h|]; [| split; [exact Hok | apply keeps_refl]].
  cbv zeta.
  set (st1 := if (_ || _)%bool then raise 0.90 _ st else st).
  assert (H1 : ok st1 ∧ keeps st st1).
  { unfold st1. destruct (_ || _)%bool; [| split; [exact Hok | apply keeps_refl]].
    raise_step. auto. }
  destruct H1 as [Hok1 Hk1]. clearbody st1.
  destruct (_ || _)%bool; [| auto].
  raise_step. split; [assumption | by eapply keeps_trans].
Qed.

Lemma check_content_type_ok contentType bodyText st :
  ok st → ok (check_content_type parseVCalendar contentType bodyText st).
Proof.
  intros Hok. unfold check_content_type.
  destruct contentType as [ct|]; [| exact Hok].
  destruct (_ && _)%bool; [| exact Hok].
  cbv zeta.
  assert (H : ok {| reasons := reasons st ++ ["Content-Type is " +:+ ct +:+ " (RFC 5545)"];
                    confidence := 1; l_eventInfo := l_eventInfo st |}).
  { right. cbn [reasons confidence]. split; [| split; discriminate].
    intros H. by apply app_eq_nil in H as [_ H]. }
  destruct bodyText as [b|]; [| exact H].
  destruct (JSString.includes _ b); exact H.
Qed.

(** After the content-type step, steps 2 to 6 in one go. *)
Lemma later_steps_spec senderEmail headers subject bodyText attachments st :
  ok st →
  let st' :=
    check_headers headers
      (check_body RegExp_test extractEventInfoFromText bodyText
         (check_subject RegExp_test subject
            (check_service senderEmail (check_attachments attachments st)))) in
  ok st' ∧ keeps st st'.
Proof.
  intros Hok. cbv zeta.
  destruct (check_attachments_spec attachments st Hok) as [O2 K2].
  destruct (check_service_spec senderEmail _ O2) as [O3 K3].
  destruct (check_subject_spec subject _ O3) as [O4 K4].
  destruct (check_body_spec bodyText _ O4) as [O5 K5].
  destruct (check_headers_spec headers _ O5) as [O6 K6].
  split; [exact O6 |].
  eapply keeps_trans; [exact K2 |]. eapply keeps_trans; [exact K3 |].
  eapply keeps_trans; [exact K4 |]. eapply keeps_trans; [exact K5 | exact K6].
Qed.

(** X21.  The 0.70 threshold never decides anything: a message is reported as a
    calendar message exactly when some signal was recorded, and then the
    confidence is between 0.75 and 1; with no signal the confidence is 0 and no
    event information is returned. *)
Theorem detect_threshold
    (senderEmail : string) (headers : option (gmap string string))
    (subject bodyText : option string) (attachments : option (list Attachment))
    (contentType : option string) :
  let r := detect RegExp_test parseVCalendar extractEventInfoFromText
             senderEmail headers subject bodyText attachments contentType in
  (cd_reasons r = [] ∧ cd_confidence r == 0 ∧ hasCalendar r = false
   ∧ eventInfo r = None)
  ∨ (cd_reasons r ≠ [] ∧ 0.75 <= cd_confidence r <= 1 ∧ hasCalendar r = true).
Proof.
  unfold detect. cbv zeta. cbn [cd_reasons cd_confidence hasCalendar eventInfo].
  set (st0 := {| reasons := []; confidence := 0; l_eventInfo := None |}).
  assert (O0 : ok st0) by (left; split; reflexivity).
  pose proof (check_content_type_ok contentType bodyText st0 O0) as O1.
  destruct (later_steps_spec senderEmail headers subject bodyText attachments _ O1)
    as [O6 _].
  cbv zeta in O6. set (st6 := check_headers _ _) in *.
  destruct O6 as [[Hr Hc] | [Hr [Hc1 Hc2]]].
  - left. split; [exact Hr | split; [exact Hc |]].
    assert (E : Qle_bool 0.70 (confidence st6) = false).
    { apply not_true_iff_false. rewrite Qle_bool_iff. intros H. lra. }
    rewrite E. split; reflexivity.
  - right. split; [exact Hr | split; [split; assumption |]].
    apply Qle_bool_iff. lra.
Qed.

(** X22.  A calendar MIME type in the Content-Type settles the matter:
    confidence exactly 1, reported as a calendar message, and the Content-Type
    reason comes first. *)
Theorem calendar_content_type_is_certain
    (senderEmail : string) (headers : option (gmap string string))
    (subject bodyText : option string) (attachments : option (list Attachment))
    (ct : string) :
  is_calendar_mime ct = true →
  let r := detect RegExp_test parseVCalendar extractEventInfoFromText
             senderEmail headers subject bodyText attachments (Some ct) in
  cd_confidence r == 1 ∧ hasCalendar r = true
  ∧ head (cd_reasons r) = Some ("Content-Type is " +:+ ct +:+ " (RFC 5545)").
Proof.
  intros Hmime.
  assert (Htruthy : JSString.truthy ct = true).
  { destruct ct; [discriminate Hmime | reflexivity]. }
  unfold detect. cbv zeta. cbn [cd_reasons cd_confidence hasCalendar].
  set (st0 := {| reasons := []; confidence := 0; l_eventInfo := None |}).
  assert (O0 : ok st0) by (left; split; reflexivity).
  pose proof (check_content_type_ok (Some ct) bodyText st0 O0) as O1.
  set (st1 := check_content_type parseVCalendar (Some ct) bodyText st0) in *.
  assert (H1 : confidence st1 = 1
               ∧ reasons st1 = ["Content-Type is " +:+ ct +:+ " (RFC 5545)"]).
  { unfold st1, check_content_type. rewrite Htruthy, Hmime. cbn [andb]. cbv zeta.
    destruct bodyText as [b|]; [destruct (JSString.includes _ b) |]; split; reflexivity. }
  destruct H1 as [Hc1 Hr1].
  destruct (later_steps_spec senderEmail headers subject bodyText attachments st1 O1)
    as [_ (K1 & K2 & more & K3)].
  cbv zeta in K1, K2, K3. set (st6 := check_headers _ _) in *.
  rewrite Hc1 in K1, K2. rewrite Hr1 in K3.
  assert (E : confidence st6 == 1).
  { apply Qle_antisym; [| exact K1].
    apply Qle_trans with (Qmax 1 1); [exact K2 | apply Q.max_lub; apply Qle_refl]. }
  split; [exact E | split].
  - apply Qle_bool_iff. rewrite E. discriminate.
  - rewrite K3. reflexivity.
Qed.

End CalendarGateFacts.

Section CheckCalendarServiceFacts.
Import JSString CalendarGate.

Ltac all_ascii c :=
  destruct c as [[] [] [] [] [] [] [] []]; vm_compute; reflexivity.

Lemma lower_char_idem (c : ascii) : lower_char (lower_char c) = lower_char c.
Proof. all_ascii c. Qed.

Lemma lower_char_at (c : ascii) : Ascii.eqb (lower_char c) "@" = Ascii.eqb c "@".
Proof. all_ascii c. Qed.

Lemma toLowerCase_idem (s : string) : toLowerCase (toLowerCase s) = toLowerCase s.
Proof.
  induction s as [|c s IH]; cbn [toLowerCase]; [reflexivity |].
  rewrite lower_char_idem, IH. reflexivity.
Qed.

Lemma toLowerCase_app (a b : string) :
  toLowerCase (a +:+ b) = toLowerCase a +:+ toLowerCase b.
Proof.
  induction a as [|c a IH]; [reflexivity |].
  change (String (lower_char c) (toLowerCase (a +:+ b))
          = String (lower_char c) (toLowerCase a +:+ toLowerCase b)).
  rewrite IH. reflexivity.
Qed.

Lemma append_snoc (a : string) (c : ascii) (b : string) :
  (a +:+ String c EmptyString) +:+ b = a +:+ String c b.
Proof.
  induction a as [|x a IH]; [reflexivity |].
  change (String x ((a +:+ String c EmptyString) +:+ b)
          = String x (a +:+ String c b)).
  rewrite IH. reflexivity.
Qed.

Lemma append_empty (a : string) : a +:+ EmptyString = a.
Proof.
  induction a as [|x a IH]; [reflexivity |].
  change (String x (a +:+ EmptyString) = String x a). rewrite IH. reflexivity.
Qed.

Lemma split_from_toLowerCase (cur s : string) :
  split_from "@" (toLowerCase cur) (toLowerCase s)
  = map toLowerCase (split_from "@" cur s).
Proof.
  revert cur. induction s as [|c s IH]; intros cur; cbn [split_from toLowerCase map].
  - reflexivity.
  - rewrite lower_char_at. destruct (Ascii.eqb c "@").
    + cbn [map]. f_equal. apply (IH EmptyString).
    + rewrite <- IH, toLowerCase_app. reflexivity.
Qed.

Lemma split_from_no_separator (cur s : string) :
  (∀ c, c ∈ list_ascii_of_string s → c ≠ "@"%char) →
  split_from "@" cur s = [cur +:+ s].
Proof.
  revert cur. induction s as [|c s IH]; intros cur H; cbn [split_from].
  - rewrite append_empty. reflexivity.
  - assert (Hc : Ascii.eqb c "@" = false).
    { apply Ascii.eqb_neq. apply H. cbn. left. }
    rewrite Hc, IH.
    + rewrite append_snoc. reflexivity.
    + intros x Hx. apply H. cbn. by right.
Qed.

(** X23.  The service lookup reads only the part of the address between the
    first and the second "@", in lower case: the case of the address does not
    matter, and an address without "@" is never a calendar service. *)
Theorem checkCalendarService_domain (email : string) :
  checkCalendarService (toLowerCase email) = checkCalendarService email
  ∧ ((∀ c, c ∈ list_ascii_of_string email → c ≠ "@"%char) →
     checkCalendarService email = None).
Proof.
  split.
  - unfold checkCalendarService, split.
    change EmptyString with (toLowerCase EmptyString) at 1.
    rewrite split_from_toLowerCase.
    destruct (split_from "@" EmptyString email) as [|p0 [|part rest]];
      cbn [map lookup list_lookup]; try reflexivity.
    rewrite toLowerCase_idem. reflexivity.
  - intros H. unfold checkCalendarService, split.
    rewrite split_from_no_separator by exact H. reflexivity.
Qed.

End CheckCalendarServiceFacts.

Lemma calendar_content_type_is_certain_witness :
  let r := CalendarGate.detect (λ _ _, false)
             (λ _, {| startTime := None; endTime := None; title := None;
                      location := None; organizer := None; isRecurring := None;
                      method := None |})
             (λ _, None)
             "alice@example.com" None (Some "Lunch") (Some "See you at noon.") None
             (Some "text/calendar; charset=utf-8") in
  CalendarGate.is_calendar_mime "text/calendar; charset=utf-8" = true
  ∧ (cd_confidence r == 1)%Q ∧ hasCalendar r = true.
Proof.
  intros r. split; [reflexivity |].
  destruct (calendar_content_type_is_certain (λ _ _, false)
              (λ _, {| startTime := None; endTime := None; title := None;
                       location := None; organizer := None; isRecurring := None;
                       method := None |})
              (λ _, None)
              "alice@example.com" None (Some "Lunch") (Some "See you at noon.") None
              "text/calendar; charset=utf-8" eq_refl) as (H1 & H2 & _).
  split; [exact H1 | exact H2].
Defined.


(** ** NewsletterGate *)

Section NewsletterGateFacts.
Import JSString NewsletterGate NewsletterGateInv.
Local Open Scope Q_scope.

Variable RegExp_test : Pattern → string → bool.

Lemma not_found_sound : sound not_found.
Proof. right. split; reflexivity. Qed.

Lemma found_sound (r : string) : sound {| found := true; check_reasons := [r] |}.
Proof. left. split; [reflexivity | discriminate]. Qed.

Lemma snoc_not_nil {A} (l : list A) (x : A) : l ++ [x] ≠ [].
Proof. destruct l; discriminate. Qed.

Lemma header_loop_spec (step : Check → string → Check) (set : string → bool) :
  (∀ acc header, set header = false → step acc header = acc) →
  (∀ acc header, set header = true →
     found (step acc header) = true ∧ check_reasons (step acc header) ≠ []) →
  ∀ names acc, sound acc →
    sound (fold_left step names acc)
    ∧ found (fold_left step names acc) = found acc || existsb set names.
Proof.
  intros Hskip Hhit names.
  induction names as [|header names IH]; intros acc Hacc; cbn [fold_left existsb].
  - split; [exact Hacc | by rewrite orb_false_r].
  - destruct (set header) eqn:E.
    + destruct (Hhit acc header E) as [Hf Hr].
      destruct (IH (step acc header)) as [IH1 IH2]; [left; by split |].
      split; [exact IH1 |]. rewrite IH2, Hf. cbn. by rewrite orb_true_r.
    + rewrite (Hskip acc header E). cbn [orb]. apply IH, Hacc.
Qed.

Lemma checkListHeaders_spec (h : gmap string string) :
  sound (checkListHeaders h)
  ∧ found (checkListHeaders h) = existsb (header_set h) LIST_HEADERS.
Proof.
  apply (header_loop_spec (list_header_step h) (header_set h)).
  - intros acc header E. unfold list_header_step. by rewrite E.
  - intros acc header E. unfold list_header_step. rewrite E.
    split; [reflexivity | apply snoc_not_nil].
  - apply not_found_sound.
Qed.

Lemma checkCampaignHeaders_spec (h : gmap string string) :
  sound (checkCampaignHeaders h)
  ∧ found (checkCampaignHeaders h) = existsb (header_set h) CAMPAIGN_HEADERS.
Proof.
  apply (header_loop_spec (campaign_header_step h) (header_set h)).
  - intros acc header E. unfold campaign_header_step. by rewrite E.
  - intros acc header E. unfold campaign_header_step. rewrite E.
    split; [reflexivity | apply snoc_not_nil].
  - apply not_found_sound.
Qed.

Lemma checkSenderPatterns_sound email : sound (checkSenderPatterns RegExp_test email).
Proof.
  unfold checkSenderPatterns. cbv zeta.
  destruct (List.find _ _); [apply found_sound | apply not_found_sound].
Qed.

Lemma checkSubjectPatterns_sound subj : sound (checkSubjectPatterns RegExp_test subj).
Proof.
  unfold checkSubjectPatterns.
  destruct (List.find _ _); [apply found_sound | apply not_found_sound].
Qed.

Lemma checkNewsletterDomain_sound email : sound (checkNewsletterDomain email).
Proof.
  unfold checkNewsletterDomain.
  destruct (split "@" email !! 1%nat) as [part|]; [| apply not_found_sound].
  cbv zeta. destruct (negb _); [apply not_found_sound |].
  destruct (List.find _ _); [apply found_sound | apply not_found_sound].
Qed.

Lemma max_level (c l : Q) : (c == 0 ∨ level c) → level l → level (Qmax c l).
Proof.
  unfold level. intros Hc Hl.
  destruct (Q.max_spec c l) as [[_ E]|[H E]]; rewrite E; [exact Hl |].
  destruct Hc as [Hc|Hc]; [| exact Hc].
  exfalso. destruct Hl as [Hl|[Hl|[Hl|[Hl|Hl]]]]; lra.
Qed.

Lemma graded_bump (r : list string) (l : Q) (st : Locals) :
  r ≠ [] → level l → graded st →
  graded {| nl_reasons := nl_reasons st ++ r;
            nl_confidence := Qmax (nl_confidence st) l |}.
Proof.
  intros Hr Hl Hst. right. cbn [nl_reasons nl_confidence]. split.
  - intros E. apply app_eq_nil in E. tauto.
  - apply max_level; [| exact Hl].
    destruct Hst as [[_ H]|[_ H]]; [left | right]; exact H.
Qed.

Lemma take_check_graded (c : Check) (l : Q) (st : Locals) :
  sound c → level l → graded st → graded (take_check c l st).
Proof.
  intros Hc Hl Hst. unfold take_check.
  destruct Hc as [[Hf Hr]|[Hf _]]; rewrite Hf; [| exact Hst].
  apply graded_bump; assumption.
Qed.

Ltac a_level := unfold level; lra.

Lemma check_headers_graded headers st :
  graded st → graded (check_headers headers st).
Proof.
  intros Hst. unfold check_headers. destruct headers as [h|]; [| exact Hst].
  cbv zeta.
  assert (H2 : graded (take_check (checkCampaignHeaders h) 0.90
                         (take_check (checkListHeaders h) 0.95 st))).
  { apply take_check_graded; [apply checkCampaignHeaders_spec | a_level |].
    apply take_check_graded; [apply checkListHeaders_spec | a_level | exact Hst]. }
  destruct (precedence_bulk h); [| exact H2].
  apply graded_bump; [discriminate | a_level | exact H2].
Qed.

Lemma check_subject_graded subject st :
  graded st → graded (check_subject RegExp_test subject st).
Proof.
  intros Hst. unfold check_subject. destruct subject as [subj|]; [| exact Hst].
  destruct (truthy subj); [| exact Hst].
  apply take_check_graded; [apply checkSubjectPatterns_sound | a_level | exact Hst].
Qed.

Lemma detect_graded senderEmail headers subject :
  graded
    (check_subject RegExp_test subject
       (take_check (checkNewsletterDomain senderEmail) 0.85
          (take_check (checkSenderPatterns RegExp_test senderEmail) 0.75
             (check_headers headers {| nl_reasons := []; nl_confidence := 0 |})))).
Proof.
  apply check_subject_graded.
  apply take_check_graded; [apply checkNewsletterDomain_sound | a_level |].
  apply take_check_graded; [apply checkSenderPatterns_sound | a_level |].
  apply check_headers_graded. left. split; reflexivity.
Qed.

(** X24.  The 0.60 threshold never decides anything: every rule that fires
    records a reason and lifts the confidence to one of 0.60, 0.75, 0.85, 0.90,
    0.95, so a message is reported as a newsletter exactly when some rule fired,
    and the confidence is 0 otherwise. *)
Theorem newsletter_threshold
    (senderEmail : string) (headers : option (gmap string string))
    (subject : option string) :
  let r := detect RegExp_test senderEmail headers subject in
  (isNewsletter r = true ↔ nd_reasons r ≠ [])
  ∧ (isNewsletter r = false ↔ nd_confidence r == 0)
  ∧ (nd_confidence r == 0 ∨ level (nd_confidence r)).
Proof.
  intros r. subst r. unfold detect. cbv zeta.
  cbn [isNewsletter nd_confidence nd_reasons].
  pose proof (detect_graded senderEmail headers subject) as H.
  set (st := check_subject _ _ _) in *. clearbody st.
  destruct H as [[Hr Hc]|[Hr Hc]].
  - assert (E : Qle_bool 0.60 (nl_confidence st) = false).
    { apply not_true_iff_false. rewrite Qle_bool_iff. intros H. lra. }
    rewrite E. split; [| split].
    + split; [discriminate | intros H; contradiction].
    + split; [intros _; exact Hc | reflexivity].
    + left. exact Hc.
  - assert (E : Qle_bool 0.60 (nl_confidence st) = true).
    { apply Qle_bool_iff. unfold level in Hc. lra. }
    rewrite E. split; [| split].
    + split; [intros _; exact Hr | reflexivity].
    + split; [discriminate | intros H0; exfalso; unfold level in Hc; lra].
    + right. exact Hc.
Qed.

Lemma take_check_confidence (c : Check) (l : Q) (st : Locals) :
  nl_confidence (take_check c l st)
  = if found c then Qmax (nl_confidence st) l else nl_confidence st.
Proof. unfold take_check. destruct (found c); reflexivity. Qed.

Lemma take_check_keeps_top (c : Check) (l : Q) (st : Locals) :
  l <= 0.95 → nl_confidence st == 0.95 → nl_confidence (take_check c l st) == 0.95.
Proof.
  intros Hl Hst. rewrite take_check_confidence.
  destruct (found c); [| exact Hst].
  destruct (Q.max_spec (nl_confidence st) l) as [[H E]|[H E]]; rewrite E; lra.
Qed.

(** X25.  A List-* header of RFC 2369 or RFC 2919 with a non-empty value settles
    the matter: whatever the sender and the subject are, the confidence is 0.95
    and the message is reported as a newsletter. *)
Theorem list_header_is_near_certain
    (senderEmail : string) (h : gmap string string) (subject : option string)
    (header : string) :
  header ∈ LIST_HEADERS →
  header_set h header = true →
  let r := detect RegExp_test senderEmail (Some h) subject in
  nd_confidence r == 0.95 ∧ isNewsletter r = true.
Proof.
  intros Hin Hset r. subst r. unfold detect. cbv zeta.
  cbn [isNewsletter nd_confidence].
  assert (Hf : found (checkListHeaders h) = true).
  { destruct (checkListHeaders_spec h) as [_ ->].
    apply existsb_exists. exists header. split; [| exact Hset].
    apply list_elem_of_In, Hin. }
  assert (H1 : nl_confidence
                 (check_headers (Some h) {| nl_reasons := []; nl_confidence := 0 |})
               == 0.95).
  { unfold check_headers. cbv zeta.
    set (st1 := take_check (checkListHeaders h) _ _).
    assert (E1 : nl_confidence st1 == 0.95).
    { subst st1. rewrite take_check_confidence, Hf. cbn [nl_confidence].
      reflexivity. }
    clearbody st1.
    pose proof (take_check_keeps_top (checkCampaignHeaders h) 0.90 st1) as E2.
    set (st2 := take_check (checkCampaignHeaders h) _ _) in *. clearbody st2.
    assert (E2' : nl_confidence st2 == 0.95) by (apply E2; [lra | exact E1]).
    destruct (precedence_bulk h); [| exact E2'].
    cbn [nl_confidence].
    destruct (Q.max_spec (nl_confidence st2) 0.85) as [[H E]|[H E]]; rewrite E; lra. }
  set (st := check_headers _ _) in *. clearbody st.
  assert (H2 : nl_confidence
                 (take_check (checkNewsletterDomain senderEmail) 0.85
                    (take_check (checkSenderPatterns RegExp_test senderEmail) 0.75 st))
               == 0.95).
  { apply take_check_keeps_top; [lra |]. apply take_check_keeps_top; [lra | exact H1]. }
  set (st' := take_check (checkNewsletterDomain senderEmail) _ _) in *. clearbody st'.
  assert (H3 : nl_confidence (check_subject RegExp_test subject st') == 0.95).
  { unfold check_subject. destruct subject as [subj|]; [| exact H2].
    destruct (truthy subj); [| exact H2].
    apply take_check_keeps_top; [lra | exact H2]. }
  split; [exact H3 |]. apply Qle_bool_iff. lra.
Qed.

Lemma check_headers_confidence headers st :
  nl_confidence (check_headers headers st)
  = match headers with
    | Some h =>
        let c2 :=
          nl_confidence (take_check (checkCampaignHeaders h) 0.90
                           (take_check (checkListHeaders h) 0.95 st)) in
        if precedence_bulk h then Qmax c2 0.85 else c2
    | None => nl_confidence st
    end.
Proof.
  unfold check_headers. destruct headers as [h|]; [| reflexivity].
  cbv zeta. destruct (precedence_bulk h); reflexivity.
Qed.

Lemma check_subject_confidence subject st :
  nl_confidence (check_subject RegExp_test subject st)
  = match subject with
    | Some subj =>
        if truthy subj && found (checkSubjectPatterns RegExp_test subj)
        then Qmax (nl_confidence st) 0.60
        else nl_confidence st
    | None => nl_confidence st
    end.
Proof.
  unfold check_subject. destruct subject as [subj|]; [| reflexivity].
  destruct (truthy subj); [| reflexivity].
  cbn [andb]. apply take_check_confidence.
Qed.

(** X26.  The order of the six checks does not matter for the confidence: it is
    the largest level among the rules that fired (list headers 0.95, campaign
    headers 0.90, Precedence 0.85, sender pattern 0.75, newsletter domain 0.85,
    subject 0.60), and 0 when none did. *)
Theorem confidence_is_highest_fired_level
    (senderEmail : string) (headers : option (gmap string string))
    (subject : option string) :
  let in_headers (f : gmap string string → bool) : bool :=
    match headers with Some h => f h | None => false end in
  let in_subject : bool :=
    match subject with
    | Some subj => truthy subj && found (checkSubjectPatterns RegExp_test subj)
    | None => false
    end in
  nd_confidence (detect RegExp_test senderEmail headers subject)
  == Qmax (fired (in_headers (λ h, existsb (header_set h) LIST_HEADERS)) 0.95)
       (Qmax (fired (in_headers (λ h, existsb (header_set h) CAMPAIGN_HEADERS)) 0.90)
          (Qmax (fired (in_headers precedence_bulk) 0.85)
             (Qmax (fired (found (checkSenderPatterns RegExp_test senderEmail)) 0.75)
                (Qmax (fired (found (checkNewsletterDomain senderEmail)) 0.85)
                   (fired in_subject 0.60))))).
Proof.
  intros in_headers in_subject. subst in_headers in_subject.
  unfold detect. cbv zeta.
  change (nd_confidence {| isNewsletter := ?b; nd_confidence := ?c; nd_reasons := ?r |})
    with c.
  rewrite check_subject_confidence, !take_check_confidence.
  rewrite check_headers_confidence.
  destruct headers as [h|].
  - destruct (checkListHeaders_spec h) as [_ <-].
    destruct (checkCampaignHeaders_spec h) as [_ <-].
    rewrite !take_check_confidence.
    change (nl_confidence {| nl_reasons := []; nl_confidence := 0 |}) with 0.
    generalize (found (checkListHeaders h)) (found (checkCampaignHeaders h))
      (precedence_bulk h) (found (checkSenderPatterns RegExp_test senderEmail))
      (found (checkNewsletterDomain senderEmail)).
    intros b1 b2 b3 b4 b5.
    destruct subject as [subj|];
      [destruct (truthy subj);
       [generalize (found (checkSubjectPatterns RegExp_test subj)); intros b6 |] |];
      destruct b1, b2, b3, b4, b5; try destruct b6; vm_compute; reflexivity.
  - change (nl_confidence {| nl_reasons := []; nl_confidence := 0 |}) with 0.
    generalize (found (checkSenderPatterns RegExp_test senderEmail))
      (found (checkNewsletterDomain senderEmail)).
    intros b4 b5.
    destruct subject as [subj|];
      [destruct (truthy subj);
       [generalize (found (checkSubjectPatterns RegExp_test subj)); intros b6 |] |];
      destruct b4, b5; try destruct b6; vm_compute; reflexivity.
Qed.

End NewsletterGateFacts.

(** ** OTPGate *)

Section OTPGateFacts.
Import JSString OTPGate OTPGateInv.
Local Open Scope Q_scope.

Variable RegExp_test : Pattern → string → bool.
Variable String_match : Pattern → string → option (option string).
Variable parseInt : string → JSNumber.
Variable Number_toString : JSNumber → string.

Lemma lift_hit (c : Q) (r : string) (st : Locals) :
  0.65 <= c <= 0.95 → idle st ∨ hit st → hit (lift c r st).
Proof.
  intros Hc Hst. unfold hit, lift. cbn [o_reasons o_confidence]. split.
  - destruct (o_reasons st); discriminate.
  - assert (H : 0 <= o_confidence st <= 0.95).
    { destruct Hst as [(_ & H & _)|(_ & H)]; lra. }
    destruct (Q.max_spec (o_confidence st) c) as [[H' E]|[H' E]]; rewrite E; lra.
Qed.

Lemma lift_same_age c r st : same_age st (lift c r st).
Proof. split; reflexivity. Qed.

Lemma set_otpInfo_hit info st : hit st → hit (set_otpInfo info st).
Proof. intros H. exact H. Qed.

Lemma otpInfo_if_unset_hit info st : hit st → hit (otpInfo_if_unset info st).
Proof. intros H. unfold otpInfo_if_unset. destruct (o_otpInfo st); exact H. Qed.

Lemma otpInfo_if_unset_same_age info st : same_age st (otpInfo_if_unset info st).
Proof. unfold otpInfo_if_unset. destruct (o_otpInfo st); split; reflexivity. Qed.

Lemma same_age_refl st : same_age st st.
Proof. split; reflexivity. Qed.

Lemma same_age_trans st1 st2 st3 :
  same_age st1 st2 → same_age st2 st3 → same_age st1 st3.
Proof. intros [A1 B1] [A2 B2]. split; congruence. Qed.

Lemma otp_check_subject_spec subject st :
  idle st ∨ hit st →
  (idle (check_subject RegExp_test String_match parseInt subject st)
   ∨ hit (check_subject RegExp_test String_match parseInt subject st))
  ∧ same_age st (check_subject RegExp_test String_match parseInt subject st).
Proof.
  intros Hst. unfold check_subject.
  destruct subject as [subj|]; [| split; [exact Hst | apply same_age_refl]].
  destruct (truthy subj); [| split; [exact Hst | apply same_age_refl]].
  cbv zeta.
  set (st1 := match List.find _ OTP_SUBJECT_PATTERNS with
              | Some pattern => _
              | None => st
              end).
  assert (H1 : (idle st1 ∨ hit st1) ∧ same_age st st1).
  { subst st1. destruct (List.find _ OTP_SUBJECT_PATTERNS).
    - split; [right; apply lift_hit; [lra | exact Hst] | apply lift_same_age].
    - split; [exact Hst | apply same_age_refl]. }
  clearbody st1. destruct H1 as [H1 A1].
  destruct (extractCode String_match parseInt subj false) as [code|];
    [| split; assumption].
  destruct (truthy code); [| split; assumption].
  split.
  - right. apply otpInfo_if_unset_hit, lift_hit; [lra | exact H1].
  - eapply same_age_trans; [exact A1 |].
    eapply same_age_trans; [apply lift_same_age | apply otpInfo_if_unset_same_age].
Qed.

Lemma keyword_confidence_range (n : nat) :
  (0 < n)%nat → 0.65 <= Qmin (0.70 + inject_Z (Z.of_nat n) * 0.10) 0.95 <= 0.95.
Proof.
  intros Hn. split; [| apply Q.le_min_r].
  apply Q.min_glb; [| lra].
  assert (H : 1 <= inject_Z (Z.of_nat n)).
  { change 1 with (inject_Z 1). rewrite <- Zle_Qle. lia. }
  nra.
Qed.

Lemma otp_check_keywords_spec bodySnippet st :
  idle st ∨ hit st →
  (idle (check_keywords RegExp_test String_match parseInt bodySnippet st)
   ∨ hit (check_keywords RegExp_test String_match parseInt bodySnippet st))
  ∧ same_age st (check_keywords RegExp_test String_match parseInt bodySnippet st).
Proof.
  intros Hst. unfold check_keywords. cbv zeta.
  set (n := length (List.filter _ OTP_KEYWORDS)). clearbody n.
  destruct (0 <? n)%nat eqn:En; [| split; [exact Hst | apply same_age_refl]].
  apply Nat.ltb_lt in En.
  pose proof (keyword_confidence_range n En) as Hc.
  set (c := Qmin _ 0.95) in *. clearbody c.
  pose proof (lift_hit c ("Body contains " +:+ pretty n +:+ " OTP keyword(s)") st Hc Hst)
    as H1.
  pose proof (lift_same_age c ("Body contains " +:+ pretty n +:+ " OTP keyword(s)") st)
    as A1.
  set (st1 := lift c _ st) in *. clearbody st1.
  destruct (extractCode String_match parseInt bodySnippet true) as [code|];
    [| split; [right; exact H1 | exact A1]].
  destruct (truthy code); [| split; [right; exact H1 | exact A1]].
  split.
  - right. apply otpInfo_if_unset_hit, lift_hit; [lra | right; exact H1].
  - eapply same_age_trans; [exact A1 |].
    eapply same_age_trans; [apply lift_same_age | apply otpInfo_if_unset_same_age].
Qed.

Lemma otp_check_expiry_spec bodySnippet st :
  idle st ∨ hit st →
  (idle (check_expiry String_match parseInt Number_toString bodySnippet st)
   ∨ hit (check_expiry String_match parseInt Number_toString bodySnippet st))
  ∧ o_ageMinutes (check_expiry String_match parseInt Number_toString bodySnippet st)
    = o_ageMinutes st
  ∧ o_isExpired (check_expiry String_match parseInt Number_toString bodySnippet st)
    = o_isExpired st
      || match extractExpiryTime String_match parseInt bodySnippet with
         | Some minutes => outlived minutes (o_ageMinutes st)
         | None => false
         end.
Proof.
  intros Hst. unfold check_expiry.
  destruct (extractExpiryTime String_match parseInt bodySnippet) as [minutes|];
    [| split; [exact Hst | split; [reflexivity | by rewrite orb_false_r]]].
  cbv zeta.
  pose proof (lift_hit 0.85
                ("Code expires in " +:+ Number_toString minutes +:+ " minutes") st
                ltac:(lra) Hst) as H1.
  pose proof (lift_same_age 0.85
                ("Code expires in " +:+ Number_toString minutes +:+ " minutes") st)
    as [A1 B1].
  set (st1 := lift 0.85 _ st) in *. clearbody st1.
  set (st2 := match o_otpInfo st1 with
              | Some info => _
              | None => st1
              end).
  assert (H2 : hit st2 ∧ o_ageMinutes st2 = o_ageMinutes st
               ∧ o_isExpired st2 = o_isExpired st).
  { subst st2. destruct (o_otpInfo st1); repeat split; try apply H1; assumption. }
  clearbody st2. destruct H2 as (H2 & A2 & B2).
  rewrite A2. destruct (outlived minutes (o_ageMinutes st)).
  - split; [right; exact H2 | split; [exact A2 | by rewrite orb_true_r]].
  - split; [right; exact H2 | split; [exact A2 | by rewrite orb_false_r]].
Qed.

Lemma otp_check_time_language_spec bodySnippet st :
  idle st ∨ hit st →
  (idle (check_time_language RegExp_test bodySnippet st)
   ∨ hit (check_time_language RegExp_test bodySnippet st))
  ∧ same_age st (check_time_language RegExp_test bodySnippet st).
Proof.
  intros Hst. unfold check_time_language.
  destruct (existsb _ TIME_INDICATORS).
  - split; [right; apply lift_hit; [lra | exact Hst] | apply lift_same_age].
  - split; [exact Hst | apply same_age_refl].
Qed.

Lemma otp_check_body_spec bodyText st :
  idle st ∨ hit st →
  (idle (check_body RegExp_test String_match parseInt Number_toString bodyText st)
   ∨ hit (check_body RegExp_test String_match parseInt Number_toString bodyText st))
  ∧ o_ageMinutes
      (check_body RegExp_test String_match parseInt Number_toString bodyText st)
    = o_ageMinutes st
  ∧ o_isExpired
      (check_body RegExp_test String_match parseInt Number_toString bodyText st)
    = o_isExpired st || body_outlived String_match parseInt bodyText (o_ageMinutes st).
Proof.
  intros Hst. unfold check_body, body_outlived.
  destruct bodyText as [b|];
    [| split; [exact Hst | split; [reflexivity | by rewrite orb_false_r]]].
  destruct (truthy b);
    [| split; [exact Hst | split; [reflexivity | by rewrite orb_false_r]]].
  cbv zeta. cbn [andb].
  set (s := String.substring 0 500 b). clearbody s.
  destruct (otp_check_keywords_spec s st Hst) as (H1 & A1 & B1).
  set (st1 := check_keywords _ _ _ s st) in *. clearbody st1.
  destruct (otp_check_expiry_spec s st1 H1) as (H2 & A2 & B2).
  set (st2 := check_expiry _ _ _ s st1) in *. clearbody st2.
  destruct (otp_check_time_language_spec s st2 H2) as (H3 & A3 & B3).
  split; [exact H3 |]. split; [congruence |].
  rewrite B3, B2, B1, A1. reflexivity.
Qed.

Lemma otp_check_service_spec senderEmail bodyText st :
  idle st ∨ hit st →
  (idle (check_service RegExp_test senderEmail bodyText st)
   ∨ hit (check_service RegExp_test senderEmail bodyText st))
  ∧ same_age st (check_service RegExp_test senderEmail bodyText st).
Proof.
  intros Hst. unfold check_service.
  destruct (identifyService RegExp_test senderEmail bodyText) as [service|];
    [| split; [exact Hst | apply same_age_refl]].
  destruct (truthy service); [| split; [exact Hst | apply same_age_refl]].
  cbv zeta.
  pose proof (lift_hit 0.70 ("From known service: " +:+ service) st ltac:(lra) Hst)
    as H1.
  pose proof (lift_same_age 0.70 ("From known service: " +:+ service) st) as A1.
  set (st1 := lift 0.70 _ st) in *. clearbody st1.
  destruct (o_otpInfo st1); split; try (right; exact H1); exact A1.
Qed.

Lemma otp_check_sender_spec senderEmail st :
  idle st ∨ hit st →
  (idle (check_sender RegExp_test senderEmail st)
   ∨ hit (check_sender RegExp_test senderEmail st))
  ∧ same_age st (check_sender RegExp_test senderEmail st).
Proof.
  intros Hst. unfold check_sender.
  destruct (existsb _ securitySenderPatterns).
  - split; [right; apply lift_hit; [lra | exact Hst] | apply lift_same_age].
  - split; [exact Hst | apply same_age_refl].
Qed.

Lemma otp_check_age_spec dateNow emailDate :
  idle (check_age dateNow emailDate)
  ∧ o_ageMinutes (check_age dateNow emailDate)
    = (λ d, ((dateNow - d) / (1000 * 60))%Z) <$> emailDate
  ∧ o_isExpired (check_age dateNow emailDate)
    = match emailDate with
      | Some d => (15 <? (dateNow - d) / (1000 * 60))%Z
      | None => false
      end.
Proof.
  unfold check_age, idle. destruct emailDate; cbn; repeat split; reflexivity.
Qed.

(** Steps 1 to 4 in one go. *)
Lemma rules_spec dateNow senderEmail subject bodyText emailDate :
  let st :=
    check_sender RegExp_test senderEmail
      (check_service RegExp_test senderEmail bodyText
         (check_body RegExp_test String_match parseInt Number_toString bodyText
            (check_subject RegExp_test String_match parseInt subject
               (check_age dateNow emailDate)))) in
  (idle st ∨ hit st)
  ∧ o_ageMinutes st = (λ d, ((dateNow - d) / (1000 * 60))%Z) <$> emailDate
  ∧ o_isExpired st
    = match emailDate with
      | Some d =>
          (15 <? (dateNow - d) / (1000 * 60))%Z
          || body_outlived String_match parseInt bodyText (Some ((dateNow - d) / (1000 * 60))%Z)
      | None => false
      end.
Proof.
  intros st. subst st.
  destruct (otp_check_age_spec dateNow emailDate) as (H0 & A0 & B0).
  set (st0 := check_age dateNow emailDate) in *. clearbody st0.
  destruct (otp_check_subject_spec subject st0 (or_introl H0)) as (H1 & A1 & B1).
  set (st1 := check_subject _ _ _ subject st0) in *. clearbody st1.
  destruct (otp_check_body_spec bodyText st1 H1) as (H2 & A2 & B2).
  set (st2 := check_body _ _ _ _ bodyText st1) in *. clearbody st2.
  destruct (otp_check_service_spec senderEmail bodyText st2 H2) as (H3 & A3 & B3).
  set (st3 := check_service _ senderEmail bodyText st2) in *. clearbody st3.
  destruct (otp_check_sender_spec senderEmail st3 H3) as (H4 & A4 & B4).
  split; [exact H4 |]. split; [congruence |].
  rewrite B4, B3, B2, B1, B0, A1, A0.
  destruct emailDate as [d|]; cbn [fmap option_fmap option_map].
  - reflexivity.
  - unfold body_outlived. destruct bodyText as [b|]; [| reflexivity].
    destruct (truthy b); [| reflexivity].
    cbn [andb orb]. destruct (extractExpiryTime _ _ _); reflexivity.
Qed.

(** X27.  The 0.65 threshold never decides anything: every rule that fires lifts
    the confidence into [0.65, 0.95], so [hasOTP] says whether some rule fired.
    When none did, the confidence is 0, no [otpInfo] is returned and the only
    reason there can be is the note on an expired message. *)
Theorem otp_threshold
    (dateNow : Z) (senderEmail : string) (subject bodyText : option string)
    (emailDate : option Z) :
  let r := detect RegExp_test String_match parseInt Number_toString
             dateNow senderEmail subject bodyText emailDate in
  (hasOTP r = true ↔ 0.65 <= od_confidence r <= 0.95)
  ∧ (hasOTP r = false ↔ od_confidence r == 0)
  ∧ (hasOTP r = false →
     otpInfo r = None
     ∧ od_reasons r
       = if isExpired r then ["OTP likely expired (email too old)"] else []).
Proof.
  intros r. subst r. unfold detect. cbv zeta.
  cbn [hasOTP od_confidence otpInfo od_reasons isExpired].
  destruct (rules_spec dateNow senderEmail subject bodyText emailDate) as (H & _ & _).
  cbv zeta in H.
  set (st := check_sender _ senderEmail _) in *. clearbody st.
  assert (Hc : o_confidence (check_expired st) = o_confidence st).
  { unfold check_expired. destruct (o_isExpired st); reflexivity. }
  assert (He : o_isExpired (check_expired st) = o_isExpired st).
  { unfold check_expired. destruct (o_isExpired st) eqn:E; [reflexivity | exact E]. }
  assert (Hr : o_reasons (check_expired st)
               = o_reasons st
                 ++ (if o_isExpired st
                     then ["OTP likely expired (email too old)"] else [])).
  { unfold check_expired. destruct (o_isExpired st);
      [reflexivity | by rewrite app_nil_r]. }
  rewrite Hc, He, Hr. clear Hc He Hr.
  destruct H as [(Hr & Hc & Hi)|(Hr & Hc)].
  - assert (E : Qle_bool 0.65 (o_confidence st) = false).
    { apply not_true_iff_false. rewrite Qle_bool_iff. intros H. lra. }
    rewrite E, Hr. split; [| split].
    + split; [discriminate | intros H; lra].
    + split; [intros _; exact Hc | reflexivity].
    + intros _. split; reflexivity.
  - assert (E : Qle_bool 0.65 (o_confidence st) = true).
    { apply Qle_bool_iff. lra. }
    rewrite E. split; [| split].
    + split; [intros _; exact Hc | reflexivity].
    + split; [discriminate | intros H; lra].
    + discriminate.
Qed.

(** X28.  When a message counts as expired: it has a date, and either it is more
    than 15 whole minutes old or the body states an expiry time shorter than its
    non-zero age. An expired message always ends its reasons with the note on
    that, whatever the confidence. *)
Theorem otp_expiry
    (dateNow : Z) (senderEmail : string) (subject bodyText : option string)
    (emailDate : option Z) :
  let r := detect RegExp_test String_match parseInt Number_toString
             dateNow senderEmail subject bodyText emailDate in
  ageMinutes r = (λ d, ((dateNow - d) / 60000)%Z) <$> emailDate
  ∧ isExpired r
    = match ageMinutes r with
      | Some age =>
          (15 <? age)%Z
          || match bodyText with
             | Some b =>
                 truthy b
                 && match extractExpiryTime String_match parseInt
                            (String.substring 0 500 b) with
                    | Some minutes =>
                        negb (age =? 0)%Z && num_lt minutes (Finite (inject_Z age))
                    | None => false
                    end
             | None => false
             end
      | None => false
      end
  ∧ (isExpired r = true →
     last (od_reasons r) = Some "OTP likely expired (email too old)").
Proof.
  intros r. subst r. unfold detect. cbv zeta.
  cbn [ageMinutes od_reasons isExpired].
  destruct (rules_spec dateNow senderEmail subject bodyText emailDate) as (_ & A & B).
  cbv zeta in A, B.
  set (st := check_sender _ senderEmail _) in *. clearbody st.
  assert (Ha : o_ageMinutes (check_expired st) = o_ageMinutes st).
  { unfold check_expired. destruct (o_isExpired st); reflexivity. }
  assert (He : o_isExpired (check_expired st) = o_isExpired st).
  { unfold check_expired. destruct (o_isExpired st) eqn:E; [reflexivity | exact E]. }
  rewrite Ha, He, A. change (1000 * 60)%Z with 60000%Z in *.
  split; [reflexivity |]. split.
  - rewrite B. destruct emailDate as [d|]; [| reflexivity].
    cbn [fmap option_fmap option_map]. reflexivity.
  - intros E. unfold check_expired. rewrite E. cbn [o_reasons].
    apply last_snoc.
Qed.

Lemma includes_here (needle hay : string) :
  String.prefix needle hay = true → includes needle hay = true.
Proof. intros H. destruct hay; cbn [includes]; rewrite H; reflexivity. Qed.

Lemma prefix_append (needle hay more : string) :
  String.prefix needle hay = true → String.prefix needle (hay +:+ more) = true.
Proof.
  revert hay. induction needle as [|c needle IH]; intros hay H.
  - destruct hay; [destruct more |]; reflexivity.
  - destruct hay as [|x hay]; [discriminate |].
    cbn [String.prefix] in H.
    change (String x hay +:+ more) with (String x (hay +:+ more)).
    cbn [String.prefix].
    destruct (ascii_dec c x); [| discriminate]. apply IH, H.
Qed.

Lemma includes_append_r (needle hay more : string) :
  includes needle hay = true → includes needle (hay +:+ more) = true.
Proof.
  induction hay as [|x hay IH]; intros H.
  - cbn [includes] in H. rewrite orb_false_r in H.
    apply includes_here. apply (prefix_append needle EmptyString more H).
  - cbn [includes] in H. apply orb_true_iff in H.
    change (String x hay +:+ more) with (String x (hay +:+ more)).
    cbn [includes]. apply orb_true_iff. destruct H as [H|H].
    + left. apply (prefix_append needle (String x hay) more H).
    + right. apply IH, H.
Qed.

Lemma includes_append_l (needle more hay : string) :
  includes needle hay = true → includes needle (more +:+ hay) = true.
Proof.
  intros H. induction more as [|x more IH]; [exact H |].
  change (String x more +:+ hay) with (String x (more +:+ hay)).
  cbn [includes]. rewrite IH. apply orb_true_r.
Qed.

Lemma includes_within (needle before hay after : string) :
  includes needle (toLowerCase hay) = true →
  includes needle (toLowerCase (before +:+ hay +:+ after)) = true.
Proof.
  intros H. rewrite !toLowerCase_app.
  apply includes_append_l, includes_append_r, H.
Qed.

(** X29.  The kind of a code depends on the lower-cased text only, and "reset"
    wins over everything: a text classified as a reset stays one whatever is put
    before or after it. *)
Theorem determineOTPType_reset_wins (text : string) :
  determineOTPType (toLowerCase text) = determineOTPType text
  ∧ (determineOTPType text = type_reset →
     ∀ before after,
       determineOTPType (before +:+ text +:+ after) = type_reset).
Proof.
  split.
  - unfold determineOTPType. cbv zeta. rewrite toLowerCase_idem. reflexivity.
  - unfold determineOTPType. cbv zeta. intros H before after.
    destruct (includes "reset" (toLowerCase text)
              || includes "recover" (toLowerCase text)) eqn:E.
    + apply orb_true_iff in E.
      assert (E' : includes "reset" (toLowerCase (before +:+ text +:+ after))
                   || includes "recover" (toLowerCase (before +:+ text +:+ after))
                   = true).
      { apply orb_true_iff.
        destruct E as [E|E]; [left | right]; apply includes_within, E. }
      rewrite E'. reflexivity.
    + exfalso. revert H.
      repeat match goal with |- context [if ?b then _ else _] => destruct b end;
        discriminate.
Qed.

(** X30.  With a positive expiry time the urgency is a finite number, never
    below 0; it is 0 exactly when the message is at least as old as the expiry
    time, and it exceeds 1 exactly when the message is dated after now. *)
Theorem calculateUrgency_range (dateNow emailDate : Z) (expiryMinutes : Q) :
  0 < expiryMinutes →
  ∃ u, calculateUrgency dateNow emailDate expiryMinutes = Finite u
       ∧ 0 <= u
       ∧ (u == 0 ↔ expiryMinutes * 60000 <= inject_Z (dateNow - emailDate))
       ∧ (1 < u ↔ (dateNow < emailDate)%Z).
Proof.
  intros Hpos. unfold calculateUrgency. cbv zeta.
  change (inject_Z (1000 * 60)) with 60000.
  set (d := inject_Z (dateNow - emailDate)).
  assert (Hd : d < 0 ↔ (dateNow < emailDate)%Z).
  { subst d. change 0 with (inject_Z 0). rewrite <- Zlt_Qlt. lia. }
  clearbody d.
  assert (Hage : ∀ x, x <= d / 60000 ↔ x * 60000 <= d).
  { intros x. split; intros H.
    - apply Qmult_le_r with (z := / 60000); [reflexivity |].
      rewrite <- Qmult_assoc, Qmult_inv_r, Qmult_1_r by discriminate. exact H.
    - apply Qmult_le_r with (z := 60000); [reflexivity |].
      unfold Qdiv. rewrite <- Qmult_assoc, (Qmult_comm (/ 60000)), Qmult_inv_r,
        Qmult_1_r by discriminate. exact H. }
  destruct (Qle_bool expiryMinutes (d / 60000)) eqn:E.
  - apply Qle_bool_iff in E. exists 0. split; [reflexivity |].
    split; [lra |]. split.
    + split; [intros _; apply Hage, E | reflexivity].
    + split; [intros H; lra |].
      intros H. apply Hd in H. apply Hage in E. nra.
  - assert (E' : ¬ expiryMinutes <= d / 60000).
    { intros H. apply Qle_bool_iff in H. congruence. }
    assert (N : Qeq_bool expiryMinutes 0 = false).
    { apply not_true_iff_false. intros H. apply Qeq_bool_iff in H. lra. }
    rewrite N. eexists. split; [reflexivity |].
    assert (Hq : d / 60000 / expiryMinutes < 1).
    { apply Qlt_shift_div_r; [exact Hpos | lra]. }
    assert (Hs : d < 0 ↔ d / 60000 / expiryMinutes < 0).
    { split; intros H.
      - apply Qlt_shift_div_r; [exact Hpos |].
        rewrite Qmult_0_l. apply Qlt_shift_div_r; [reflexivity | lra].
      - apply Qnot_le_lt. intros H0.
        assert (0 <= d / 60000 / expiryMinutes); [| lra].
        apply Qle_shift_div_l; [exact Hpos |]. rewrite Qmult_0_l.
        apply Qle_shift_div_l; [reflexivity | lra]. }
    set (q := d / 60000 / expiryMinutes) in *.
    assert (Hm : Qmax 0 (1 - q) == 1 - q).
    { apply Q.max_r. lra. }
    rewrite Hm. split; [lra |]. split.
    + split; [intros H; lra | intros H; apply Hage in H; contradiction].
    + rewrite <- Hd, Hs. split; intros H; lra.
Qed.

End OTPGateFacts.

Lemma calculateUrgency_range_witness :
  (0 < 10)%Q
  ∧ ∃ u, OTPGate.calculateUrgency 1700000300000 1700000000000 10 = Finite u
         ∧ (0 <= u)%Q
         ∧ ((u == 0)%Q ↔
            (10 * 60000 <= inject_Z (1700000300000 - 1700000000000))%Q)
         ∧ ((1 < u)%Q ↔ (1700000300000 < 1700000000000)%Z).
Proof.
  split; [reflexivity |].
  apply (calculateUrgency_range 1700000300000 1700000000000 10). reflexivity.
Defined.

Lemma list_header_is_near_certain_witness :
  let h : gmap string string := {[ "list-id" := "<weekly.example.com>" ]} in
  let r := NewsletterGate.detect (λ _ _, false) "alice@example.com" (Some h)
             (Some "Hello") in
  "list-id" ∈ NewsletterGate.LIST_HEADERS
  ∧ NewsletterGate.header_set h "list-id" = true
  ∧ (nd_confidence r == 0.95)%Q ∧ isNewsletter r = true.
Proof.
  intros h r.
  assert (H1 : "list-id" ∈ NewsletterGate.LIST_HEADERS).
  { apply list_elem_of_In. simpl. tauto. }
  assert (H2 : NewsletterGate.header_set h "list-id" = true) by reflexivity.
  split; [exact H1 |]. split; [exact H2 |].
  exact (list_header_is_near_certain (λ _ _, false) "alice@example.com" h
           (Some "Hello") "list-id" H1 H2).
Defined.


Lemma checkCalendarService_domain_witness :
  CalendarGate.checkCalendarService "undisclosed" = None.
Proof.
  apply (proj2 (checkCalendarService_domain "undisclosed")).
  intros c Hc. apply list_elem_of_In in Hc. simpl in Hc.
  intuition (subst; discriminate).
Defined.

Lemma determineOTPType_reset_wins_witness :
  OTPGate.determineOTPType "Password reset" = type_reset
  ∧ OTPGate.determineOTPType ("Re: " +:+ "Password reset" +:+ ", code 1234")
    = type_reset.
Proof.
  split; [reflexivity |].
  apply (proj2 (determineOTPType_reset_wins "Password reset")). reflexivity.
Defined.

Lemma otp_threshold_witness :
  let r := OTPGate.detect (λ _ _, false) (λ _ _, None) (λ _, NaN) (λ _, "NaN")
             1700000000000 "alice@example.com" (Some "Lunch") (Some "See you at noon.")
             (Some 1699990000000%Z) in
  hasOTP r = false
  ∧ otpInfo r = None
  ∧ od_reasons r = ["OTP likely expired (email too old)"].
Proof.
  intros r.
  assert (H : hasOTP r = false) by reflexivity.
  split; [exact H |].
  exact (proj2 (proj2 (otp_threshold (λ _ _, false) (λ _ _, None) (λ _, NaN)
                         (λ _, "NaN") 1700000000000 "alice@example.com"
                         (Some "Lunch") (Some "See you at noon.")
                         (Some 1699990000000%Z))) H).
Defined.

(** ** Test vectors

    Cases of the repository's test-suites, replayed on the embedding. *)

Section TestVectors.
Import PriorityScorer ContentAnalyzer Fixtures.

Example neutral_email_scores_baseline :
  let r := calculatePriority 1700000000000 (createBaselineFeatures "test-001") in
  score r = 50 ∧ category r = normal ∧ confidence r = 0.8%Q ∧ reasoning r = [].
Proof. vm_compute. repeat split. Qed.

Example upcoming_calendar_event_is_important :
  let r := calculatePriority 1700000000000
             (set_calendar 1 (Some 1700007200) (createBaselineFeatures "test-001")) in
  score r = 70 ∧ category r = important
  ∧ reasoning r = ["Calendar invite: event in 2h"].
Proof. vm_compute. repeat split. Qed.

Example strong_relationship_reasoning :
  let r := calculatePriority 1700000000000
             (set_relationship_score 0.9 (createBaselineFeatures "test-001")) in
  score r = 77 ∧ category r = important
  ∧ reasoning r = ["Strong relationship with sender (score: 0.90)"].
Proof. vm_compute. repeat split. Qed.

Example suspected_security_alert :
  let r := calculatePriority 1700000000000
             (set_explicit_ask 1
                (set_time_to_deadline_min (Some 5)
                   (set_deadline_epoch (Some 1700000300)
                      (createBaselineFeatures "test-001")))) in
  score r = 100 ∧ category r = urgent
  ∧ reasoning r = ["Contains explicit question or request"; "Email has deadline";
                   "Deadline in 0h (urgent)";
                   "Potential security alert (urgent + short deadline)"].
Proof. vm_compute. repeat split. Qed.

Example urgent_keyword :
  detectUrgency "URGENT: Server Down"
    "We have an urgent situation that needs immediate attention."
  = {| urgency_level := 7;
       urgency_signals :=
         ["\b(urgent|emergency|critical|immediate(?:ly)?|asap|right away)\b";
          "ALL CAPS in subject"] |}.
Proof. vm_compute. reflexivity. Qed.

Example follow_up_keyword :
  detectUrgency "Follow-up on previous email" "Just following up on my last message."
  = {| urgency_level := 1; urgency_signals := ["\b(follow[- ]?up|reminder)\b"] |}.
Proof. vm_compute. reflexivity. Qed.

Example casual_email :
  detectUrgency "Happy Friday!" "Hope you have a great weekend."
  = {| urgency_level := 0; urgency_signals := [] |}.
Proof. vm_compute. reflexivity. Qed.

Example all_caps_subject :
  urgency_level (detectUrgency "URGENT ACTION REQUIRED NOW"
                   "Please review the attached document.") = 10.
Proof. vm_compute. reflexivity. Qed.

End TestVectors.
